(** * UserAuthDataService (ocariot/da-agent): the credential orchestration

    A shallow embedding of [src/application/service/user.auth.data.service.ts]
    and of the record shape of [src/infrastructure/entity/fitbit.auth.data.entity.ts].

    The service is a class whose methods are [async] functions over three
    injected collaborators (the user-auth-data repository, the Fitbit data
    repository, the logger) and two static validators.  None of the
    collaborators is implemented in these two files, so they are the fields of an
    environment record [Env]; every theorem that does not say otherwise holds
    for all environments.  A method is a computation that takes the state of
    the outside world, and returns a result (a value or a thrown exception),
    the new state of the world and the list of collaborator calls it issued,
    in order. *)

From Stdlib Require Import String Ascii List ZArith Bool Lia.
Import ListNotations.
Local Open Scope string_scope.
Local Open Scope Z_scope.

Set Implicit Arguments.

(** ** JavaScript values used by the service *)

Module JS.

(** [s.indexOf(pat)]: position of the first occurrence of [pat] in [s],
    or [-1]. *)
Fixpoint indexOf_from (i : Z) (s pat : string) : Z :=
  if String.prefix pat s then i
  else match s with
       | EmptyString => -1
       | String _ s' => indexOf_from (i + 1) s' pat
       end.

Definition indexOf (s pat : string) : Z := indexOf_from 0 s pat.

(** Occurrence of [pat] in [s] as a boolean; [indexOf_neq_m1] below shows
    that it is the test [s.indexOf(pat) !== -1]. *)
Fixpoint occurs (pat s : string) : bool :=
  if String.prefix pat s then true
  else match s with
       | EmptyString => false
       | String _ s' => occurs pat s'
       end.

(** [s.split(sep)] for a one-character separator: the pieces between the
    separators, empty pieces included, never the empty array. *)
Fixpoint split (sep : ascii) (s : string) : list string :=
  match s with
  | EmptyString => [EmptyString]
  | String c s' =>
      if Ascii.eqb c sep then EmptyString :: split sep s'
      else match split sep s' with
           | w :: ws => String c w :: ws
           | [] => [String c EmptyString]
           end
  end.

(** [arr.includes(x)] on an array of strings. *)
Definition includes (arr : list string) (x : string) : bool :=
  existsb (String.eqb x) arr.

(** Truthiness of an optional string: [undefined] and [''] are falsy. *)
Definition truthy_string (v : option string) : bool :=
  match v with
  | Some s => negb (String.eqb s "")
  | None => false
  end.

(** Truthiness of an optional number: [undefined] and [0] are falsy. *)
Definition truthy_number (v : option Z) : bool :=
  match v with
  | Some n => negb (n =? 0)
  | None => false
  end.

(** A value placed in a template literal: [undefined] prints as its name. *)
Definition template (v : option string) : string :=
  match v with
  | Some s => s
  | None => "undefined"
  end.

End JS.

(** ** Exceptions *)

(** The exception classes the service throws itself, the [TypeError] the
    runtime raises on a property access through [undefined], and any other
    error a collaborator may reject with. *)
Inductive Exn : Type :=
| ValidationException (message description : string)
| EventBusException (message description : string)
| TypeError (message : string)
| OtherError (name message : string).

Definition message (e : Exn) : string :=
  match e with
  | ValidationException m _ => m
  | EventBusException m _ => m
  | TypeError m => m
  | OtherError _ m => m
  end.

Definition isValidationException (e : Exn) : bool :=
  match e with ValidationException _ _ => true | _ => false end.

Definition isEventBusException (e : Exn) : bool :=
  match e with EventBusException _ _ => true | _ => false end.

(** ** Data model *)

(** [FitbitAuthData]: the fields of the entity, and the two fields
    ([status], [last_sync]) the service reads and writes on the domain
    object.  Every field is optional in the source. *)
Record FitbitAuthData : Type := mkFitbitAuthData {
  fb_user_id : option string;
  access_token : option string;
  expires_in : option Z;
  refresh_token : option string;
  scope : option string;
  token_type : option string;
  status : option string;
  last_sync : option string
}.

Record UserAuthData : Type := mkUserAuthData {
  id : option string;
  user_id : option string;
  fitbit : option FitbitAuthData
}.

(** The object [getTokenPayload] resolves with (typed [any] in the source):
    the three properties the service reads, each possibly missing. *)
Record TokenPayload : Type := mkTokenPayload {
  sub : option string;
  scopes : option string;
  exp : option Z
}.

(** [new Query().fromJSON({ filters: ... })] with the two filters in use. *)
Inductive Query : Type :=
| FilterUserId (uid : option string)
| FilterFitbitUserId (fid : string).

(** Field updates ([obj.field = v]). *)
Definition set_fb_user_id (v : option string) (f : FitbitAuthData) : FitbitAuthData :=
  mkFitbitAuthData v (access_token f) (expires_in f) (refresh_token f)
                   (scope f) (token_type f) (status f) (last_sync f).

Definition set_scope (v : option string) (f : FitbitAuthData) : FitbitAuthData :=
  mkFitbitAuthData (fb_user_id f) (access_token f) (expires_in f) (refresh_token f)
                   v (token_type f) (status f) (last_sync f).

Definition set_expires_in (v : option Z) (f : FitbitAuthData) : FitbitAuthData :=
  mkFitbitAuthData (fb_user_id f) (access_token f) v (refresh_token f)
                   (scope f) (token_type f) (status f) (last_sync f).

Definition set_token_type (v : option string) (f : FitbitAuthData) : FitbitAuthData :=
  mkFitbitAuthData (fb_user_id f) (access_token f) (expires_in f) (refresh_token f)
                   (scope f) v (status f) (last_sync f).

Definition set_status (v : option string) (f : FitbitAuthData) : FitbitAuthData :=
  mkFitbitAuthData (fb_user_id f) (access_token f) (expires_in f) (refresh_token f)
                   (scope f) (token_type f) v (last_sync f).

Definition set_fitbit (v : option FitbitAuthData) (d : UserAuthData) : UserAuthData :=
  mkUserAuthData (id d) (user_id d) v.

Definition set_id (v : option string) (d : UserAuthData) : UserAuthData :=
  mkUserAuthData v (user_id d) (fitbit d).

(** [new FitbitAuthData()]: every field undefined. *)
Definition emptyFitbitAuthData : FitbitAuthData :=
  mkFitbitAuthData None None None None None None None None.

(** ** Collaborator calls and computations *)

Inductive Result (A : Type) : Type :=
| Ok (a : A)
| Err (e : Exn).
Arguments Ok {A} a.
Arguments Err {A} e.

(** One entry per call issued to a collaborator, with its arguments. *)
Inductive Call : Type :=
| CheckUserExists (uid : option string)
| FindOne (q : Query)
| GetUserAuthDataByUserId (uid : string)
| Update (item : UserAuthData)
| Create (item : UserAuthData)
| GetTokenPayload (token : option string)
| SubscribeUserEvent (data : FitbitAuthData) (resource label : string)
| RevokeToken (token : option string)
| SyncFitbitUserData (data : FitbitAuthData) (lastSync : option string)
                     (attempts : Z) (uid : option string)
| SyncLastFitbitUserData (data : option FitbitAuthData) (uid : option string)
                         (type date : string) (attempts : Z)
| PublishLastSync (uid : option string) (lastSync : string)
| LoggerError (msg : string).

Section Computations.

(** The state of everything outside the service. *)
Variable W : Type.

Record Outcome (A : Type) : Type := mkOutcome {
  result : Result A;
  world : W;
  calls : list Call
}.

Definition M (A : Type) : Type := W -> Outcome A.

Definition ret {A} (a : A) : M A := fun w => mkOutcome (Ok a) w [].

(** [throw e] inside an async function, [Promise.reject(e)] at its end. *)
Definition throw {A} (e : Exn) : M A := fun w => mkOutcome (Err e) w [].

(** Sequencing, [await] included: an exception stops the sequence; the
    world and the calls made so far stay. *)
Definition bind {A B} (m : M A) (k : A -> M B) : M B :=
  fun w =>
    let o := m w in
    match result o with
    | Ok a => let o' := k a (world o) in
              mkOutcome (result o') (world o') (calls o ++ calls o')
    | Err e => mkOutcome (Err e) (world o) (calls o)
    end.

(** [try { m } catch (err) { h err }]. *)
Definition try_catch {A} (m : M A) (h : Exn -> M A) : M A :=
  fun w =>
    let o := m w in
    match result o with
    | Ok a => o
    | Err e => let o' := h e (world o) in
               mkOutcome (result o') (world o') (calls o ++ calls o')
    end.

(** An awaited call to a collaborator. *)
Definition call {A} (c : Call) (f : W -> Result A * W) : M A :=
  fun w => let (r, w') := f w in mkOutcome r w' [c].

(** A call whose promise is not awaited ([p.then().catch(...)], or a bare
    call statement): the call is issued, and neither its value nor its
    rejection reaches the caller. *)
Definition fire_and_forget {A} (c : Call) (f : W -> Result A * W) : M unit :=
  fun w => let (_, w') := f w in mkOutcome (Ok tt) w' [c].

(** [p.then().catch(err => handler(err.message))] on a call that is not
    awaited: a rejection is handed to [handler], whose own outcome is
    dropped as well. *)
Definition fire_and_catch {A B} (c : Call) (f : W -> Result A * W)
           (c' : string -> Call) (handler : string -> W -> Result B * W) : M unit :=
  fun w =>
    let (r, w') := f w in
    match r with
    | Ok _ => mkOutcome (Ok tt) w' [c]
    | Err e => let (_, w'') := handler (message e) w' in
               mkOutcome (Ok tt) w'' [c; c' (message e)]
    end.

(** A static validator: returns, or throws. *)
Definition check (v : option Exn) : M unit :=
  match v with
  | None => ret tt
  | Some e => throw e
  end.

(** [obj!.prop] where [obj] may be [undefined]: the non-null assertion is
    erased by the compiler, and the access throws a [TypeError]. *)
Definition deref {A} (o : option A) (prop : string) : M A :=
  match o with
  | Some a => ret a
  | None => throw (TypeError ("Cannot read property '" ++ prop ++ "' of undefined"))
  end.

End Computations.

Arguments ret {W A} a.
Arguments throw {W A} e.
Arguments check {W} v.
Arguments deref {W A} o prop.

Declare Scope service_scope.
Delimit Scope service_scope with service.
Notation "x <- m ;; k" := (bind m (fun x => k))
  (at level 100, m at next level, right associativity) : service_scope.
Notation "m ;;; k" := (bind m (fun _ => k))
  (at level 100, right associativity) : service_scope.

(** ** The collaborators *)

(** The injected repositories, the logger and the two static validators.
    A repository method takes the world and returns what its promise settles
    with, and the world after the call.  A validator is pure: [None] when it
    returns, [Some e] when it throws [e].  [D] is the type of the [DataSync]
    objects a synchronisation resolves with. *)
Record Env (W D : Type) : Type := mkEnv {
  (* CreateUserAuthDataValidator.validate, ObjectIdValidator.validate *)
  validateCreateUserAuthData : UserAuthData -> option Exn;
  validateObjectId : string -> option Exn;
  (* this._userAuthDataRepo *)
  repo_checkUserExists : option string -> W -> Result bool * W;
  repo_findOne : Query -> W -> Result (option UserAuthData) * W;
  repo_getUserAuthDataByUserId : string -> W -> Result (option UserAuthData) * W;
  repo_update : UserAuthData -> W -> Result UserAuthData * W;
  repo_create : UserAuthData -> W -> Result UserAuthData * W;
  (* this._fitbitAuthDataRepo *)
  fitbit_getTokenPayload : option string -> W -> Result TokenPayload * W;
  fitbit_subscribeUserEvent : FitbitAuthData -> string -> string -> W -> Result unit * W;
  fitbit_revokeToken : option string -> W -> Result unit * W;
  fitbit_syncFitbitUserData :
    FitbitAuthData -> option string -> Z -> option string -> W -> Result D * W;
  fitbit_syncLastFitbitUserData :
    option FitbitAuthData -> option string -> string -> string -> Z -> W -> Result unit * W;
  fitbit_publishLastSync : option string -> string -> W -> Result unit * W;
  (* this._logger *)
  logger_error : string -> W -> Result unit * W
}.

(** ** The service *)

Module UserAuthDataService.

(** The messages of the exceptions the service constructs. *)
Definition MSG_SCOPE : string :=
  "The token must have permission for at least one of the features that are synced by the API.".
Definition DESC_SCOPE : string :=
  "The features that are mapped are: rwei (weight), ract (activity), rsle (sleep).".
Definition MSG_NOT_REGISTERED : string :=
  "The user does not have register on platform: ".
Definition MSG_EVENTBUS : string :=
  "Communication with the message bus cannot be performed.".
Definition DESC_EVENTBUS : string :=
  "Probably, the message service is unavailable.".
Definition MSG_NO_AUTH_DATA : string :=
  "User does not have authentication data. Please, submit authentication data and try again.".

(** A [ValidationException] built with a message only. *)
Definition validationException (msg : string) : Exn := ValidationException msg "".

Section Service.

Variables W D : Type.
Variable env : Env W D.

Local Open Scope service_scope.

(** The four assignments of [manageFitbitAuthData] on [data.fitbit]
    (the three guarded ones, then the token type). *)
Definition assignTokenPayload (payload : TokenPayload) (f : FitbitAuthData)
  : FitbitAuthData :=
  let f := if JS.truthy_string (sub payload)
           then set_fb_user_id (sub payload) f else f in
  let f := if JS.truthy_string (scopes payload)
           then set_scope (scopes payload) f else f in
  let f := if JS.truthy_number (exp payload)
           then set_expires_in (exp payload) f else f in
  set_token_type (Some "Bearer") f.

(** [manageFitbitAuthData]: introspects the access token and writes the
    truthy properties of the payload into [data.fitbit]; the object
    returned is [data] itself. *)
Definition manageFitbitAuthData (data : UserAuthData) : M W UserAuthData :=
  try_catch
    (f <- deref (fitbit data) "access_token" ;;
     payload <- call (GetTokenPayload (access_token f))
                     (fitbit_getTokenPayload env (access_token f)) ;;
     ret (set_fitbit (Some (assignTokenPayload payload f)) data))
    (fun err => throw err).

(** [subscribeFitbitEvents]: the scope check, then one subscription per
    recognised scope, in the order weight, activity, sleep. *)
Definition subscribeFitbitEvents (data : UserAuthData) : M W unit :=
  try_catch
    (f <- deref (fitbit data) "scope" ;;
     s <- deref (scope f) "split" ;;
     let scopes := JS.split " " s in
     if negb (JS.includes scopes "rwei") || negb (JS.includes scopes "ract")
        || negb (JS.includes scopes "rsle")
     then throw (ValidationException MSG_SCOPE DESC_SCOPE)
     else
       (if JS.includes scopes "rwei"
        then call (SubscribeUserEvent f "body" "BODY")
                  (fitbit_subscribeUserEvent env f "body" "BODY")
        else ret tt) ;;;
       (if JS.includes scopes "ract"
        then call (SubscribeUserEvent f "activities" "ACTIVITIES")
                  (fitbit_subscribeUserEvent env f "activities" "ACTIVITIES")
        else ret tt) ;;;
       (if JS.includes scopes "rsle"
        then call (SubscribeUserEvent f "sleep" "SLEEP")
                  (fitbit_subscribeUserEvent env f "sleep" "SLEEP")
        else ret tt))
    (fun err => throw err).

(** The second half of the [try] block of [add]: the directory check
    and the create-or-update on the repository. *)
Definition add_persist (newItem : UserAuthData) : M W UserAuthData :=
  exists_ <- call (CheckUserExists (user_id newItem))
                  (repo_checkUserExists env (user_id newItem)) ;;
  if negb exists_
  then throw (validationException
                (MSG_NOT_REGISTERED ++ JS.template (user_id newItem)))
  else
    alreadySaved <- call (FindOne (FilterUserId (user_id newItem)))
                         (repo_findOne env (FilterUserId (user_id newItem))) ;;
    match alreadySaved with
    | Some saved =>
        let newItem := set_id (id saved) newItem in
        result <- call (Update newItem) (repo_update env newItem) ;;
        ret result
    | None =>
        authData <- call (Create newItem) (repo_create env newItem) ;;
        ret authData
    end.

(** The [try] block of [add].  [item] and [newItem] name one object in
    the source ([manageFitbitAuthData] returns its argument), so the
    record given to [subscribeFitbitEvents] is the one that carries the
    payload and the status. *)
Definition add_body (item : UserAuthData) : M W UserAuthData :=
  check (validateCreateUserAuthData env item) ;;;
  newItem <- manageFitbitAuthData item ;;
  f <- deref (fitbit newItem) "status" ;;
  let newItem := set_fitbit (Some (set_status (Some "valid_token") f)) newItem in
  subscribeFitbitEvents newItem ;;;
  add_persist newItem.

(** The [catch] block of [add]. *)
Definition add_handler (err : Exn) : M W UserAuthData :=
  if negb (JS.indexOf (message err) "rpc" =? -1)
  then throw (EventBusException MSG_EVENTBUS DESC_EVENTBUS)
  else throw err.

Definition add (item : UserAuthData) : M W UserAuthData :=
  try_catch (add_body item) add_handler.

(** [addFitbitAuthData]. *)
Definition addFitbitAuthData (data : UserAuthData) (initSync : string)
  : M W UserAuthData :=
  try_catch
    (result <- add data ;;
     (if negb (String.eqb initSync "false")
      then
        f <- deref (fitbit result) "last_sync" ;;
        fire_and_forget
          (SyncFitbitUserData f (last_sync f) 3 (user_id result))
          (fitbit_syncFitbitUserData env f (last_sync f) 3 (user_id result))
      else
        if String.eqb initSync "false"
        then
          f <- deref (fitbit result) "last_sync" ;;
          match last_sync f with
          | Some lastSync =>
              if JS.truthy_string (Some lastSync)
              then fire_and_forget
                     (PublishLastSync (user_id result) lastSync)
                     (fitbit_publishLastSync env (user_id result) lastSync)
              else ret tt
          | None => ret tt
          end
        else ret tt) ;;;
     ret result)
    (fun err => throw err).

(** [revokeFitbitAccessToken]. *)
Definition revokeFitbitAccessToken (userId : string) : M W bool :=
  try_catch
    (check (validateObjectId env userId) ;;;
     authData <- call (FindOne (FilterUserId (Some userId)))
                      (repo_findOne env (FilterUserId (Some userId))) ;;
     (match authData with
      | Some a =>
          f <- deref (fitbit a) "access_token" ;;
          call (RevokeToken (access_token f))
               (fitbit_revokeToken env (access_token f))
      | None => ret tt
      end) ;;;
     ret (match authData with Some _ => true | None => false end))
    (fun err => throw err).

(** [syncFitbitUserData].  The promise of the repository is returned as
    it is, so the method settles the way the synchronisation does. *)
Definition syncFitbitUserData (userId : string) : M W D :=
  try_catch
    (authData <- call (FindOne (FilterUserId (Some userId)))
                      (repo_findOne env (FilterUserId (Some userId))) ;;
     match authData with
     | None => throw (validationException MSG_NO_AUTH_DATA)
     | Some a =>
         match fitbit a with
         | None => throw (validationException MSG_NO_AUTH_DATA)
         | Some f =>
             call (SyncFitbitUserData f (last_sync f) 1 (Some userId))
                  (fitbit_syncFitbitUserData env f (last_sync f) 1 (Some userId))
         end
     end)
    (fun err => throw err).

(** [syncLastFitbitUserData]. *)
Definition syncLastFitbitUserData (fitbitUserId type date : string) : M W unit :=
  try_catch
    (authData <- call (FindOne (FilterFitbitUserId fitbitUserId))
                      (repo_findOne env (FilterFitbitUserId fitbitUserId)) ;;
     (match authData with
      | Some a =>
          fire_and_catch
            (SyncLastFitbitUserData (fitbit a) (user_id a) type date 1)
            (fitbit_syncLastFitbitUserData env (fitbit a) (user_id a) type date 1)
            LoggerError (logger_error env)
      | None => ret tt
      end) ;;;
     ret tt)
    (fun err => throw err).

(** [getFitbitAuthDataByUserId]. *)
Definition getFitbitAuthDataByUserId (userId : string) : M W FitbitAuthData :=
  try_catch
    (check (validateObjectId env userId) ;;;
     result <- call (GetUserAuthDataByUserId userId)
                    (repo_getUserAuthDataByUserId env userId) ;;
     match result with
     | Some a =>
         match fitbit a with
         | Some f => ret f
         | None => ret emptyFitbitAuthData
         end
     | None => ret emptyFitbitAuthData
     end)
    (fun err => throw err).

End Service.

End UserAuthDataService.

Import UserAuthDataService.

(** * Vocabulary of the properties *)

(** Selecting calls in a trace. *)
Definition isSubscription (c : Call) : bool :=
  match c with SubscribeUserEvent _ _ _ => true | _ => false end.

Definition isStoreWrite (c : Call) : bool :=
  match c with Create _ | Update _ => true | _ => false end.

Definition isRevocation (c : Call) : bool :=
  match c with RevokeToken _ => true | _ => false end.

Definition isSync (c : Call) : bool :=
  match c with SyncFitbitUserData _ _ _ _ => true | _ => false end.

Definition isPublishLastSync (c : Call) : bool :=
  match c with PublishLastSync _ _ => true | _ => false end.

(** How many calls of a trace satisfy [p]. *)
Definition count (p : Call -> bool) (l : list Call) : nat := length (filter p l).

(** The provider credential as [add] has it when the scope is checked:
    payload assigned, status set. *)
Definition linkedCredential (p : TokenPayload) (f : FitbitAuthData) : FitbitAuthData :=
  set_status (Some "valid_token") (assignTokenPayload p f).

(** The scope check of [subscribeFitbitEvents] on a scope string. *)
Definition hasScope (s tok : string) : bool := JS.includes (JS.split " " s) tok.

(** What the [catch] block of [add] turns a rejection into. *)
Definition surfaced (e : Exn) : Exn :=
  if JS.occurs "rpc" (message e)
  then EventBusException MSG_EVENTBUS DESC_EVENTBUS else e.

(** The calls [add] can issue. *)
Definition isLinkCall (c : Call) : bool :=
  match c with
  | GetTokenPayload _ | SubscribeUserEvent _ _ _ | CheckUserExists _
  | FindOne _ | Update _ | Create _ => true
  | _ => false
  end.

(** The provider credential of what a lookup found, if any. *)
Definition credentialOf (found : option UserAuthData) : option FitbitAuthData :=
  match found with
  | Some a => fitbit a
  | None => None
  end.

(** Every call the computation issues, from any world, satisfies [P]. *)
Definition emits (W : Type) (P : Call -> bool) (A : Type) (m : M W A) : Prop :=
  forall w, filter P (calls (m w)) = calls (m w).

(** The computation never changes the second component of the world. *)
Definition keeps (W S A : Type) (m : M (W * S) A) : Prop :=
  forall ws, snd (world (m ws)) = snd ws.

(** The spec has the scope string split on whitespace, the source splits it
    on the space character.  [splitOn] cuts at every character that
    satisfies a test; cut at the space it is [JS.split], cut at the
    whitespace characters it gives the tokens of the spec. *)
Fixpoint splitOn (p : ascii -> bool) (s : string) : list string :=
  match s with
  | EmptyString => [EmptyString]
  | String c s' =>
      if p c then EmptyString :: splitOn p s'
      else match splitOn p s' with
           | w :: ws => String c w :: ws
           | [] => [String c EmptyString]
           end
  end.

Definition isWhitespace (c : ascii) : bool :=
  existsb (Ascii.eqb c) [" "; "009"; "010"; "011"; "012"; "013"]%char.

(** The tokens of a scope string in the spec's reading. *)
Definition whitespaceTokens (s : string) : list string := splitOn isWhitespace s.

(** How many of the three recognised scopes are among the tokens. *)
Definition recognizedScopes (tokens : list string) : nat :=
  ((if JS.includes tokens "rwei" then 1 else 0)
   + (if JS.includes tokens "ract" then 1 else 0)
   + (if JS.includes tokens "rsle" then 1 else 0))%nat.

(** No character of [t] satisfies [q]. *)
Fixpoint free (q : ascii -> bool) (t : string) : bool :=
  match t with
  | EmptyString => true
  | String c t' => negb (q c) && free q t'
  end.



(** * The store *)

(** Modelled from the spec: the persistence behind the user-auth-data
    repository, whose implementation is outside the two files embedded here.
    The spec gives it a "query-by-filter interface supporting at least
    equality filters on [internal_user_id] and
    [provider_credential.provider_user_id]" and "[create], [update]
    operations keyed by record identity".  Here it is the list of stored
    records, in insertion order, and a counter from which [create] draws the
    identity of a new record; [update] writes over the record that has the
    identity of its argument and fails when there is none. *)
Module Store.

(** Modelled from the spec: the stored records, in insertion order, and
    the counter of the identities given out so far. *)
Record t : Type := mk {
  records : list UserAuthData;
  nextId : nat
}.

(** Modelled from the spec: the identity drawn at counter value [n]; any
    injective naming does. *)
Fixpoint idOf (n : nat) : string :=
  match n with
  | O => "r"
  | S n' => String "0" (idOf n')
  end.

Definition eqb_opt (a b : option string) : bool :=
  match a, b with
  | Some x, Some y => String.eqb x y
  | None, None => true
  | _, _ => false
  end.

(** Modelled from the spec: the two equality filters. *)
Definition matches (q : Query) (r : UserAuthData) : bool :=
  match q with
  | FilterUserId uid => eqb_opt (user_id r) uid
  | FilterFitbitUserId fid =>
      match fitbit r with
      | Some f => eqb_opt (fb_user_id f) (Some fid)
      | None => false
      end
  end.

(** Modelled from the spec: [findOne], the first record the filter holds
    of. *)
Definition findOne (q : Query) (s : t) : option UserAuthData :=
  find (matches q) (records s).

(** Modelled from the spec: [create], the record stored under a new
    identity. *)
Definition create (item : UserAuthData) (s : t) : UserAuthData * t :=
  let r := set_id (Some (idOf (nextId s))) item in
  (r, mk (records s ++ [r]) (S (nextId s))).

Fixpoint replace (item : UserAuthData) (rs : list UserAuthData)
  : option (list UserAuthData) :=
  match rs with
  | [] => None
  | r :: rs' =>
      if eqb_opt (id r) (id item) then Some (item :: rs')
      else option_map (cons r) (replace item rs')
  end.

(** Modelled from the spec: [update], keyed by record identity. *)
Definition update (item : UserAuthData) (s : t) : Result UserAuthData * t :=
  match replace item (records s) with
  | Some rs => (Ok item, mk rs (nextId s))
  | None => (Err (OtherError "Error" "No document matches the identity"), s)
  end.

(** How many stored records belong to a user. *)
Definition countUser (uid : option string) (s : t) : nat :=
  length (filter (matches (FilterUserId uid)) (records s)).

(** Identities are drawn from the counter, and no two records share one. *)
Fixpoint distinct (ids : list (option string)) : bool :=
  match ids with
  | [] => true
  | i :: ids' => negb (existsb (eqb_opt i) ids') && distinct ids'
  end.

Definition issued (n : nat) (i : option string) : bool :=
  existsb (fun k => eqb_opt i (Some (idOf k))) (seq 0 n).

Definition wf (s : t) : bool :=
  forallb (issued (nextId s)) (map id (records s)) && distinct (map id (records s)).

Definition empty : t := mk [] 0.

End Store.

(** Modelled from the spec: the collaborators [e], with the repository
    reading and writing a [Store.t] carried next to their own world. *)
Definition withStore (W D : Type) (e : Env W D) : Env (W * Store.t) D :=
  let lift A (f : W -> Result A * W) : W * Store.t -> Result A * (W * Store.t) :=
    fun ws => (fst (f (fst ws)), (snd (f (fst ws)), snd ws)) in
  {| validateCreateUserAuthData := validateCreateUserAuthData e;
     validateObjectId := validateObjectId e;
     repo_checkUserExists := fun uid => lift _ (repo_checkUserExists e uid);
     repo_findOne := fun q ws => (Ok (Store.findOne q (snd ws)), ws);
     repo_getUserAuthDataByUserId :=
       fun uid ws => (Ok (Store.findOne (FilterUserId (Some uid)) (snd ws)), ws);
     repo_update := fun item ws =>
       (fst (Store.update item (snd ws)), (fst ws, snd (Store.update item (snd ws))));
     repo_create := fun item ws =>
       (Ok (fst (Store.create item (snd ws))), (fst ws, snd (Store.create item (snd ws))));
     fitbit_getTokenPayload := fun tok => lift _ (fitbit_getTokenPayload e tok);
     fitbit_subscribeUserEvent := fun f r l => lift _ (fitbit_subscribeUserEvent e f r l);
     fitbit_revokeToken := fun tok => lift _ (fitbit_revokeToken e tok);
     fitbit_syncFitbitUserData :=
       fun f ls n uid => lift _ (fitbit_syncFitbitUserData e f ls n uid);
     fitbit_syncLastFitbitUserData :=
       fun f uid ty d n => lift _ (fitbit_syncLastFitbitUserData e f uid ty d n);
     fitbit_publishLastSync := fun uid ls => lift _ (fitbit_publishLastSync e uid ls);
     logger_error := fun msg => lift _ (logger_error e msg) |}.

(** * Concrete collaborators and records *)

(** Collaborators without a state of their own: the validators accept every
    input, the provider and the directory give the answers passed as
    arguments, the store echoes what it is asked to write. *)
Definition stubEnv (payload : Result TokenPayload) (subscribed : Result unit)
           (registered : Result bool) (saved : Result (option UserAuthData))
           (revoked : Result unit) (synced : Result unit) : Env unit unit :=
  {| validateCreateUserAuthData := fun _ => None;
     validateObjectId := fun _ => None;
     repo_checkUserExists := fun _ w => (registered, w);
     repo_findOne := fun _ w => (saved, w);
     repo_getUserAuthDataByUserId := fun _ w => (saved, w);
     repo_update := fun item w => (Ok item, w);
     repo_create := fun item w => (Ok item, w);
     fitbit_getTokenPayload := fun _ w => (payload, w);
     fitbit_subscribeUserEvent := fun _ _ _ w => (subscribed, w);
     fitbit_revokeToken := fun _ w => (revoked, w);
     fitbit_syncFitbitUserData := fun _ _ _ _ w => (synced, w);
     fitbit_syncLastFitbitUserData := fun _ _ _ _ _ w => (Ok tt, w);
     fitbit_publishLastSync := fun _ _ w => (Ok tt, w);
     logger_error := fun _ w => (Ok tt, w) |}.

(** A credential as a client submits it: token and scope only. *)
Definition credential (token scope_ : string) : FitbitAuthData :=
  mkFitbitAuthData None (Some token) None (Some "ref-xyz") (Some scope_) None None None.

Definition record (uid token scope_ : string) : UserAuthData :=
  mkUserAuthData None (Some uid) (Some (credential token scope_)).

Definition payloadOf (scope_ : string) : TokenPayload :=
  mkTokenPayload (Some "p1") (Some scope_) (Some 3600).

Definition credentialSynced (token scope_ lastSync : string) : FitbitAuthData :=
  mkFitbitAuthData None (Some token) None (Some "ref-xyz") (Some scope_)
                   None None (Some lastSync).

Definition recordSynced (uid token scope_ lastSync : string) : UserAuthData :=
  mkUserAuthData None (Some uid) (Some (credentialSynced token scope_ lastSync)).

(** * Vocabulary of the further properties *)

(** The three subscriptions of [subscribeFitbitEvents], in the order of the
    source. *)
Definition subscriptionCalls (g : FitbitAuthData) : list Call :=
  [SubscribeUserEvent g "body" "BODY";
   SubscribeUserEvent g "activities" "ACTIVITIES";
   SubscribeUserEvent g "sleep" "SLEEP"].

(** The calls of a complete [add], in the order of the source: the
    introspection, the subscriptions, the directory check, the lookup and
    the write. *)
Definition linkCalls (item : UserAuthData) (f : FitbitAuthData) (p : TokenPayload)
           (write : Call) : list Call :=
  (GetTokenPayload (access_token f) :: subscriptionCalls (linkedCredential p f)
   ++ [CheckUserExists (user_id item); FindOne (FilterUserId (user_id item)); write])%list.

(** The write [add] asks of the store for [newItem]: a create, or an update
    under the identity of a stored record. *)
Definition isWriteOf (newItem : UserAuthData) (c : Call) : Prop :=
  c = Create newItem \/ exists saved, c = Update (set_id (id saved) newItem).

(** The record a store call writes. *)
Definition writtenRecord (c : Call) : option UserAuthData :=
  match c with
  | Create n | Update n => Some n
  | _ => None
  end.

(** How many times the separator stands in a string. *)
Fixpoint occurrences (sep : ascii) (s : string) : nat :=
  match s with
  | EmptyString => 0%nat
  | String c s' => ((if Ascii.eqb c sep then 1 else 0) + occurrences sep s')%nat
  end.

(** The guard of [subscribeFitbitEvents] lets a scope string through. *)
Definition grantsAll (s : string) : bool :=
  hasScope s "rwei" && hasScope s "ract" && hasScope s "rsle".

(** The three fields an introspection may write, after one payload. *)
Definition assigned (A : Type) (truthy : option A -> bool) (new old : option A)
  : option A :=
  if truthy new then new else old.

(** Collaborators [e] with other validators. *)
Definition withValidators (W D : Type) (create_ : UserAuthData -> option Exn)
           (objectId : string -> option Exn) (e : Env W D) : Env W D :=
  {| validateCreateUserAuthData := create_;
     validateObjectId := objectId;
     repo_checkUserExists := repo_checkUserExists e;
     repo_findOne := repo_findOne e;
     repo_getUserAuthDataByUserId := repo_getUserAuthDataByUserId e;
     repo_update := repo_update e;
     repo_create := repo_create e;
     fitbit_getTokenPayload := fitbit_getTokenPayload e;
     fitbit_subscribeUserEvent := fitbit_subscribeUserEvent e;
     fitbit_revokeToken := fitbit_revokeToken e;
     fitbit_syncFitbitUserData := fitbit_syncFitbitUserData e;
     fitbit_syncLastFitbitUserData := fitbit_syncLastFitbitUserData e;
     fitbit_publishLastSync := fitbit_publishLastSync e;
     logger_error := logger_error e |}.

(** Collaborators [e] with another answer of the category synchronisation. *)
Definition withRelay (W D : Type) (relayed : Result unit) (e : Env W D) : Env W D :=
  {| validateCreateUserAuthData := validateCreateUserAuthData e;
     validateObjectId := validateObjectId e;
     repo_checkUserExists := repo_checkUserExists e;
     repo_findOne := repo_findOne e;
     repo_getUserAuthDataByUserId := repo_getUserAuthDataByUserId e;
     repo_update := repo_update e;
     repo_create := repo_create e;
     fitbit_getTokenPayload := fitbit_getTokenPayload e;
     fitbit_subscribeUserEvent := fitbit_subscribeUserEvent e;
     fitbit_revokeToken := fitbit_revokeToken e;
     fitbit_syncFitbitUserData := fitbit_syncFitbitUserData e;
     fitbit_syncLastFitbitUserData := fun _ _ _ _ _ w => (relayed, w);
     fitbit_publishLastSync := fitbit_publishLastSync e;
     logger_error := logger_error e |}.

(** Collaborators [e] with a store that answers every write with
    [written]. *)
Definition withWrites (W D : Type) (written : Result UserAuthData) (e : Env W D)
  : Env W D :=
  {| validateCreateUserAuthData := validateCreateUserAuthData e;
     validateObjectId := validateObjectId e;
     repo_checkUserExists := repo_checkUserExists e;
     repo_findOne := repo_findOne e;
     repo_getUserAuthDataByUserId := repo_getUserAuthDataByUserId e;
     repo_update := fun _ w => (written, w);
     repo_create := fun _ w => (written, w);
     fitbit_getTokenPayload := fitbit_getTokenPayload e;
     fitbit_subscribeUserEvent := fitbit_subscribeUserEvent e;
     fitbit_revokeToken := fitbit_revokeToken e;
     fitbit_syncFitbitUserData := fitbit_syncFitbitUserData e;
     fitbit_syncLastFitbitUserData := fitbit_syncLastFitbitUserData e;
     fitbit_publishLastSync := fitbit_publishLastSync e;
     logger_error := logger_error e |}.

(** Collaborators [e] with a subscription endpoint that answers by
    resource. *)
Definition withSubscriptions (W D : Type) (answer : string -> Result unit)
           (e : Env W D) : Env W D :=
  {| validateCreateUserAuthData := validateCreateUserAuthData e;
     validateObjectId := validateObjectId e;
     repo_checkUserExists := repo_checkUserExists e;
     repo_findOne := repo_findOne e;
     repo_getUserAuthDataByUserId := repo_getUserAuthDataByUserId e;
     repo_update := repo_update e;
     repo_create := repo_create e;
     fitbit_getTokenPayload := fitbit_getTokenPayload e;
     fitbit_subscribeUserEvent := fun _ resource _ w => (answer resource, w);
     fitbit_revokeToken := fitbit_revokeToken e;
     fitbit_syncFitbitUserData := fitbit_syncFitbitUserData e;
     fitbit_syncLastFitbitUserData := fitbit_syncLastFitbitUserData e;
     fitbit_publishLastSync := fitbit_publishLastSync e;
     logger_error := logger_error e |}.

(** A subscription endpoint that rejects for one resource. *)
Definition failingAt (resource : string) (e : Exn) (r : string) : Result unit :=
  if String.eqb r resource then Err e else Ok tt.

(** The stub in which every collaborator answers and the directory knows
    the user. *)
Definition happyEnv (saved : option UserAuthData) : Env unit unit :=
  stubEnv (Ok (payloadOf "rwei ract rsle")) (Ok tt) (Ok true) (Ok saved) (Ok tt) (Ok tt).

(** * Properties *)

(** ** Strings *)

Lemma indexOf_from_m1 (pat s : string) (i : Z) :
  0 <= i -> (JS.indexOf_from i s pat =? -1) = negb (JS.occurs pat s).
Proof.
  revert i. induction s as [|c s IH]; intros i Hi;
    cbn [JS.indexOf_from JS.occurs].
  - destruct (String.prefix pat ""); cbn [negb]; [|reflexivity].
    apply Z.eqb_neq. lia.
  - destruct (String.prefix pat (String c s)); cbn [negb].
    + apply Z.eqb_neq. lia.
    + apply IH. lia.
Qed.

(** [s.indexOf(pat) !== -1] is the occurrence test. *)
Lemma indexOf_neq_m1 (pat s : string) :
  negb (JS.indexOf s pat =? -1) = JS.occurs pat s.
Proof.
  unfold JS.indexOf. rewrite indexOf_from_m1 by lia. apply negb_involutive.
Qed.

Lemma occurs_rpc_MSG_SCOPE : JS.occurs "rpc" MSG_SCOPE = false.
Proof. reflexivity. Qed.

Lemma occurs_rpc_MSG_NO_AUTH_DATA : JS.occurs "rpc" MSG_NO_AUTH_DATA = false.
Proof. reflexivity. Qed.

(** The fixed part of the directory rejection holds no "rpc", and none can
    straddle its end: the message has one exactly when the user id has. *)
Lemma occurs_rpc_MSG_NOT_REGISTERED (uid : string) :
  JS.occurs "rpc" (MSG_NOT_REGISTERED ++ uid) = JS.occurs "rpc" uid.
Proof. reflexivity. Qed.



(** ** Running computations *)

Section Running.

Variable W : Type.

Lemma outcome_eta A (o : Outcome W A) :
  mkOutcome (result o) (world o) (calls o) = o.
Proof. now destruct o. Qed.

Lemma try_rethrow A (m : M W A) (w : W) :
  try_catch m (fun err => throw err) w = m w.
Proof.
  unfold try_catch, throw. destruct (m w) as [[a|e] w' l]; simpl; [reflexivity|].
  now rewrite app_nil_r.
Qed.

Lemma bind_Ok A B (m : M W A) (k : A -> M W B) (w w1 : W) (a : A) (l1 : list Call) :
  m w = mkOutcome (Ok a) w1 l1 ->
  bind m k w = mkOutcome (result (k a w1)) (world (k a w1)) (l1 ++ calls (k a w1)).
Proof. intros H. unfold bind. now rewrite H. Qed.

Lemma bind_Err A B (m : M W A) (k : A -> M W B) (w w1 : W) (e : Exn) (l1 : list Call) :
  m w = mkOutcome (Err e) w1 l1 ->
  bind m k w = mkOutcome (Err e) w1 l1.
Proof. intros H. unfold bind. now rewrite H. Qed.

Lemma bind_ret A B (a : A) (k : A -> M W B) (w : W) :
  bind (ret a) k w = k a w.
Proof. unfold bind, ret; simpl. apply outcome_eta. Qed.

Lemma bind_throw A B (e : Exn) (k : A -> M W B) (w : W) :
  bind (throw e) k w = mkOutcome (Err e) w [].
Proof. reflexivity. Qed.

Lemma call_run A (c : Call) (f : W -> Result A * W) (w w1 : W) (r : Result A) :
  f w = (r, w1) -> call c f w = mkOutcome r w1 [c].
Proof. intros H. unfold call. now rewrite H. Qed.

End Running.

(** ** The steps of [add] *)

Section AddSteps.

Variables W D : Type.
Variable env : Env W D.

Lemma manageFitbitAuthData_run (data : UserAuthData) (f : FitbitAuthData)
      (w w1 : W) (r : Result TokenPayload) :
  fitbit data = Some f ->
  fitbit_getTokenPayload env (access_token f) w = (r, w1) ->
  manageFitbitAuthData env data w =
    mkOutcome
      (match r with
       | Ok p => Ok (set_fitbit (Some (assignTokenPayload p f)) data)
       | Err e => Err e
       end) w1 [GetTokenPayload (access_token f)].
Proof.
  intros Hf Hp. unfold manageFitbitAuthData. rewrite try_rethrow.
  rewrite Hf. unfold bind, deref, ret, call; simpl. rewrite Hp.
  destruct r; reflexivity.
Qed.

Lemma manageFitbitAuthData_undefined (data : UserAuthData) (w : W) :
  fitbit data = None ->
  manageFitbitAuthData env data w =
    mkOutcome (Err (TypeError "Cannot read property 'access_token' of undefined")) w [].
Proof.
  intros Hf. unfold manageFitbitAuthData. rewrite try_rethrow.
  rewrite Hf. reflexivity.
Qed.

(** The guard of [subscribeFitbitEvents] rejects as soon as one of the
    three scopes is missing. *)
Lemma subscribeFitbitEvents_rejected (data : UserAuthData) (g : FitbitAuthData)
      (s : string) (w : W) :
  fitbit data = Some g ->
  scope g = Some s ->
  negb (hasScope s "rwei") || negb (hasScope s "ract") || negb (hasScope s "rsle") = true ->
  subscribeFitbitEvents env data w =
    mkOutcome (Err (ValidationException MSG_SCOPE DESC_SCOPE)) w [].
Proof.
  intros Hg Hs Hguard. unfold subscribeFitbitEvents. rewrite try_rethrow.
  rewrite Hg. unfold bind, deref, ret; simpl. rewrite Hs; simpl.
  unfold hasScope in Hguard. rewrite Hguard. reflexivity.
Qed.

Lemma subscribeFitbitEvents_no_scope (data : UserAuthData) (g : FitbitAuthData) (w : W) :
  fitbit data = Some g ->
  scope g = None ->
  subscribeFitbitEvents env data w =
    mkOutcome (Err (TypeError "Cannot read property 'split' of undefined")) w [].
Proof.
  intros Hg Hs. unfold subscribeFitbitEvents. rewrite try_rethrow.
  rewrite Hg. cbn [deref]. rewrite bind_ret. rewrite Hs. reflexivity.
Qed.

(** With the three scopes granted, the three subscriptions are issued in
    order, and the first rejection ends the sequence. *)
Section Granted.

Variables (data : UserAuthData) (g : FitbitAuthData) (s : string).
Hypothesis Hfitbit : fitbit data = Some g.
Hypothesis Hscope : scope g = Some s.
Hypothesis Hrwei : hasScope s "rwei" = true.
Hypothesis Hract : hasScope s "ract" = true.
Hypothesis Hrsle : hasScope s "rsle" = true.

Let body := SubscribeUserEvent g "body" "BODY".
Let activities := SubscribeUserEvent g "activities" "ACTIVITIES".
Let sleep := SubscribeUserEvent g "sleep" "SLEEP".

Lemma subscribeFitbitEvents_granted (w : W) :
  subscribeFitbitEvents env data w =
    (bind (call body (fitbit_subscribeUserEvent env g "body" "BODY"))
       (fun _ =>
          bind (call activities (fitbit_subscribeUserEvent env g "activities" "ACTIVITIES"))
            (fun _ => call sleep (fitbit_subscribeUserEvent env g "sleep" "SLEEP")))) w.
Proof.
  unfold subscribeFitbitEvents. rewrite try_rethrow.
  rewrite Hfitbit. unfold hasScope in *.
  unfold bind at 1, deref at 1, ret at 1; simpl.
  rewrite Hscope. unfold bind at 1, deref at 1, ret at 1; simpl.
  rewrite Hrwei, Hract, Hrsle. simpl.
  unfold bind. destruct (call _ _ w) as [[[]|e] w2 l2]; simpl; reflexivity.
Qed.

Lemma subscribeFitbitEvents_first_fails (w w2 : W) (e : Exn) :
  fitbit_subscribeUserEvent env g "body" "BODY" w = (Err e, w2) ->
  subscribeFitbitEvents env data w = mkOutcome (Err e) w2 [body].
Proof.
  intros H1. rewrite subscribeFitbitEvents_granted.
  unfold bind, call. rewrite H1. reflexivity.
Qed.

Lemma subscribeFitbitEvents_second_fails (w w2 w3 : W) (e : Exn) :
  fitbit_subscribeUserEvent env g "body" "BODY" w = (Ok tt, w2) ->
  fitbit_subscribeUserEvent env g "activities" "ACTIVITIES" w2 = (Err e, w3) ->
  subscribeFitbitEvents env data w = mkOutcome (Err e) w3 [body; activities].
Proof.
  intros H1 H2. rewrite subscribeFitbitEvents_granted.
  unfold bind, call. rewrite H1; simpl. rewrite H2. reflexivity.
Qed.

Lemma subscribeFitbitEvents_third_fails (w w2 w3 w4 : W) (e : Exn) :
  fitbit_subscribeUserEvent env g "body" "BODY" w = (Ok tt, w2) ->
  fitbit_subscribeUserEvent env g "activities" "ACTIVITIES" w2 = (Ok tt, w3) ->
  fitbit_subscribeUserEvent env g "sleep" "SLEEP" w3 = (Err e, w4) ->
  subscribeFitbitEvents env data w = mkOutcome (Err e) w4 [body; activities; sleep].
Proof.
  intros H1 H2 H3. rewrite subscribeFitbitEvents_granted.
  unfold bind, call. rewrite H1; simpl. rewrite H2; simpl. rewrite H3. reflexivity.
Qed.

Lemma subscribeFitbitEvents_ok (w w2 w3 w4 : W) :
  fitbit_subscribeUserEvent env g "body" "BODY" w = (Ok tt, w2) ->
  fitbit_subscribeUserEvent env g "activities" "ACTIVITIES" w2 = (Ok tt, w3) ->
  fitbit_subscribeUserEvent env g "sleep" "SLEEP" w3 = (Ok tt, w4) ->
  subscribeFitbitEvents env data w = mkOutcome (Ok tt) w4 [body; activities; sleep].
Proof.
  intros H1 H2 H3. rewrite subscribeFitbitEvents_granted.
  unfold bind, call. rewrite H1; simpl. rewrite H2; simpl. rewrite H3. reflexivity.
Qed.

End Granted.

(** The first two ways the [try] block ends early. *)
Lemma add_body_invalid (item : UserAuthData) (w : W) (e : Exn) :
  validateCreateUserAuthData env item = Some e ->
  add_body env item w = mkOutcome (Err e) w [].
Proof. intros H. unfold add_body. rewrite H. reflexivity. Qed.

Lemma add_body_no_credential (item : UserAuthData) (w : W) :
  validateCreateUserAuthData env item = None ->
  fitbit item = None ->
  add_body env item w
  = mkOutcome (Err (TypeError "Cannot read property 'access_token' of undefined")) w [].
Proof.
  intros Hv Hf. unfold add_body. rewrite Hv. unfold check. rewrite bind_ret.
  apply bind_Err. now apply manageFitbitAuthData_undefined.
Qed.

(** [add] is its [try] block, with the rejection replaced by the bus
    exception when its message holds "rpc". *)
Lemma add_run (item : UserAuthData) (w : W) :
  add env item w =
    match result (add_body env item w) with
    | Ok _ => add_body env item w
    | Err e =>
        mkOutcome
          (Err (if JS.occurs "rpc" (message e)
                then EventBusException MSG_EVENTBUS DESC_EVENTBUS else e))
          (world (add_body env item w)) (calls (add_body env item w))
    end.
Proof.
  unfold add, try_catch, add_handler.
  destruct (add_body env item w) as [[a|e] w' l]; simpl; [reflexivity|].
  rewrite indexOf_neq_m1.
  destruct (JS.occurs "rpc" (message e)); unfold throw; simpl;
    now rewrite app_nil_r.
Qed.

(** The first half of the [try] block, up to the introspection. *)
Section Introspected.

Variables (item : UserAuthData) (f : FitbitAuthData) (w w1 : W).
Hypothesis Hvalid : validateCreateUserAuthData env item = None.
Hypothesis Hfitbit : fitbit item = Some f.

Lemma add_body_introspection_fails (e : Exn) :
  fitbit_getTokenPayload env (access_token f) w = (Err e, w1) ->
  add_body env item w = mkOutcome (Err e) w1 [GetTokenPayload (access_token f)].
Proof.
  intros Hp. unfold add_body. rewrite Hvalid. unfold check.
  rewrite bind_ret.
  apply bind_Err. apply (manageFitbitAuthData_run item w Hfitbit Hp).
Qed.

Variable p : TokenPayload.
Hypothesis Hpayload : fitbit_getTokenPayload env (access_token f) w = (Ok p, w1).

Let newItem := set_fitbit (Some (linkedCredential p f)) item.

Lemma add_body_introspected :
  add_body env item w =
    let o := bind (subscribeFitbitEvents env newItem)
                  (fun _ => add_persist env newItem) w1 in
    mkOutcome (result o) (world o) (GetTokenPayload (access_token f) :: calls o).
Proof.
  unfold add_body. rewrite Hvalid. unfold check.
  rewrite bind_ret.
  rewrite (bind_Ok _ _ _ (manageFitbitAuthData_run item w Hfitbit Hpayload)).
  cbn [fitbit set_fitbit deref]. rewrite bind_ret.
  reflexivity.
Qed.

(** The scope rejection leaves [add] as it is. *)
Lemma add_scope_rejected (s : string) :
  scope (assignTokenPayload p f) = Some s ->
  negb (hasScope s "rwei") || negb (hasScope s "ract") || negb (hasScope s "rsle") = true ->
  add env item w =
    mkOutcome (Err (ValidationException MSG_SCOPE DESC_SCOPE)) w1
              [GetTokenPayload (access_token f)].
Proof.
  intros Hs Hguard. rewrite add_run, add_body_introspected. cbv zeta.
  rewrite (bind_Err _ _ _
             (subscribeFitbitEvents_rejected newItem w1 eq_refl Hs Hguard)).
  reflexivity.
Qed.

(** After the subscriptions. *)
Lemma add_body_subscribed (w2 : W) (l2 : list Call) :
  subscribeFitbitEvents env newItem w1 = mkOutcome (Ok tt) w2 l2 ->
  add_body env item w =
    let o := add_persist env newItem w2 in
    mkOutcome (result o) (world o)
              (GetTokenPayload (access_token f) :: l2 ++ calls o).
Proof.
  intros Hsub. rewrite add_body_introspected. cbv zeta.
  rewrite (bind_Ok _ _ _ Hsub). reflexivity.
Qed.

Lemma add_body_subscription_fails (w2 : W) (l2 : list Call) (e : Exn) :
  subscribeFitbitEvents env newItem w1 = mkOutcome (Err e) w2 l2 ->
  add_body env item w =
    mkOutcome (Err e) w2 (GetTokenPayload (access_token f) :: l2).
Proof.
  intros Hsub. rewrite add_body_introspected. cbv zeta.
  rewrite (bind_Err _ _ _ Hsub). reflexivity.
Qed.

End Introspected.

(** The second half: directory check, then create or update. *)
Section Persist.

Variables (newItem : UserAuthData) (w w1 : W).

Let check_ := CheckUserExists (user_id newItem).
Let find_ := FindOne (FilterUserId (user_id newItem)).

Lemma add_persist_directory_fails (e : Exn) :
  repo_checkUserExists env (user_id newItem) w = (Err e, w1) ->
  add_persist env newItem w = mkOutcome (Err e) w1 [check_].
Proof. intros H. unfold add_persist, bind, call. rewrite H. reflexivity. Qed.

Lemma add_persist_not_registered :
  repo_checkUserExists env (user_id newItem) w = (Ok false, w1) ->
  add_persist env newItem w =
    mkOutcome (Err (validationException
                      (MSG_NOT_REGISTERED ++ JS.template (user_id newItem))))
              w1 [check_].
Proof. intros H. unfold add_persist, bind, call. rewrite H. reflexivity. Qed.

Hypothesis Hexists : repo_checkUserExists env (user_id newItem) w = (Ok true, w1).

Lemma add_persist_lookup_fails (w2 : W) (e : Exn) :
  repo_findOne env (FilterUserId (user_id newItem)) w1 = (Err e, w2) ->
  add_persist env newItem w = mkOutcome (Err e) w2 [check_; find_].
Proof.
  intros H. unfold add_persist, bind, call. rewrite Hexists; simpl.
  rewrite H. reflexivity.
Qed.

Lemma add_persist_update (w2 w3 : W) (saved : UserAuthData) (r : Result UserAuthData) :
  repo_findOne env (FilterUserId (user_id newItem)) w1 = (Ok (Some saved), w2) ->
  repo_update env (set_id (id saved) newItem) w2 = (r, w3) ->
  add_persist env newItem w =
    mkOutcome r w3 [check_; find_; Update (set_id (id saved) newItem)].
Proof.
  intros H H'. unfold add_persist, bind, call. rewrite Hexists; simpl.
  rewrite H; simpl. rewrite H'. destruct r; reflexivity.
Qed.

Lemma add_persist_create (w2 w3 : W) (r : Result UserAuthData) :
  repo_findOne env (FilterUserId (user_id newItem)) w1 = (Ok None, w2) ->
  repo_create env newItem w2 = (r, w3) ->
  add_persist env newItem w = mkOutcome r w3 [check_; find_; Create newItem].
Proof.
  intros H H'. unfold add_persist, bind, call. rewrite Hexists; simpl.
  rewrite H; simpl. rewrite H'. destruct r; reflexivity.
Qed.

End Persist.

(** A record that grants the three scopes, with every collaborator
    answering: [add] resolves with what the store returns, after the
    introspection, the three subscriptions, the directory check, the lookup
    and one write. *)
Section Linked.

Variables (item : UserAuthData) (f : FitbitAuthData) (p : TokenPayload) (s : string).
Variables (w w1 w2 w3 w4 w5 w6 w7 : W).
Hypothesis Hvalid : validateCreateUserAuthData env item = None.
Hypothesis Hfitbit : fitbit item = Some f.
Hypothesis Hpayload : fitbit_getTokenPayload env (access_token f) w = (Ok p, w1).
Hypothesis Hscope : scope (assignTokenPayload p f) = Some s.
Hypothesis Hrwei : hasScope s "rwei" = true.
Hypothesis Hract : hasScope s "ract" = true.
Hypothesis Hrsle : hasScope s "rsle" = true.

Let g := linkedCredential p f.
Let newItem := set_fitbit (Some g) item.

Hypothesis Hbody : fitbit_subscribeUserEvent env g "body" "BODY" w1 = (Ok tt, w2).
Hypothesis Hactivities :
  fitbit_subscribeUserEvent env g "activities" "ACTIVITIES" w2 = (Ok tt, w3).
Hypothesis Hsleep : fitbit_subscribeUserEvent env g "sleep" "SLEEP" w3 = (Ok tt, w4).
Hypothesis Hexists : repo_checkUserExists env (user_id item) w4 = (Ok true, w5).

Let prefix_ :=
  [GetTokenPayload (access_token f);
   SubscribeUserEvent g "body" "BODY";
   SubscribeUserEvent g "activities" "ACTIVITIES";
   SubscribeUserEvent g "sleep" "SLEEP";
   CheckUserExists (user_id item);
   FindOne (FilterUserId (user_id item))].

Lemma add_creates (r : UserAuthData) :
  repo_findOne env (FilterUserId (user_id item)) w5 = (Ok None, w6) ->
  repo_create env newItem w6 = (Ok r, w7) ->
  add env item w = mkOutcome (Ok r) w7 (prefix_ ++ [Create newItem]).
Proof.
  intros Hfind Hcreate. unfold prefix_, newItem, g in *. rewrite add_run.
  rewrite (add_body_subscribed item w Hvalid Hfitbit Hpayload
             (subscribeFitbitEvents_ok
                (set_fitbit (Some (linkedCredential p f)) item)
                eq_refl Hscope Hrwei Hract Hrsle w1 Hbody Hactivities Hsleep)).
  cbv zeta.
  rewrite (add_persist_create
             (set_fitbit (Some (linkedCredential p f)) item) w4 Hexists Hfind Hcreate).
  reflexivity.
Qed.

Lemma add_updates (saved r : UserAuthData) :
  repo_findOne env (FilterUserId (user_id item)) w5 = (Ok (Some saved), w6) ->
  repo_update env (set_id (id saved) newItem) w6 = (Ok r, w7) ->
  add env item w
  = mkOutcome (Ok r) w7 (prefix_ ++ [Update (set_id (id saved) newItem)]).
Proof.
  intros Hfind Hupdate. unfold prefix_, newItem, g in *. rewrite add_run.
  rewrite (add_body_subscribed item w Hvalid Hfitbit Hpayload
             (subscribeFitbitEvents_ok
                (set_fitbit (Some (linkedCredential p f)) item)
                eq_refl Hscope Hrwei Hract Hrsle w1 Hbody Hactivities Hsleep)).
  cbv zeta.
  rewrite (add_persist_update
             (set_fitbit (Some (linkedCredential p f)) item) w4 Hexists Hfind Hupdate).
  reflexivity.
Qed.

End Linked.

End AddSteps.

(** ** The scope check *)

Lemma split_splitOn (sep : ascii) (s : string) :
  JS.split sep s = splitOn (fun c => Ascii.eqb c sep) s.
Proof. induction s as [|c s IH]; simpl; [reflexivity|]. now rewrite IH. Qed.

Lemma includes_In (l : list string) (t : string) :
  JS.includes l t = true <-> In t l.
Proof.
  unfold JS.includes. rewrite existsb_exists. split.
  - intros [x [Hin Hx]]. apply String.eqb_eq in Hx. now subst.
  - intros Hin. exists t. split; [exact Hin|apply String.eqb_refl].
Qed.

(** Cutting at more characters keeps every piece that holds none of them. *)
Lemma splitOn_finer (p q : ascii -> bool) (s : string) :
  (forall c, p c = true -> q c = true) ->
  exists w ws w' ws',
    splitOn p s = w :: ws /\ splitOn q s = w' :: ws'
    /\ (free q w = true -> w' = w)
    /\ (forall t, free q t = true -> In t ws -> In t ws').
Proof.
  intros Hpq. induction s as [|c s (w & ws & w' & ws' & Hp & Hq & Hhead & Htail)].
  - exists EmptyString, [], EmptyString, []. simpl. auto.
  - cbn [splitOn]. rewrite Hp, Hq.
    destruct (p c) eqn:Hpc; [rewrite (Hpq c Hpc)|destruct (q c) eqn:Hqc].
    + exists EmptyString, (w :: ws), EmptyString, (w' :: ws').
      repeat split; auto.
      intros t Ht [<-|Hin]; [left; now apply Hhead|right; now apply Htail].
    + exists (String c w), ws, EmptyString, (w' :: ws').
      repeat split; auto.
      * cbn [free]. rewrite Hqc. discriminate.
      * intros t Ht Hin. right. now apply Htail.
    + exists (String c w), ws, (String c w'), ws'.
      repeat split; auto.
      cbn [free]. rewrite Hqc. cbn [negb andb]. intros Hw. now rewrite Hhead.
Qed.

(** A recognised scope the source finds is a token in the spec's reading. *)
Lemma hasScope_whitespaceTokens (s tok : string) :
  free isWhitespace tok = true ->
  hasScope s tok = true ->
  JS.includes (whitespaceTokens s) tok = true.
Proof.
  intros Hfree Hhas. unfold hasScope in Hhas. rewrite split_splitOn in Hhas.
  apply includes_In in Hhas. apply includes_In. unfold whitespaceTokens.
  destruct (@splitOn_finer (fun c => Ascii.eqb c " ") isWhitespace s)
    as (w & ws & w' & ws' & Hp & Hq & Hhead & Htail).
  { intros c Hc. apply Ascii.eqb_eq in Hc. now subst. }
  rewrite Hp in Hhas. rewrite Hq. destruct Hhas as [<-|Hin].
  - left. now apply Hhead.
  - right. now apply Htail.
Qed.

(** Whatever the validator and the introspection do, a record whose scope
    string, once a payload is assigned, lacks one of the three scopes is not
    linked: [add] rejects, subscribes to nothing and writes nothing. *)
Lemma add_without_scopes_fails (W D : Type) (env : Env W D) (item : UserAuthData) (w : W) :
  (forall f p w1 s,
      fitbit item = Some f ->
      fitbit_getTokenPayload env (access_token f) w = (Ok p, w1) ->
      scope (assignTokenPayload p f) = Some s ->
      hasScope s "rwei" && hasScope s "ract" && hasScope s "rsle" = false) ->
  (exists e, result (add env item w) = Err e)
  /\ count isSubscription (calls (add env item w)) = 0%nat
  /\ count isStoreWrite (calls (add env item w)) = 0%nat.
Proof.
  intros Hnone.
  destruct (validateCreateUserAuthData env item) as [e|] eqn:Hv.
  { rewrite add_run, (add_body_invalid env item w Hv). cbn [result world calls].
    repeat split. eexists; reflexivity. }
  destruct (fitbit item) as [f|] eqn:Hf.
  2:{ rewrite add_run, (add_body_no_credential env item w Hv Hf).
      cbn [result world calls]. repeat split. eexists; reflexivity. }
  destruct (fitbit_getTokenPayload env (access_token f) w) as [[p|e] w1] eqn:Hp.
  2:{ rewrite add_run, (add_body_introspection_fails env item w Hv Hf Hp).
      cbn [result world calls]. repeat split. eexists; reflexivity. }
  destruct (scope (assignTokenPayload p f)) as [s|] eqn:Hs.
  - assert (Hguard : negb (hasScope s "rwei") || negb (hasScope s "ract")
                     || negb (hasScope s "rsle") = true).
    { specialize (Hnone f p w1 s eq_refl Hp Hs).
      destruct (hasScope s "rwei"), (hasScope s "ract"), (hasScope s "rsle");
        simpl in *; congruence. }
    rewrite (add_scope_rejected env item w Hv Hf Hp Hs Hguard).
    repeat split. eexists; reflexivity.
  - rewrite add_run.
    rewrite (add_body_subscription_fails env item w Hv Hf Hp
               (subscribeFitbitEvents_no_scope env
                  (set_fitbit (Some (linkedCredential p f)) item) w1 eq_refl Hs)).
    cbn [result world calls]. repeat split. eexists; reflexivity.
Qed.

(** A recognised scope that is no whitespace token is not found by the
    source either. *)
Lemma hasScope_false (s tok : string) :
  free isWhitespace tok = true ->
  JS.includes (whitespaceTokens s) tok = false ->
  hasScope s tok = false.
Proof.
  intros Hfree Hnot. destruct (hasScope s tok) eqn:E; [|reflexivity].
  apply hasScope_whitespaceTokens in E; [congruence|exact Hfree].
Qed.

(** C1 (the code departs from the claim): a record that passes validation
    and introspection and whose scope string, split on whitespace, grants
    exactly one of the three recognised scopes is rejected by [add] with the
    scope [ValidationException]; the introspection is the only call issued,
    so no subscription is registered, although the status of the in-flight
    record was set.  The claim expects one subscription call and success. *)
Theorem C1_single_scope_rejected (W D : Type) (env : Env W D) (item : UserAuthData)
        (f : FitbitAuthData) (p : TokenPayload) (w w1 : W) (s : string) :
  validateCreateUserAuthData env item = None ->
  fitbit item = Some f ->
  fitbit_getTokenPayload env (access_token f) w = (Ok p, w1) ->
  scope (assignTokenPayload p f) = Some s ->
  recognizedScopes (whitespaceTokens s) = 1%nat ->
  add env item w =
    mkOutcome (Err (ValidationException MSG_SCOPE DESC_SCOPE)) w1
              [GetTokenPayload (access_token f)]
  /\ count isSubscription (calls (add env item w)) = 0%nat
  /\ status (linkedCredential p f) = Some "valid_token".
Proof.
  intros Hv Hf Hp Hs Hone.
  assert (Hguard : negb (hasScope s "rwei") || negb (hasScope s "ract")
                   || negb (hasScope s "rsle") = true).
  { unfold recognizedScopes in Hone.
    destruct (JS.includes (whitespaceTokens s) "rwei") eqn:E1;
      [destruct (JS.includes (whitespaceTokens s) "ract") eqn:E2|].
    - destruct (JS.includes (whitespaceTokens s) "rsle"); discriminate.
    - rewrite (hasScope_false s "ract" eq_refl E2).
      now rewrite orb_true_r.
    - now rewrite (hasScope_false s "rwei" eq_refl E1). }
  rewrite (add_scope_rejected env item w Hv Hf Hp Hs Hguard).
  repeat split.
Qed.

Lemma C1_single_scope_rejected_witness :
  add (stubEnv (Ok (payloadOf "rwei")) (Ok tt) (Ok true) (Ok None) (Ok tt) (Ok tt))
      (record "5a62be07de34500146d9c544" "tok-abc" "rwei") tt =
    mkOutcome (Err (ValidationException MSG_SCOPE DESC_SCOPE)) tt
              [GetTokenPayload (Some "tok-abc")]
  /\ count isSubscription
       (calls (add (stubEnv (Ok (payloadOf "rwei")) (Ok tt) (Ok true) (Ok None)
                            (Ok tt) (Ok tt))
                   (record "5a62be07de34500146d9c544" "tok-abc" "rwei") tt)) = 0%nat
  /\ status (linkedCredential (payloadOf "rwei") (credential "tok-abc" "rwei"))
     = Some "valid_token".
Proof.
  apply (@C1_single_scope_rejected unit unit
           (stubEnv (Ok (payloadOf "rwei")) (Ok tt) (Ok true) (Ok None) (Ok tt) (Ok tt))
           (record "5a62be07de34500146d9c544" "tok-abc" "rwei")
           (credential "tok-abc" "rwei") (payloadOf "rwei") tt tt "rwei");
    reflexivity.
Defined.

(** C2: a record that passes validation and introspection and whose
    granted-scope string (the scope of the record once the payload is
    assigned), split on whitespace, holds none of the three recognised
    scopes is rejected by [add] with the scope [ValidationException]; the
    introspection is the only call issued: no subscription call, and neither
    a create nor an update on the store.  (The source splits on the space
    character alone and so finds no recognised scope either.) *)
Theorem C2_no_scope_rejected (W D : Type) (env : Env W D) (item : UserAuthData)
        (f : FitbitAuthData) (p : TokenPayload) (w w1 : W) (s : string) :
  validateCreateUserAuthData env item = None ->
  fitbit item = Some f ->
  fitbit_getTokenPayload env (access_token f) w = (Ok p, w1) ->
  scope (assignTokenPayload p f) = Some s ->
  JS.includes (whitespaceTokens s) "rwei" = false ->
  JS.includes (whitespaceTokens s) "ract" = false ->
  JS.includes (whitespaceTokens s) "rsle" = false ->
  result (add env item w) = Err (ValidationException MSG_SCOPE DESC_SCOPE)
  /\ calls (add env item w) = [GetTokenPayload (access_token f)]
  /\ count isSubscription (calls (add env item w)) = 0%nat
  /\ count isStoreWrite (calls (add env item w)) = 0%nat.
Proof.
  intros Hv Hf Hp Hs H1 H2 H3.
  assert (Hguard : negb (hasScope s "rwei") || negb (hasScope s "ract")
                   || negb (hasScope s "rsle") = true).
  { now rewrite (hasScope_false s "rwei" eq_refl H1). }
  rewrite (add_scope_rejected env item w Hv Hf Hp Hs Hguard).
  repeat split.
Qed.

Lemma C2_no_scope_rejected_witness :
  let env := stubEnv (Ok (mkTokenPayload (Some "p1") None (Some 3600)))
                     (Ok tt) (Ok true) (Ok None) (Ok tt) (Ok tt) in
  let item := record "5a62be07de34500146d9c544" "tok-abc" "profile rhr" in
  result (add env item tt) = Err (ValidationException MSG_SCOPE DESC_SCOPE)
  /\ calls (add env item tt) = [GetTokenPayload (Some "tok-abc")]
  /\ count isSubscription (calls (add env item tt)) = 0%nat
  /\ count isStoreWrite (calls (add env item tt)) = 0%nat.
Proof.
  apply (@C2_no_scope_rejected unit unit
           (stubEnv (Ok (mkTokenPayload (Some "p1") None (Some 3600)))
                    (Ok tt) (Ok true) (Ok None) (Ok tt) (Ok tt))
           (record "5a62be07de34500146d9c544" "tok-abc" "profile rhr")
           (credential "tok-abc" "profile rhr")
           (mkTokenPayload (Some "p1") None (Some 3600)) tt tt "profile rhr");
    reflexivity.
Defined.

(** ** Reclassification of errors by [add] *)

Lemma add_result_Err (W D : Type) (env : Env W D) (item : UserAuthData) (w : W) (e : Exn) :
  result (add_body env item w) = Err e ->
  result (add env item w) = Err (surfaced e).
Proof. intros H. rewrite add_run, H. reflexivity. Qed.

(** C3, the claim as stated fails three ways: a failure of the
    introspection whose message holds "rpc" is reported as a bus failure
    although no subscription was attempted; a transport failure of the
    subscription whose message holds no "rpc" is reported as it is; and,
    where the validator lets such an id through, the directory rejection of
    a user id that holds "rpc" is reported as a bus failure. *)
Lemma C3_counterexample :
  (* introspection fails with "rpc" in the message *)
  add (stubEnv (Err (OtherError "Error" "rpc timeout")) (Ok tt) (Ok true) (Ok None)
               (Ok tt) (Ok tt))
      (record "5a62be07de34500146d9c544" "tok-abc" "rwei ract rsle") tt
  = mkOutcome (Err (EventBusException MSG_EVENTBUS DESC_EVENTBUS)) tt
              [GetTokenPayload (Some "tok-abc")]
  (* the subscription transport fails without "rpc" in the message *)
  /\ add (stubEnv (Ok (payloadOf "rwei ract rsle"))
                  (Err (OtherError "Error" "connect ECONNREFUSED"))
                  (Ok true) (Ok None) (Ok tt) (Ok tt))
         (record "5a62be07de34500146d9c544" "tok-abc" "rwei ract rsle") tt
     = mkOutcome (Err (OtherError "Error" "connect ECONNREFUSED")) tt
                 [GetTokenPayload (Some "tok-abc");
                  SubscribeUserEvent
                    (linkedCredential (payloadOf "rwei ract rsle")
                                      (credential "tok-abc" "rwei ract rsle"))
                    "body" "BODY"]
  (* the directory does not know a user id that holds "rpc" *)
  /\ result (add (stubEnv (Ok (payloadOf "rwei ract rsle")) (Ok tt) (Ok false)
                          (Ok None) (Ok tt) (Ok tt))
                 (record "grpc-user-01" "tok-abc" "rwei ract rsle") tt)
     = Err (EventBusException MSG_EVENTBUS DESC_EVENTBUS).
Proof. repeat split. Qed.

(** C3, as amended: whatever the [try] block of [add] rejects with (the
    failure of any collaborator included) is replaced by the bus exception
    exactly when its message holds "rpc", and surfaces unchanged otherwise;
    this is so in particular for a failure of the subscription step; the
    scope rejection always surfaces as the [ValidationException] it is; and
    so does the directory rejection of a user id that holds no "rpc". *)
Theorem C3_reclassified_by_message (W D : Type) (env : Env W D)
        (item : UserAuthData) (w : W) :
  (forall e, result (add_body env item w) = Err e ->
             result (add env item w) = Err (surfaced e)
             /\ (isEventBusException (surfaced e) = true <->
                 JS.occurs "rpc" (message e) = true \/ isEventBusException e = true))
  /\ (forall f p w1 w2 l2 e,
         validateCreateUserAuthData env item = None ->
         fitbit item = Some f ->
         fitbit_getTokenPayload env (access_token f) w = (Ok p, w1) ->
         subscribeFitbitEvents env (set_fitbit (Some (linkedCredential p f)) item) w1
         = mkOutcome (Err e) w2 l2 ->
         add env item w
         = mkOutcome (Err (surfaced e)) w2 (GetTokenPayload (access_token f) :: l2))
  /\ (forall f p w1 s,
         validateCreateUserAuthData env item = None ->
         fitbit item = Some f ->
         fitbit_getTokenPayload env (access_token f) w = (Ok p, w1) ->
         scope (assignTokenPayload p f) = Some s ->
         negb (hasScope s "rwei") || negb (hasScope s "ract")
         || negb (hasScope s "rsle") = true ->
         result (add env item w) = Err (ValidationException MSG_SCOPE DESC_SCOPE))
  /\ (forall f p w1 w2 w3 l2,
         validateCreateUserAuthData env item = None ->
         fitbit item = Some f ->
         fitbit_getTokenPayload env (access_token f) w = (Ok p, w1) ->
         subscribeFitbitEvents env (set_fitbit (Some (linkedCredential p f)) item) w1
         = mkOutcome (Ok tt) w2 l2 ->
         repo_checkUserExists env (user_id item) w2 = (Ok false, w3) ->
         JS.occurs "rpc" (JS.template (user_id item)) = false ->
         result (add env item w)
         = Err (validationException (MSG_NOT_REGISTERED ++ JS.template (user_id item)))).
Proof.
  repeat apply conj.
  - intros e He. split; [now apply add_result_Err|].
    unfold surfaced. destruct (JS.occurs "rpc" (message e)); simpl.
    + split; auto.
    + split; [auto|]. intros [H|H]; [discriminate|assumption].
  - intros f p w1 w2 l2 e Hv Hf Hp Hsub.
    rewrite add_run, (add_body_subscription_fails env item w Hv Hf Hp Hsub).
    reflexivity.
  - intros f p w1 s Hv Hf Hp Hs Hguard.
    now rewrite (add_scope_rejected env item w Hv Hf Hp Hs Hguard).
  - intros f p w1 w2 w3 l2 Hv Hf Hp Hsub Hdir Hrpc.
    rewrite add_run, (add_body_subscribed env item w Hv Hf Hp Hsub). cbv zeta.
    rewrite (add_persist_not_registered env
               (set_fitbit (Some (linkedCredential p f)) item) w2 Hdir).
    cbn [result world calls user_id set_fitbit validationException message].
    rewrite occurs_rpc_MSG_NOT_REGISTERED, Hrpc. reflexivity.
Qed.

Lemma C3_reclassified_by_message_witness :
  result (add (stubEnv (Ok (payloadOf "rwei ract rsle")) (Ok tt)
                       (Err (OtherError "Error" "rpc client: request timed out"))
                       (Ok None) (Ok tt) (Ok tt))
              (record "5a62be07de34500146d9c544" "tok-abc" "rwei ract rsle") tt)
  = Err (EventBusException MSG_EVENTBUS DESC_EVENTBUS)
  /\ add (stubEnv (Ok (payloadOf "rwei ract rsle"))
                  (Err (OtherError "Error" "connect ECONNREFUSED"))
                  (Ok true) (Ok None) (Ok tt) (Ok tt))
         (record "5a62be07de34500146d9c544" "tok-abc" "rwei ract rsle") tt
     = mkOutcome (Err (OtherError "Error" "connect ECONNREFUSED")) tt
                 [GetTokenPayload (Some "tok-abc");
                  SubscribeUserEvent
                    (linkedCredential (payloadOf "rwei ract rsle")
                                      (credential "tok-abc" "rwei ract rsle"))
                    "body" "BODY"]
  /\ result (add (stubEnv (Ok (payloadOf "rwei ract")) (Ok tt) (Ok true) (Ok None)
                          (Ok tt) (Ok tt))
                 (record "5a62be07de34500146d9c544" "tok-abc" "rwei ract") tt)
     = Err (ValidationException MSG_SCOPE DESC_SCOPE)
  /\ result (add (stubEnv (Ok (payloadOf "rwei ract rsle")) (Ok tt) (Ok false)
                          (Ok None) (Ok tt) (Ok tt))
                 (record "5a62be07de34500146d9c544" "tok-abc" "rwei ract rsle") tt)
     = Err (validationException
              "The user does not have register on platform: 5a62be07de34500146d9c544").
Proof.
  repeat apply conj.
  - exact (proj1 (proj1 (C3_reclassified_by_message
                           (stubEnv (Ok (payloadOf "rwei ract rsle")) (Ok tt)
                              (Err (OtherError "Error" "rpc client: request timed out"))
                              (Ok None) (Ok tt) (Ok tt))
                           (record "5a62be07de34500146d9c544" "tok-abc" "rwei ract rsle")
                           tt)
                        (OtherError "Error" "rpc client: request timed out") eq_refl)).
  - exact (proj1 (proj2 (C3_reclassified_by_message
                           (stubEnv (Ok (payloadOf "rwei ract rsle"))
                              (Err (OtherError "Error" "connect ECONNREFUSED"))
                              (Ok true) (Ok None) (Ok tt) (Ok tt))
                           (record "5a62be07de34500146d9c544" "tok-abc" "rwei ract rsle")
                           tt))
                 (credential "tok-abc" "rwei ract rsle") (payloadOf "rwei ract rsle")
                 tt tt _ (OtherError "Error" "connect ECONNREFUSED")
                 eq_refl eq_refl eq_refl eq_refl).
  - exact (proj1 (proj2 (proj2 (C3_reclassified_by_message
                           (stubEnv (Ok (payloadOf "rwei ract")) (Ok tt) (Ok true)
                              (Ok None) (Ok tt) (Ok tt))
                           (record "5a62be07de34500146d9c544" "tok-abc" "rwei ract")
                           tt)))
                 (credential "tok-abc" "rwei ract") (payloadOf "rwei ract")
                 tt "rwei ract" eq_refl eq_refl eq_refl eq_refl eq_refl).
  - exact (proj2 (proj2 (proj2 (C3_reclassified_by_message
                           (stubEnv (Ok (payloadOf "rwei ract rsle")) (Ok tt) (Ok false)
                              (Ok None) (Ok tt) (Ok tt))
                           (record "5a62be07de34500146d9c544" "tok-abc" "rwei ract rsle")
                           tt)))
                 (credential "tok-abc" "rwei ract rsle") (payloadOf "rwei ract rsle")
                 tt tt tt _ eq_refl eq_refl eq_refl eq_refl eq_refl eq_refl).
Defined.

(** ** The directory check *)

(** [subscribeFitbitEvents] calls nothing but the subscription endpoint. *)
Lemma subscribeFitbitEvents_calls (W D : Type) (env : Env W D)
      (data : UserAuthData) (w : W) :
  filter isSubscription (calls (subscribeFitbitEvents env data w))
  = calls (subscribeFitbitEvents env data w).
Proof.
  unfold subscribeFitbitEvents. rewrite try_rethrow.
  destruct (fitbit data) as [g|]; [|reflexivity].
  cbn [deref]. rewrite bind_ret.
  destruct (scope g) as [s|]; [|reflexivity].
  cbn [deref]. rewrite bind_ret.
  destruct (negb _ || negb _ || negb _); [reflexivity|].
  unfold bind, call, ret.
  repeat match goal with
         | |- context [if ?b then _ else _] => destruct b
         | |- context [let (_, _) := ?x in _] => destruct x as [[[]|?] ?]
         | _ => progress cbn [result world calls app filter isSubscription]
         end; reflexivity.
Qed.

Lemma count_app (p : Call -> bool) (l l' : list Call) :
  count p (l ++ l') = (count p l + count p l')%nat.
Proof. unfold count. now rewrite filter_app, length_app. Qed.

Lemma count_filter_other (p q : Call -> bool) (l : list Call) :
  (forall c, q c = true -> p c = false) ->
  count p (filter q l) = 0%nat.
Proof.
  intros Hpq. unfold count.
  induction l as [|c l IH]; simpl; [reflexivity|].
  destruct (q c) eqn:Hq; simpl; [rewrite (Hpq c Hq)|]; apply IH.
Qed.

(** The subscription step writes nothing to the store. *)
Lemma subscribeFitbitEvents_no_write (W D : Type) (env : Env W D)
      (data : UserAuthData) (w : W) :
  count isStoreWrite (calls (subscribeFitbitEvents env data w)) = 0%nat.
Proof.
  rewrite <- subscribeFitbitEvents_calls. apply count_filter_other.
  now intros [].
Qed.

(** A user the directory does not know: [add] stops at the directory check,
    nothing is written, and the rejection that surfaces is the
    [ValidationException] of the check as the [catch] block leaves it. *)
Lemma add_not_registered (W D : Type) (env : Env W D) (item : UserAuthData)
      (f : FitbitAuthData) (p : TokenPayload) (w w1 w2 w3 : W) (l2 : list Call) :
  validateCreateUserAuthData env item = None ->
  fitbit item = Some f ->
  fitbit_getTokenPayload env (access_token f) w = (Ok p, w1) ->
  subscribeFitbitEvents env (set_fitbit (Some (linkedCredential p f)) item) w1
  = mkOutcome (Ok tt) w2 l2 ->
  repo_checkUserExists env (user_id item) w2 = (Ok false, w3) ->
  add env item w
  = mkOutcome
      (Err (surfaced (validationException
                        (MSG_NOT_REGISTERED ++ JS.template (user_id item)))))
      w3 (GetTokenPayload (access_token f) :: l2 ++ [CheckUserExists (user_id item)])
  /\ count isStoreWrite (calls (add env item w)) = 0%nat.
Proof.
  intros Hv Hf Hp Hsub Hdir.
  assert (Hrun : add env item w
                 = mkOutcome
                     (Err (surfaced (validationException
                                       (MSG_NOT_REGISTERED ++ JS.template (user_id item)))))
                     w3 (GetTokenPayload (access_token f)
                           :: l2 ++ [CheckUserExists (user_id item)])).
  { rewrite add_run, (add_body_subscribed env item w Hv Hf Hp Hsub). cbv zeta.
    rewrite (add_persist_not_registered env
               (set_fitbit (Some (linkedCredential p f)) item) w2 Hdir).
    reflexivity. }
  split; [exact Hrun|]. rewrite Hrun. cbn [calls].
  change (GetTokenPayload (access_token f) :: l2 ++ [CheckUserExists (user_id item)])
    with ([GetTokenPayload (access_token f)] ++ l2
          ++ [CheckUserExists (user_id item)])%list.
  rewrite !count_app.
  pose proof (subscribeFitbitEvents_no_write env
                (set_fitbit (Some (linkedCredential p f)) item) w1) as Hnw.
  rewrite Hsub in Hnw. cbn [calls] in Hnw. rewrite Hnw. reflexivity.
Qed.

(** The rejection of the check passes the [catch] block of [add] as it is
    when the user id holds no "rpc". *)
Lemma add_not_registered_validation (W D : Type) (env : Env W D)
      (item : UserAuthData) (f : FitbitAuthData) (p : TokenPayload)
      (w w1 w2 w3 : W) (l2 : list Call) :
  validateCreateUserAuthData env item = None ->
  fitbit item = Some f ->
  fitbit_getTokenPayload env (access_token f) w = (Ok p, w1) ->
  subscribeFitbitEvents env (set_fitbit (Some (linkedCredential p f)) item) w1
  = mkOutcome (Ok tt) w2 l2 ->
  repo_checkUserExists env (user_id item) w2 = (Ok false, w3) ->
  JS.occurs "rpc" (JS.template (user_id item)) = false ->
  result (add env item w)
  = Err (validationException (MSG_NOT_REGISTERED ++ JS.template (user_id item)))
  /\ count isStoreWrite (calls (add env item w)) = 0%nat.
Proof.
  intros Hv Hf Hp Hsub Hdir Hrpc.
  destruct (add_not_registered env item w Hv Hf Hp Hsub Hdir) as [Hrun Hnw].
  split; [|exact Hnw].
  rewrite Hrun. cbn [result]. unfold surfaced, validationException.
  cbn [message]. rewrite occurs_rpc_MSG_NOT_REGISTERED, Hrpc. reflexivity.
Qed.

(** The [catch] block of [add] reads the message of every error of the
    [try] block, the one thrown at the directory check included, and that
    message ends with the user id: an id holding "rpc" would have the
    rejection of the check replaced by the bus exception.  Whether such an
    id passes [CreateUserAuthDataValidator] is not decided by the service;
    an identifier written with hexadecimal digits never holds "rpc"
    ([occurs_rpc_hexDigits]). *)
Lemma add_not_registered_rpc_id (W D : Type) (env : Env W D)
      (item : UserAuthData) (f : FitbitAuthData) (p : TokenPayload)
      (w w1 w2 w3 : W) (l2 : list Call) :
  validateCreateUserAuthData env item = None ->
  fitbit item = Some f ->
  fitbit_getTokenPayload env (access_token f) w = (Ok p, w1) ->
  subscribeFitbitEvents env (set_fitbit (Some (linkedCredential p f)) item) w1
  = mkOutcome (Ok tt) w2 l2 ->
  repo_checkUserExists env (user_id item) w2 = (Ok false, w3) ->
  JS.occurs "rpc" (JS.template (user_id item)) = true ->
  result (add env item w) = Err (EventBusException MSG_EVENTBUS DESC_EVENTBUS)
  /\ count isStoreWrite (calls (add env item w)) = 0%nat.
Proof.
  intros Hv Hf Hp Hsub Hdir Hrpc.
  destruct (add_not_registered env item w Hv Hf Hp Hsub Hdir) as [Hrun Hnw].
  split; [|exact Hnw].
  rewrite Hrun. cbn [result]. unfold surfaced, validationException.
  cbn [message]. rewrite occurs_rpc_MSG_NOT_REGISTERED, Hrpc. reflexivity.
Qed.



(** ** Which collaborators a method calls *)

Section Emits.

Variable W : Type.
Variable P : Call -> bool.

Lemma emits_ret A (a : A) : emits P (ret a : M W A).
Proof. intros w. reflexivity. Qed.

Lemma emits_throw A (e : Exn) : emits P (@throw W A e).
Proof. intros w. reflexivity. Qed.

Lemma emits_check (v : option Exn) : emits P (@check W v).
Proof. destruct v; intros w; reflexivity. Qed.

Lemma emits_deref A (o : option A) (prop : string) : emits P (@deref W A o prop).
Proof. destruct o; intros w; reflexivity. Qed.

Lemma emits_call A (c : Call) (f : W -> Result A * W) :
  P c = true -> emits P (call c f).
Proof.
  intros Hc w. unfold call. destruct (f w) as [r w']. simpl. now rewrite Hc.
Qed.

Lemma emits_bind A B (m : M W A) (k : A -> M W B) :
  emits P m -> (forall a, emits P (k a)) -> emits P (bind m k).
Proof.
  intros Hm Hk w. unfold bind. specialize (Hm w).
  destruct (m w) as [[a|e] w' l]; simpl in *; [|exact Hm].
  now rewrite filter_app, Hm, Hk.
Qed.

Lemma emits_try_catch A (m : M W A) (h : Exn -> M W A) :
  emits P m -> (forall e, emits P (h e)) -> emits P (try_catch m h).
Proof.
  intros Hm Hh w. unfold try_catch. specialize (Hm w).
  destruct (m w) as [[a|e] w' l]; simpl in *; [exact Hm|].
  now rewrite filter_app, Hm, Hh.
Qed.

End Emits.

Create HintDb emits.
#[local] Hint Resolve emits_ret emits_throw emits_check emits_deref : emits.

Ltac emits_step :=
  first
    [ apply emits_try_catch; [|intros ?]
    | apply emits_bind; [|intros ?]
    | apply emits_call; reflexivity
    | solve [auto with emits]
    | match goal with
      | |- emits _ (if ?b then _ else _) => destruct b
      | |- emits _ (match ?x with Some _ => _ | None => _ end) => destruct x
      end ].

Lemma add_emits (W D : Type) (env : Env W D) (item : UserAuthData) :
  emits isLinkCall (add env item).
Proof.
  unfold add, add_handler, add_body, add_persist, manageFitbitAuthData,
    subscribeFitbitEvents.
  repeat emits_step.
Qed.

Lemma count_emits (p q : Call -> bool) (l : list Call) :
  (forall c, q c = true -> p c = false) ->
  filter q l = l -> count p l = 0%nat.
Proof. intros Hpq Hl. rewrite <- Hl. now apply count_filter_other. Qed.

(** [add] starts no synchronisation and publishes no timestamp. *)
Lemma add_no_sync (W D : Type) (env : Env W D) (item : UserAuthData) (w : W) :
  count isSync (calls (add env item w)) = 0%nat
  /\ count isPublishLastSync (calls (add env item w)) = 0%nat.
Proof.
  split; apply count_emits with (q := isLinkCall);
    try apply add_emits; now intros [].
Qed.

(** ** [addFitbitAuthData] *)

(** C4, the claim as stated fails on JavaScript's truthiness: the empty
    string is falsy, and with it and a [last_sync] on the result the method
    starts a synchronisation and publishes nothing; the string ["false"] is
    truthy, and with it no synchronisation is started. *)
Lemma C4_counterexample :
  let env := stubEnv (Ok (payloadOf "rwei ract rsle")) (Ok tt) (Ok true) (Ok None)
                     (Ok tt) (Ok tt) in
  let item := recordSynced "5a62be07de34500146d9c544" "tok-abc" "rwei ract rsle"
                           "2019-11-07T19:40:45.124Z" in
  JS.truthy_string (Some "") = false
  /\ count isSync (calls (addFitbitAuthData env item "" tt)) = 1%nat
  /\ count isPublishLastSync (calls (addFitbitAuthData env item "" tt)) = 0%nat
  /\ JS.truthy_string (Some "false") = true
  /\ count isSync (calls (addFitbitAuthData env item "false" tt)) = 0%nat.
Proof. repeat split. Qed.

(** When [add] rejects, [addFitbitAuthData] rejects the same way and calls
    nothing more. *)
Lemma addFitbitAuthData_add_fails (W D : Type) (env : Env W D) (data : UserAuthData)
      (initSync : string) (w w1 : W) (e : Exn) (l1 : list Call) :
  add env data w = mkOutcome (Err e) w1 l1 ->
  addFitbitAuthData env data initSync w = mkOutcome (Err e) w1 l1.
Proof.
  intros Hadd. unfold addFitbitAuthData. rewrite try_rethrow.
  now apply bind_Err.
Qed.

Section AddFitbitAuthData.

Variables W D : Type.
Variable env : Env W D.
Variables (data r : UserAuthData) (g : FitbitAuthData) (w w1 : W) (l1 : list Call).
Hypothesis Hadd : add env data w = mkOutcome (Ok r) w1 l1.
Hypothesis Hfitbit : fitbit r = Some g.

Lemma addFitbitAuthData_sync (initSync : string) :
  initSync <> "false" ->
  addFitbitAuthData env data initSync w
  = mkOutcome (Ok r)
      (snd (fitbit_syncFitbitUserData env g (last_sync g) 3 (user_id r) w1))
      (l1 ++ [SyncFitbitUserData g (last_sync g) 3 (user_id r)]).
Proof.
  intros Hne. apply String.eqb_neq in Hne.
  unfold addFitbitAuthData. rewrite try_rethrow.
  rewrite (bind_Ok _ _ _ Hadd). rewrite Hne. cbn [negb].
  rewrite Hfitbit. cbn [deref].
  unfold bind, ret, fire_and_forget. cbn [result world calls].
  destruct (fitbit_syncFitbitUserData env g (last_sync g) 3 (user_id r) w1).
  cbn [result world calls snd app]. rewrite ?app_nil_r. reflexivity.
Qed.

Lemma addFitbitAuthData_publish (lastSync : string) :
  last_sync g = Some lastSync ->
  lastSync <> "" ->
  addFitbitAuthData env data "false" w
  = mkOutcome (Ok r)
      (snd (fitbit_publishLastSync env (user_id r) lastSync w1))
      (l1 ++ [PublishLastSync (user_id r) lastSync]).
Proof.
  intros Hls Hne. apply String.eqb_neq in Hne.
  unfold addFitbitAuthData. rewrite try_rethrow.
  rewrite (bind_Ok _ _ _ Hadd). cbn [String.eqb Ascii.eqb Bool.eqb negb].
  rewrite Hfitbit. cbn [deref].
  unfold bind, ret. cbn [result world calls].
  rewrite Hls. unfold JS.truthy_string. rewrite Hne. cbn [negb].
  unfold fire_and_forget.
  destruct (fitbit_publishLastSync env (user_id r) lastSync w1).
  cbn [result world calls snd app]. rewrite ?app_nil_r. reflexivity.
Qed.

Lemma addFitbitAuthData_nothing :
  JS.truthy_string (last_sync g) = false ->
  addFitbitAuthData env data "false" w = mkOutcome (Ok r) w1 l1.
Proof.
  intros Hls.
  unfold addFitbitAuthData. rewrite try_rethrow.
  rewrite (bind_Ok _ _ _ Hadd). cbn [String.eqb Ascii.eqb Bool.eqb negb].
  rewrite Hfitbit. cbn [deref].
  unfold bind, ret. cbn [result world calls].
  destruct (last_sync g) as [ls|]; [rewrite Hls|];
    cbn [result world calls app]; rewrite ?app_nil_r; reflexivity.
Qed.

End AddFitbitAuthData.

(** C4, as amended: [addFitbitAuthData] first runs [add]; when [add]
    resolves with a record that carries a credential, then for every
    [initSync] other than the string ["false"] it starts, without awaiting
    it, one synchronisation of that credential with 3 attempts (and resolves
    with the record whatever the synchronisation does), and for [initSync]
    equal to ["false"] and a non-empty [last_sync] on the record it calls
    [publishLastSync] with that timestamp, exactly once, and starts no
    synchronisation. *)
Theorem C4_sync_unless_false (W D : Type) (env : Env W D)
        (data r : UserAuthData) (g : FitbitAuthData) (w w1 : W) (l1 : list Call)
        (initSync : string) :
  add env data w = mkOutcome (Ok r) w1 l1 ->
  fitbit r = Some g ->
  (initSync <> "false" ->
   result (addFitbitAuthData env data initSync w) = Ok r
   /\ calls (addFitbitAuthData env data initSync w)
      = (l1 ++ [SyncFitbitUserData g (last_sync g) 3 (user_id r)])%list
   /\ count isSync (calls (addFitbitAuthData env data initSync w)) = 1%nat
   /\ count isPublishLastSync (calls (addFitbitAuthData env data initSync w)) = 0%nat)
  /\ (initSync = "false" ->
      forall lastSync, last_sync g = Some lastSync -> lastSync <> "" ->
      result (addFitbitAuthData env data initSync w) = Ok r
      /\ calls (addFitbitAuthData env data initSync w)
         = (l1 ++ [PublishLastSync (user_id r) lastSync])%list
      /\ count isPublishLastSync (calls (addFitbitAuthData env data initSync w)) = 1%nat
      /\ count isSync (calls (addFitbitAuthData env data initSync w)) = 0%nat).
Proof.
  intros Hadd Hg.
  destruct (add_no_sync env data w) as [Hs Hp]. rewrite Hadd in Hs, Hp.
  cbn [calls] in Hs, Hp.
  split.
  - intros Hne. rewrite (@addFitbitAuthData_sync W D env data r g w w1 l1 Hadd Hg initSync Hne). cbn [result calls].
    rewrite !count_app, Hs, Hp. repeat split.
  - intros -> lastSync Hls Hne.
    rewrite (@addFitbitAuthData_publish W D env data r g w w1 l1 Hadd Hg lastSync Hls Hne). cbn [result calls].
    rewrite !count_app, Hs, Hp. repeat split.
Qed.

Lemma C4_sync_unless_false_witness :
  let env := stubEnv (Ok (payloadOf "rwei ract rsle")) (Ok tt) (Ok true) (Ok None)
                     (Ok tt) (Err (OtherError "Error" "Too Many Requests")) in
  let item := recordSynced "5a62be07de34500146d9c544" "tok-abc" "rwei ract rsle"
                           "2019-11-07T19:40:45.124Z" in
  (count isSync (calls (addFitbitAuthData env item "true" tt)) = 1%nat
   /\ count isPublishLastSync (calls (addFitbitAuthData env item "true" tt)) = 0%nat)
  /\ (count isPublishLastSync (calls (addFitbitAuthData env item "false" tt)) = 1%nat
      /\ count isSync (calls (addFitbitAuthData env item "false" tt)) = 0%nat).
Proof.
  pose (env := stubEnv (Ok (payloadOf "rwei ract rsle")) (Ok tt) (Ok true) (Ok None)
                       (Ok tt) (Err (OtherError "Error" "Too Many Requests"))).
  pose (g := linkedCredential (payloadOf "rwei ract rsle")
               (credentialSynced "tok-abc" "rwei ract rsle" "2019-11-07T19:40:45.124Z")).
  pose (r := mkUserAuthData None (Some "5a62be07de34500146d9c544") (Some g)).
  split.
  - apply (proj1 (@C4_sync_unless_false unit unit env
                    (recordSynced "5a62be07de34500146d9c544" "tok-abc" "rwei ract rsle"
                                  "2019-11-07T19:40:45.124Z")
                    r g tt tt
                    [GetTokenPayload (Some "tok-abc");
                     SubscribeUserEvent g "body" "BODY";
                     SubscribeUserEvent g "activities" "ACTIVITIES";
                     SubscribeUserEvent g "sleep" "SLEEP";
                     CheckUserExists (Some "5a62be07de34500146d9c544");
                     FindOne (FilterUserId (Some "5a62be07de34500146d9c544"));
                     Create r]
                    "true" eq_refl eq_refl)).
    discriminate.
  - apply (proj2 (@C4_sync_unless_false unit unit env
                    (recordSynced "5a62be07de34500146d9c544" "tok-abc" "rwei ract rsle"
                                  "2019-11-07T19:40:45.124Z")
                    r g tt tt
                    [GetTokenPayload (Some "tok-abc");
                     SubscribeUserEvent g "body" "BODY";
                     SubscribeUserEvent g "activities" "ACTIVITIES";
                     SubscribeUserEvent g "sleep" "SLEEP";
                     CheckUserExists (Some "5a62be07de34500146d9c544");
                     FindOne (FilterUserId (Some "5a62be07de34500146d9c544"));
                     Create r]
                    "false" eq_refl eq_refl)
                 eq_refl "2019-11-07T19:40:45.124Z" eq_refl).
    discriminate.
Defined.

(** ** [syncFitbitUserData] and [revokeFitbitAccessToken] *)

Section Lookup.

Variables W D : Type.
Variable env : Env W D.
Variables (userId : string) (w w1 : W) (found : option UserAuthData).

Let lookup := FindOne (FilterUserId (Some userId)).

Hypothesis Hfound :
  repo_findOne env (FilterUserId (Some userId)) w = (Ok found, w1).

Lemma syncFitbitUserData_missing :
  credentialOf found = None ->
  UserAuthDataService.syncFitbitUserData env userId w
  = mkOutcome (Err (validationException MSG_NO_AUTH_DATA)) w1 [lookup].
Proof.
  intros Hc. unfold UserAuthDataService.syncFitbitUserData.
  rewrite try_rethrow. rewrite (bind_Ok _ _ _ (call_run _ _ _ Hfound)).
  destruct found as [a|]; [simpl in Hc; rewrite Hc|]; reflexivity.
Qed.

Lemma syncFitbitUserData_linked (g : FitbitAuthData) :
  credentialOf found = Some g ->
  UserAuthDataService.syncFitbitUserData env userId w
  = mkOutcome
      (fst (fitbit_syncFitbitUserData env g (last_sync g) 1 (Some userId) w1))
      (snd (fitbit_syncFitbitUserData env g (last_sync g) 1 (Some userId) w1))
      [lookup; SyncFitbitUserData g (last_sync g) 1 (Some userId)].
Proof.
  intros Hc. unfold UserAuthDataService.syncFitbitUserData.
  rewrite try_rethrow. rewrite (bind_Ok _ _ _ (call_run _ _ _ Hfound)).
  destruct found as [a|]; [simpl in Hc; rewrite Hc|discriminate].
  unfold call.
  destruct (fitbit_syncFitbitUserData env g (last_sync g) 1 (Some userId) w1).
  reflexivity.
Qed.

Hypothesis Hvalid : validateObjectId env userId = None.

Lemma revokeFitbitAccessToken_unlinked :
  found = None ->
  revokeFitbitAccessToken env userId w = mkOutcome (Ok false) w1 [lookup].
Proof.
  intros Hn. unfold revokeFitbitAccessToken. rewrite try_rethrow.
  rewrite Hvalid. unfold check. rewrite bind_ret.
  rewrite (bind_Ok _ _ _ (call_run _ _ _ Hfound)). rewrite Hn.
  reflexivity.
Qed.

Lemma revokeFitbitAccessToken_no_credential (a : UserAuthData) :
  found = Some a ->
  fitbit a = None ->
  revokeFitbitAccessToken env userId w
  = mkOutcome (Err (TypeError "Cannot read property 'access_token' of undefined"))
              w1 [lookup].
Proof.
  intros Hs Hn. unfold revokeFitbitAccessToken. rewrite try_rethrow.
  rewrite Hvalid. unfold check. rewrite bind_ret.
  rewrite (bind_Ok _ _ _ (call_run _ _ _ Hfound)). rewrite Hs, Hn.
  reflexivity.
Qed.

Lemma revokeFitbitAccessToken_linked (a : UserAuthData) (g : FitbitAuthData) :
  found = Some a ->
  fitbit a = Some g ->
  revokeFitbitAccessToken env userId w
  = mkOutcome
      (match fst (fitbit_revokeToken env (access_token g) w1) with
       | Ok _ => Ok true
       | Err e => Err e
       end)
      (snd (fitbit_revokeToken env (access_token g) w1))
      [lookup; RevokeToken (access_token g)].
Proof.
  intros Hs Hg. unfold revokeFitbitAccessToken. rewrite try_rethrow.
  rewrite Hvalid. unfold check. rewrite bind_ret.
  rewrite (bind_Ok _ _ _ (call_run _ _ _ Hfound)). rewrite Hs, Hg.
  unfold bind, deref, call, ret. cbn [result world calls app].
  destruct (fitbit_revokeToken env (access_token g) w1) as [[[]|e] w2];
    reflexivity.
Qed.

End Lookup.

(** C7: when the lookup finds no record, or a record without the provider
    credential, [syncFitbitUserData] rejects with the [ValidationException]
    that asks for authentication data and starts no synchronisation; when it
    finds a record with a credential it starts one synchronisation of that
    credential with 1 attempt and settles the way that call does. *)
Theorem C7_sync_requires_credential (W D : Type) (env : Env W D) (userId : string)
        (w w1 : W) (found : option UserAuthData) :
  repo_findOne env (FilterUserId (Some userId)) w = (Ok found, w1) ->
  match credentialOf found with
  | None =>
      result (UserAuthDataService.syncFitbitUserData env userId w)
      = Err (validationException MSG_NO_AUTH_DATA)
      /\ count isSync (calls (UserAuthDataService.syncFitbitUserData env userId w)) = 0%nat
  | Some g =>
      result (UserAuthDataService.syncFitbitUserData env userId w)
      = fst (fitbit_syncFitbitUserData env g (last_sync g) 1 (Some userId) w1)
      /\ filter isSync (calls (UserAuthDataService.syncFitbitUserData env userId w))
         = [SyncFitbitUserData g (last_sync g) 1 (Some userId)]
  end.
Proof.
  intros Hfound. destruct (credentialOf found) as [g|] eqn:Hc.
  - rewrite (syncFitbitUserData_linked env userId w Hfound Hc). split; reflexivity.
  - rewrite (syncFitbitUserData_missing env userId w Hfound Hc). split; reflexivity.
Qed.

Lemma C7_sync_requires_credential_witness :
  let absent := stubEnv (Ok (payloadOf "rwei ract rsle")) (Ok tt) (Ok true) (Ok None)
                        (Ok tt) (Ok tt) in
  let bare := stubEnv (Ok (payloadOf "rwei ract rsle")) (Ok tt) (Ok true)
                      (Ok (Some (mkUserAuthData (Some "r1") (Some "5a62be07de34500146d9c544")
                                                None)))
                      (Ok tt) (Ok tt) in
  let linked := stubEnv (Ok (payloadOf "rwei ract rsle")) (Ok tt) (Ok true)
                        (Ok (Some (record "5a62be07de34500146d9c544" "tok-abc"
                                          "rwei ract rsle")))
                        (Ok tt) (Err (OtherError "Error" "Too Many Requests")) in
  (result (UserAuthDataService.syncFitbitUserData absent "5a62be07de34500146d9c544" tt)
   = Err (validationException MSG_NO_AUTH_DATA)
   /\ count isSync (calls (UserAuthDataService.syncFitbitUserData
                             absent "5a62be07de34500146d9c544" tt)) = 0%nat)
  /\ (result (UserAuthDataService.syncFitbitUserData bare "5a62be07de34500146d9c544" tt)
      = Err (validationException MSG_NO_AUTH_DATA)
      /\ count isSync (calls (UserAuthDataService.syncFitbitUserData
                                bare "5a62be07de34500146d9c544" tt)) = 0%nat)
  /\ (result (UserAuthDataService.syncFitbitUserData linked "5a62be07de34500146d9c544" tt)
      = Err (OtherError "Error" "Too Many Requests")
      /\ filter isSync (calls (UserAuthDataService.syncFitbitUserData
                                 linked "5a62be07de34500146d9c544" tt))
         = [SyncFitbitUserData (credential "tok-abc" "rwei ract rsle") None 1
                               (Some "5a62be07de34500146d9c544")]).
Proof.
  repeat apply conj.
  - apply (@C7_sync_requires_credential unit unit
             (stubEnv (Ok (payloadOf "rwei ract rsle")) (Ok tt) (Ok true) (Ok None)
                      (Ok tt) (Ok tt))
             "5a62be07de34500146d9c544" tt tt None eq_refl).
  - apply (@C7_sync_requires_credential unit unit
             (stubEnv (Ok (payloadOf "rwei ract rsle")) (Ok tt) (Ok true) (Ok None)
                      (Ok tt) (Ok tt))
             "5a62be07de34500146d9c544" tt tt None eq_refl).
  - apply (@C7_sync_requires_credential unit unit
             (stubEnv (Ok (payloadOf "rwei ract rsle")) (Ok tt) (Ok true)
                (Ok (Some (mkUserAuthData (Some "r1") (Some "5a62be07de34500146d9c544")
                                          None)))
                (Ok tt) (Ok tt))
             "5a62be07de34500146d9c544" tt tt _ eq_refl).
  - apply (@C7_sync_requires_credential unit unit
             (stubEnv (Ok (payloadOf "rwei ract rsle")) (Ok tt) (Ok true)
                (Ok (Some (mkUserAuthData (Some "r1") (Some "5a62be07de34500146d9c544")
                                          None)))
                (Ok tt) (Ok tt))
             "5a62be07de34500146d9c544" tt tt _ eq_refl).
  - apply (@C7_sync_requires_credential unit unit
             (stubEnv (Ok (payloadOf "rwei ract rsle")) (Ok tt) (Ok true)
                (Ok (Some (record "5a62be07de34500146d9c544" "tok-abc" "rwei ract rsle")))
                (Ok tt) (Err (OtherError "Error" "Too Many Requests")))
             "5a62be07de34500146d9c544" tt tt _ eq_refl).
  - apply (@C7_sync_requires_credential unit unit
             (stubEnv (Ok (payloadOf "rwei ract rsle")) (Ok tt) (Ok true)
                (Ok (Some (record "5a62be07de34500146d9c544" "tok-abc" "rwei ract rsle")))
                (Ok tt) (Err (OtherError "Error" "Too Many Requests")))
             "5a62be07de34500146d9c544" tt tt _ eq_refl).
Defined.

(** C8, the claim as stated fails on a stored record without the provider
    credential: [revokeFitbitAccessToken] rejects with a [TypeError] and
    never calls the revoke endpoint, where the claim has it call the
    endpoint and return [true]. *)
Lemma C8_counterexample :
  revokeFitbitAccessToken
    (stubEnv (Ok (payloadOf "rwei ract rsle")) (Ok tt) (Ok true)
             (Ok (Some (mkUserAuthData (Some "r1") (Some "5a62be07de34500146d9c544") None)))
             (Ok tt) (Ok tt))
    "5a62be07de34500146d9c544" tt
  = mkOutcome (Err (TypeError "Cannot read property 'access_token' of undefined")) tt
              [FindOne (FilterUserId (Some "5a62be07de34500146d9c544"))].
Proof. reflexivity. Qed.

(** C8, as amended: for a well-formed id, when the lookup finds no record
    [revokeFitbitAccessToken] resolves with [false] and never calls the
    revoke endpoint; when it finds a record that carries a provider
    credential it calls the endpoint once, with the access token of that
    credential, resolves with [true] when the revocation succeeds and
    rejects with the error of the revocation when it fails. *)
Theorem C8_revoke_linked_credential (W D : Type) (env : Env W D) (userId : string)
        (w w1 : W) (found : option UserAuthData) :
  validateObjectId env userId = None ->
  repo_findOne env (FilterUserId (Some userId)) w = (Ok found, w1) ->
  match found with
  | None =>
      result (revokeFitbitAccessToken env userId w) = Ok false
      /\ count isRevocation (calls (revokeFitbitAccessToken env userId w)) = 0%nat
  | Some a =>
      forall g, fitbit a = Some g ->
      filter isRevocation (calls (revokeFitbitAccessToken env userId w))
      = [RevokeToken (access_token g)]
      /\ result (revokeFitbitAccessToken env userId w)
         = match fst (fitbit_revokeToken env (access_token g) w1) with
           | Ok _ => Ok true
           | Err e => Err e
           end
  end.
Proof.
  intros Hv Hfound. destruct found as [a|].
  - intros g Hg.
    rewrite (revokeFitbitAccessToken_linked env userId w Hfound Hv eq_refl Hg).
    split; reflexivity.
  - rewrite (revokeFitbitAccessToken_unlinked env userId w Hfound Hv eq_refl).
    split; reflexivity.
Qed.

Lemma C8_revoke_linked_credential_witness :
  let unlinked := stubEnv (Ok (payloadOf "rwei ract rsle")) (Ok tt) (Ok true) (Ok None)
                          (Ok tt) (Ok tt) in
  let linked := stubEnv (Ok (payloadOf "rwei ract rsle")) (Ok tt) (Ok true)
                        (Ok (Some (record "5a62be07de34500146d9c544" "tok-abc"
                                          "rwei ract rsle")))
                        (Err (OtherError "Error" "Unauthorized")) (Ok tt) in
  (result (revokeFitbitAccessToken unlinked "5a62be07de34500146d9c544" tt) = Ok false
   /\ count isRevocation
        (calls (revokeFitbitAccessToken unlinked "5a62be07de34500146d9c544" tt)) = 0%nat)
  /\ (filter isRevocation
        (calls (revokeFitbitAccessToken linked "5a62be07de34500146d9c544" tt))
      = [RevokeToken (Some "tok-abc")]
      /\ result (revokeFitbitAccessToken linked "5a62be07de34500146d9c544" tt)
         = Err (OtherError "Error" "Unauthorized")).
Proof.
  split.
  - apply (@C8_revoke_linked_credential unit unit
             (stubEnv (Ok (payloadOf "rwei ract rsle")) (Ok tt) (Ok true) (Ok None)
                      (Ok tt) (Ok tt))
             "5a62be07de34500146d9c544" tt tt None eq_refl eq_refl).
  - apply (@C8_revoke_linked_credential unit unit
             (stubEnv (Ok (payloadOf "rwei ract rsle")) (Ok tt) (Ok true)
                (Ok (Some (record "5a62be07de34500146d9c544" "tok-abc" "rwei ract rsle")))
                (Err (OtherError "Error" "Unauthorized")) (Ok tt))
             "5a62be07de34500146d9c544" tt tt _ eq_refl eq_refl
             (credential "tok-abc" "rwei ract rsle") eq_refl).
Defined.

(** C10: on a record the lookup found, [revokeFitbitAccessToken] reads the
    access token through the provider credential without a check: the
    [TypeError] of that access is what the method rejects with, before any
    call to the revoke endpoint, exactly when the record has no provider
    credential; with a credential the endpoint is called with its access
    token.  On the same record [syncFitbitUserData] takes its own check and
    rejects with the [ValidationException] instead. *)
Theorem C10_revoke_reads_credential_unguarded (W D : Type) (env : Env W D)
        (userId : string) (w w1 : W) (a : UserAuthData) :
  validateObjectId env userId = None ->
  repo_findOne env (FilterUserId (Some userId)) w = (Ok (Some a), w1) ->
  (fitbit a = None <->
   revokeFitbitAccessToken env userId w
   = mkOutcome (Err (TypeError "Cannot read property 'access_token' of undefined"))
               w1 [FindOne (FilterUserId (Some userId))])
  /\ (forall g, fitbit a = Some g ->
                calls (revokeFitbitAccessToken env userId w)
                = [FindOne (FilterUserId (Some userId)); RevokeToken (access_token g)])
  /\ (fitbit a = None ->
      UserAuthDataService.syncFitbitUserData env userId w
      = mkOutcome (Err (validationException MSG_NO_AUTH_DATA))
                  w1 [FindOne (FilterUserId (Some userId))]).
Proof.
  intros Hv Hfound. repeat apply conj.
  - intros Hn. exact (revokeFitbitAccessToken_no_credential env userId w Hfound Hv eq_refl Hn).
  - intros Hrun. destruct (fitbit a) as [g|] eqn:Hg; [|reflexivity].
    rewrite (revokeFitbitAccessToken_linked env userId w Hfound Hv eq_refl Hg) in Hrun.
    discriminate Hrun.
  - intros g Hg.
    now rewrite (revokeFitbitAccessToken_linked env userId w Hfound Hv eq_refl Hg).
  - intros Hn. apply (syncFitbitUserData_missing env userId w Hfound). exact Hn.
Qed.

Lemma C10_revoke_reads_credential_unguarded_witness :
  let bare := mkUserAuthData (Some "r1") (Some "5a62be07de34500146d9c544") None in
  let env := stubEnv (Ok (payloadOf "rwei ract rsle")) (Ok tt) (Ok true) (Ok (Some bare))
                     (Ok tt) (Ok tt) in
  (fitbit bare = None <->
   revokeFitbitAccessToken env "5a62be07de34500146d9c544" tt
   = mkOutcome (Err (TypeError "Cannot read property 'access_token' of undefined"))
               tt [FindOne (FilterUserId (Some "5a62be07de34500146d9c544"))])
  /\ (forall g, fitbit bare = Some g ->
                calls (revokeFitbitAccessToken env "5a62be07de34500146d9c544" tt)
                = [FindOne (FilterUserId (Some "5a62be07de34500146d9c544"));
                   RevokeToken (access_token g)])
  /\ (fitbit bare = None ->
      UserAuthDataService.syncFitbitUserData env "5a62be07de34500146d9c544" tt
      = mkOutcome (Err (validationException MSG_NO_AUTH_DATA))
                  tt [FindOne (FilterUserId (Some "5a62be07de34500146d9c544"))]).
Proof.
  apply (@C10_revoke_reads_credential_unguarded unit unit
           (stubEnv (Ok (payloadOf "rwei ract rsle")) (Ok tt) (Ok true)
              (Ok (Some (mkUserAuthData (Some "r1") (Some "5a62be07de34500146d9c544")
                                        None)))
              (Ok tt) (Ok tt))
           "5a62be07de34500146d9c544" tt tt
           (mkUserAuthData (Some "r1") (Some "5a62be07de34500146d9c544") None));
    reflexivity.
Defined.

(** ** [manageFitbitAuthData] *)

(** C9, the claim as stated fails on properties that are present in the
    payload and falsy: an empty subject id, an empty scope string and an
    expiry of 0 overwrite nothing. *)
Lemma C9_counterexample :
  let f := mkFitbitAuthData (Some "p0") (Some "tok-abc") (Some 28800) (Some "ref-xyz")
                            (Some "rwei ract rsle") None None None in
  let p := mkTokenPayload (Some "") (Some "") (Some 0) in
  manageFitbitAuthData
    (stubEnv (Ok p) (Ok tt) (Ok true) (Ok None) (Ok tt) (Ok tt))
    (mkUserAuthData None (Some "5a62be07de34500146d9c544") (Some f)) tt
  = mkOutcome
      (Ok (mkUserAuthData None (Some "5a62be07de34500146d9c544")
             (Some (set_token_type (Some "Bearer") f))))
      tt [GetTokenPayload (Some "tok-abc")]
  /\ fb_user_id (assignTokenPayload p f) <> sub p
  /\ scope (assignTokenPayload p f) <> scopes p
  /\ expires_in (assignTokenPayload p f) <> exp p.
Proof. repeat split; discriminate. Qed.

(** C9, as amended: after a successful introspection the record returned
    by [manageFitbitAuthData] is the input record with, in its provider
    credential, exactly the truthy properties of the payload (a non-empty
    subject id, a non-empty scope string, a non-zero expiry) written over the
    user id, the scope and the expiry; a property that is missing or falsy
    leaves its field as it was; the token type is ["Bearer"]; every other
    field is unchanged. *)
Theorem C9_truthy_payload_fields_assigned (W D : Type) (env : Env W D)
        (data : UserAuthData) (f : FitbitAuthData) (p : TokenPayload) (w w1 : W) :
  fitbit data = Some f ->
  fitbit_getTokenPayload env (access_token f) w = (Ok p, w1) ->
  exists f',
    manageFitbitAuthData env data w
    = mkOutcome (Ok (mkUserAuthData (id data) (user_id data) (Some f'))) w1
                [GetTokenPayload (access_token f)]
    /\ fb_user_id f' = (if JS.truthy_string (sub p) then sub p else fb_user_id f)
    /\ scope f' = (if JS.truthy_string (scopes p) then scopes p else scope f)
    /\ expires_in f' = (if JS.truthy_number (exp p) then exp p else expires_in f)
    /\ token_type f' = Some "Bearer"
    /\ access_token f' = access_token f
    /\ refresh_token f' = refresh_token f
    /\ status f' = status f
    /\ last_sync f' = last_sync f.
Proof.
  intros Hf Hp. exists (assignTokenPayload p f).
  split; [exact (manageFitbitAuthData_run env data w Hf Hp)|].
  unfold assignTokenPayload.
  destruct (JS.truthy_string (sub p)), (JS.truthy_string (scopes p)),
    (JS.truthy_number (exp p)); repeat split.
Qed.

Lemma C9_truthy_payload_fields_assigned_witness :
  let f := mkFitbitAuthData (Some "p0") (Some "tok-abc") (Some 28800) (Some "ref-xyz")
                            (Some "rwei") None None None in
  let p := mkTokenPayload (Some "p1") None (Some 3600) in
  exists f',
    manageFitbitAuthData
      (stubEnv (Ok p) (Ok tt) (Ok true) (Ok None) (Ok tt) (Ok tt))
      (mkUserAuthData None (Some "5a62be07de34500146d9c544") (Some f)) tt
    = mkOutcome (Ok (mkUserAuthData None (Some "5a62be07de34500146d9c544") (Some f')))
                tt [GetTokenPayload (Some "tok-abc")]
    /\ fb_user_id f' = Some "p1"
    /\ scope f' = Some "rwei"
    /\ expires_in f' = Some 3600
    /\ token_type f' = Some "Bearer"
    /\ access_token f' = Some "tok-abc"
    /\ refresh_token f' = Some "ref-xyz"
    /\ status f' = None
    /\ last_sync f' = None.
Proof.
  exact (@C9_truthy_payload_fields_assigned unit unit
           (stubEnv (Ok (mkTokenPayload (Some "p1") None (Some 3600)))
                    (Ok tt) (Ok true) (Ok None) (Ok tt) (Ok tt))
           (mkUserAuthData None (Some "5a62be07de34500146d9c544")
              (Some (mkFitbitAuthData (Some "p0") (Some "tok-abc") (Some 28800)
                                      (Some "ref-xyz") (Some "rwei") None None None)))
           (mkFitbitAuthData (Some "p0") (Some "tok-abc") (Some 28800)
                             (Some "ref-xyz") (Some "rwei") None None None)
           (mkTokenPayload (Some "p1") None (Some 3600)) tt tt eq_refl eq_refl).
Defined.

(** ** Relinking on the store *)

(** Two links of one user on an empty store. *)
Example store_scenario :
  let env := withStore (stubEnv (Ok (payloadOf "rwei ract rsle")) (Ok tt) (Ok true)
                                (Ok None) (Ok tt) (Ok tt)) in
  let first := add env (record "u1" "tok-abc" "rwei ract rsle") (tt, Store.empty) in
  let second := add env (record "u1" "tok-def" "rwei ract rsle") (world first) in
  Store.countUser (Some "u1") (snd (world second)) = 1%nat
  /\ map id (Store.records (snd (world second))) = [Some "r"]
  /\ option_map access_token
       (credentialOf (Store.findOne (FilterUserId (Some "u1")) (snd (world second))))
     = Some (Some "tok-def").
Proof. repeat split. Qed.

(** *** Inverting a successful [add] *)

Section AddInversion.

Variables W D : Type.
Variable env : Env W D.

Lemma add_persist_Ok_inv (newItem r : UserAuthData) (w w' : W) (l : list Call) :
  add_persist env newItem w = mkOutcome (Ok r) w' l ->
  exists w1 w2 found,
    repo_checkUserExists env (user_id newItem) w = (Ok true, w1)
    /\ repo_findOne env (FilterUserId (user_id newItem)) w1 = (Ok found, w2)
    /\ match found with
       | Some saved =>
           repo_update env (set_id (id saved) newItem) w2 = (Ok r, w')
           /\ l = [CheckUserExists (user_id newItem);
                   FindOne (FilterUserId (user_id newItem));
                   Update (set_id (id saved) newItem)]
       | None =>
           repo_create env newItem w2 = (Ok r, w')
           /\ l = [CheckUserExists (user_id newItem);
                   FindOne (FilterUserId (user_id newItem));
Create newItem]
end.
Proof.
intros H.
destruct (repo_checkUserExists env (user_id newItem) w) as [[[|]|e] w1] eqn:Hc.
- destruct (repo_findOne env (FilterUserId (user_id newItem)) w1)
as [[[saved|]|e] w2] eqn:Hf.
+ destruct (repo_update env (set_id (id saved) newItem) w2) as [ru w3] eqn:Hu.
rewrite (add_persist_update env newItem w Hc Hf Hu) in H.
injection H as -> -> <-. exists w1, w2, (Some saved). auto.
+ destruct (repo_create env newItem w2) as [rc w3] eqn:Hu.
rewrite (add_persist_create env newItem w Hc Hf Hu) in H.
injection H as -> -> <-. exists w1, w2, None. auto.
+ rewrite (add_persist_lookup_fails env newItem w Hc Hf) in H. discriminate.
- rewrite (add_persist_not_registered env newItem w Hc) in H. discriminate.
- rewrite (add_persist_directory_fails env newItem w Hc) in H. discriminate.
Qed.

Lemma add_Ok_inv (item r : UserAuthData) (w w' : W) (l : list Call) :
  add env item w = mkOutcome (Ok r) w' l ->
  exists f p w1 w2 l2 l3,
    validateCreateUserAuthData env item = None
    /\ fitbit item = Some f
    /\ fitbit_getTokenPayload env (access_token f) w = (Ok p, w1)
    /\ subscribeFitbitEvents env (set_fitbit (Some (linkedCredential p f)) item) w1
       = mkOutcome (Ok tt) w2 l2
    /\ add_persist env (set_fitbit (Some (linkedCredential p f)) item) w2
       = mkOutcome (Ok r) w' l3
    /\ l = (GetTokenPayload (access_token f) :: l2 ++ l3)%list.
Proof.
  intros H. rewrite add_run in H.
  destruct (validateCreateUserAuthData env item) as [e|] eqn:Hv.
  { rewrite (add_body_invalid env item w Hv) in H. discriminate. }
  destruct (fitbit item) as [f|] eqn:Hf.
  2:{ rewrite (add_body_no_credential env item w Hv Hf) in H. discriminate. }
  destruct (fitbit_getTokenPayload env (access_token f) w) as [[p|e] w1] eqn:Hp.
  2:{ rewrite (add_body_introspection_fails env item w Hv Hf Hp) in H. discriminate. }
  destruct (subscribeFitbitEvents env (set_fitbit (Some (linkedCredential p f)) item) w1)
    as [[[]|e] w2 l2] eqn:Hs.
  2:{ rewrite (add_body_subscription_fails env item w Hv Hf Hp Hs) in H. discriminate. }
  rewrite (add_body_subscribed env item w Hv Hf Hp Hs) in H. cbv zeta in H.
  destruct (add_persist env (set_fitbit (Some (linkedCredential p f)) item) w2)
    as [[r'|e] w3 l3] eqn:Ha; cbn [result world calls] in H; [|discriminate].
  injection H as -> -> <-.
  exists f, p, w1, w2, l2, l3. auto 10.
Qed.

End AddInversion.

(** *** Steps that leave the store alone *)

Section Keeps.

Variables W S : Type.

Lemma keeps_ret A (a : A) : keeps (ret a : M (W * S) A).
Proof. intros ws. reflexivity. Qed.

Lemma keeps_throw A (e : Exn) : keeps (@throw (W * S) A e).
Proof. intros ws. reflexivity. Qed.

Lemma keeps_check (v : option Exn) : keeps (@check (W * S) v).
Proof. destruct v; intros ws; reflexivity. Qed.

Lemma keeps_deref A (o : option A) (prop : string) : keeps (@deref (W * S) A o prop).
Proof. destruct o; intros ws; reflexivity. Qed.

Lemma keeps_call A (c : Call) (f : W * S -> Result A * (W * S)) :
  (forall ws, snd (snd (f ws)) = snd ws) -> keeps (call c f).
Proof.
  intros Hf ws. unfold call. specialize (Hf ws). destruct (f ws) as [r ws'].
  exact Hf.
Qed.

Lemma keeps_bind A B (m : M (W * S) A) (k : A -> M (W * S) B) :
  keeps m -> (forall a, keeps (k a)) -> keeps (bind m k).
Proof.
  intros Hm Hk ws. unfold bind. specialize (Hm ws).
  destruct (m ws) as [[a|e] ws' l]; simpl in *; [|exact Hm].
  now rewrite Hk.
Qed.

Lemma keeps_try_catch A (m : M (W * S) A) (h : Exn -> M (W * S) A) :
  keeps m -> (forall e, keeps (h e)) -> keeps (try_catch m h).
Proof.
  intros Hm Hh ws. unfold try_catch. specialize (Hm ws).
  destruct (m ws) as [[a|e] ws' l]; simpl in *; [exact Hm|].
  now rewrite Hh.
Qed.

End Keeps.

Create HintDb keeps.
#[local] Hint Resolve keeps_ret keeps_throw keeps_check keeps_deref : keeps.

Ltac keeps_step :=
  first
    [ apply keeps_try_catch; [|intros ?]
    | apply keeps_bind; [|intros ?]
    | apply keeps_call; intros ?; reflexivity
    | solve [auto with keeps]
    | match goal with
      | |- keeps (if ?b then _ else _) => destruct b
      | |- keeps (match ?x with Some _ => _ | None => _ end) => destruct x
      end ].

Lemma manageFitbitAuthData_keeps (W D : Type) (e : Env W D) (data : UserAuthData) :
  keeps (manageFitbitAuthData (withStore e) data).
Proof. unfold manageFitbitAuthData. repeat keeps_step. Qed.

Lemma subscribeFitbitEvents_keeps (W D : Type) (e : Env W D) (data : UserAuthData) :
  keeps (subscribeFitbitEvents (withStore e) data).
Proof. unfold subscribeFitbitEvents. repeat keeps_step. Qed.

(** *** The store operations *)

Lemma eqb_opt_eq (a b : option string) : Store.eqb_opt a b = true <-> a = b.
Proof.
  destruct a as [x|], b as [y|]; simpl; try (split; [discriminate|discriminate]).
  - rewrite String.eqb_eq. split; [now intros ->|now intros [= ->]].
  - split; reflexivity.
Qed.

Lemma eqb_opt_neq (a b : option string) : Store.eqb_opt a b = false <-> a <> b.
Proof.
  rewrite <- eqb_opt_eq. destruct (Store.eqb_opt a b); split; congruence.
Qed.

Lemma idOf_length (n : nat) : String.length (Store.idOf n) = S n.
Proof. induction n; simpl; congruence. Qed.

Lemma idOf_inj (n k : nat) : Store.idOf n = Store.idOf k -> n = k.
Proof.
  intros H. apply (f_equal String.length) in H. rewrite !idOf_length in H.
  now injection H.
Qed.

Lemma existsb_eqb_opt (i : option string) (ids : list (option string)) :
  existsb (Store.eqb_opt i) ids = true <-> In i ids.
Proof.
  rewrite existsb_exists. split.
  - intros [x [Hin Hx]]. apply eqb_opt_eq in Hx. now subst.
  - intros Hin. exists i. split; [exact Hin|now apply eqb_opt_eq].
Qed.

Lemma distinct_NoDup (ids : list (option string)) :
  Store.distinct ids = true <-> NoDup ids.
Proof.
  induction ids as [|i ids IH]; simpl.
  - split; [constructor|reflexivity].
  - rewrite andb_true_iff, negb_true_iff, IH. split.
    + intros [Hn Hd]. constructor; [|exact Hd].
      intros Hin. apply existsb_eqb_opt in Hin. congruence.
    + intros Hnd. inversion Hnd as [|? ? Hn Hd]; subst. split; [|exact Hd].
      destruct (existsb (Store.eqb_opt i) ids) eqn:He; [|reflexivity].
      apply existsb_eqb_opt in He. contradiction.
Qed.

Lemma issued_spec (n : nat) (i : option string) :
  Store.issued n i = true <-> exists k, (k < n)%nat /\ i = Some (Store.idOf k).
Proof.
  unfold Store.issued. rewrite existsb_exists. split.
  - intros [k [Hin Hk]]. apply in_seq in Hin. apply eqb_opt_eq in Hk.
    exists k. split; [lia|exact Hk].
  - intros [k [Hlt Hk]]. exists k. split; [apply in_seq; lia|now apply eqb_opt_eq].
Qed.

(** Where a lookup by user finds a record, writing over its identity keeps
    the identities, the number of records and the number of records of that
    user, and the lookup then finds what was written. *)
Lemma replace_found (u : option string) (item saved : UserAuthData)
      (rs : list UserAuthData) :
  find (Store.matches (FilterUserId u)) rs = Some saved ->
  NoDup (map id rs) ->
  id item = id saved ->
  user_id item = u ->
  exists rs',
    Store.replace item rs = Some rs'
    /\ map id rs' = map id rs
    /\ length rs' = length rs
    /\ length (filter (Store.matches (FilterUserId u)) rs')
       = length (filter (Store.matches (FilterUserId u)) rs)
    /\ find (Store.matches (FilterUserId u)) rs' = Some item.
Proof.
  intros Hfind Hnd Hid Hu.
  assert (Hitem : Store.matches (FilterUserId u) item = true)
    by (simpl; now apply eqb_opt_eq).
  induction rs as [|r rs IH]; [discriminate|].
  cbn [find] in Hfind. inversion Hnd as [|? ? Hnotin Hnd']; subst.
  destruct (Store.matches (FilterUserId (user_id item)) r) eqn:Hr.
  - injection Hfind as ->.
    exists (item :: rs). cbn [Store.replace].
    rewrite (proj2 (eqb_opt_eq (id saved) (id item))) by congruence.
    cbn [map length filter find]. rewrite Hitem, Hr, Hid. auto.
  - destruct (IH Hfind Hnd') as (rs' & Hrep & Hids & Hlen & Hcnt & Hf).
    exists (r :: rs'). cbn [Store.replace].
    assert (Hne : Store.eqb_opt (id r) (id item) = false).
    { apply eqb_opt_neq. intros Heq. apply Hnotin. rewrite Heq, Hid.
      apply in_map. apply find_some in Hfind. tauto. }
    rewrite Hne, Hrep. cbn [option_map map length filter find].
    rewrite Hr, Hids, Hlen, Hcnt, Hf. auto.
Qed.

Lemma find_none_filter (q : Query) (rs : list UserAuthData) :
  find (Store.matches q) rs = None -> filter (Store.matches q) rs = [].
Proof.
  induction rs as [|r rs IH]; simpl; [reflexivity|].
  destruct (Store.matches q r); [discriminate|exact IH].
Qed.

Lemma find_some_filter (q : Query) (rs : list UserAuthData) (r : UserAuthData) :
  find (Store.matches q) rs = Some r ->
  (1 <= length (filter (Store.matches q) rs))%nat.
Proof.
  induction rs as [|r' rs IH]; simpl; [discriminate|].
  destruct (Store.matches q r'); simpl; [lia|exact IH].
Qed.

Lemma find_app_new (q : Query) (rs : list UserAuthData) (r : UserAuthData) :
  find (Store.matches q) rs = None ->
  Store.matches q r = true ->
  find (Store.matches q) (rs ++ [r]) = Some r.
Proof.
  induction rs as [|r' rs IH]; simpl; intros Hn Hm; [now rewrite Hm|].
  destruct (Store.matches q r'); [discriminate|now apply IH].
Qed.

(** [create] keeps the store well formed. *)
Lemma wf_create (item : UserAuthData) (s : Store.t) :
  Store.wf s = true -> Store.wf (snd (Store.create item s)) = true.
Proof.
  unfold Store.wf. rewrite !andb_true_iff, !forallb_forall, !distinct_NoDup.
  intros [Hiss Hnd]. cbn [Store.create snd Store.records Store.nextId].
  rewrite map_app. cbn [map set_id id]. split.
  - intros i Hin. apply issued_spec. apply in_app_or in Hin as [Hin|[<-|[]]].
    + apply Hiss, issued_spec in Hin as [k [Hk ->]]. exists k. split; [lia|reflexivity].
    + exists (Store.nextId s). split; [lia|reflexivity].
  - apply NoDup_app; [exact Hnd|repeat constructor; intros []|].
    intros i Hin [<-|[]].
    apply Hiss, issued_spec in Hin as [k [Hk Heq]].
    injection Heq as Heq. apply idOf_inj in Heq. lia.
Qed.

(** The create-or-update of [add] on the store: one record of the user
    afterwards, the one [add] resolves with; an existing record keeps its
    identity and no record is added, otherwise one record is created. *)
Lemma add_persist_on_store (W D : Type) (e : Env W D) (n r : UserAuthData)
      (w w' : W) (s s' : Store.t) (l : list Call) :
  add_persist (withStore e) n (w, s) = mkOutcome (Ok r) (w', s') l ->
  Store.wf s = true ->
  (Store.countUser (user_id n) s <= 1)%nat ->
  Store.wf s' = true
  /\ Store.countUser (user_id n) s' = 1%nat
  /\ Store.findOne (FilterUserId (user_id n)) s' = Some r
  /\ user_id r = user_id n
  /\ fitbit r = fitbit n
  /\ match Store.findOne (FilterUserId (user_id n)) s with
     | Some saved =>
         id r = id saved
         /\ length (Store.records s') = length (Store.records s)
         /\ filter isStoreWrite l = [Update r]
     | None =>
         length (Store.records s') = S (length (Store.records s))
         /\ filter isStoreWrite l = [Create n]
     end.
Proof.
  intros Hrun Hwf Hcnt.
  apply add_persist_Ok_inv in Hrun as (ws1 & ws2 & found & Hc & Hf & Hw).
  cbn [withStore repo_checkUserExists repo_findOne fst snd] in Hc, Hf.
  injection Hc as _ <-. cbn [snd] in Hf. injection Hf as <- <-.
  pose proof Hwf as Hwf'. unfold Store.wf in Hwf'.
  apply andb_true_iff in Hwf' as [_ Hnd]. apply distinct_NoDup in Hnd.
  unfold Store.findOne in *. unfold Store.countUser in *.
  destruct (find (Store.matches (FilterUserId (user_id n))) (Store.records s))
    as [saved|] eqn:Hfind.
  - destruct Hw as [Hu ->].
    cbn [withStore repo_update fst snd] in Hu.
    destruct (@replace_found (user_id n) (set_id (id saved) n) saved
                (Store.records s) Hfind Hnd eq_refl eq_refl)
      as (rs' & Hrep & Hids & Hlen & Hk & Hf').
    unfold Store.update in Hu. rewrite Hrep in Hu. cbn [fst snd] in Hu.
    injection Hu as <- _ <-. cbn [Store.records Store.nextId].
    repeat apply conj; try reflexivity; try assumption.
    + unfold Store.wf. cbn [Store.records Store.nextId]. rewrite Hids. exact Hwf.
    + rewrite Hk. apply find_some_filter in Hfind. lia.
  - destruct Hw as [Hu ->].
    cbn [withStore repo_create fst snd] in Hu.
    injection Hu as <- _ <-.
    assert (Hm : Store.matches (FilterUserId (user_id n))
                   (set_id (Some (Store.idOf (Store.nextId s))) n) = true)
      by (simpl; now apply eqb_opt_eq).
    repeat apply conj; try reflexivity.
    + now apply wf_create.
    + cbn [Store.create snd Store.records]. rewrite filter_app.
      rewrite (find_none_filter _ _ Hfind). cbn [filter]. rewrite Hm. reflexivity.
    + cbn [Store.create snd Store.records]. now apply find_app_new.
    + cbn [Store.create snd Store.records]. rewrite length_app. simpl. lia.
Qed.

(** The access token is the one submitted: neither the payload nor the
    status touches it. *)
Lemma access_token_linkedCredential (p : TokenPayload) (f : FitbitAuthData) :
  access_token (linkedCredential p f) = access_token f.
Proof.
  unfold linkedCredential, assignTokenPayload.
  destruct (JS.truthy_string (sub p)), (JS.truthy_string (scopes p)),
    (JS.truthy_number (exp p)); reflexivity.
Qed.

(** What [add] does to the store is what its create-or-update does. *)
Lemma add_on_store (W D : Type) (e : Env W D) (item r : UserAuthData)
      (w w' : W) (s s' : Store.t) (l : list Call) :
  add (withStore e) item (w, s) = mkOutcome (Ok r) (w', s') l ->
  exists f p w2 l3,
    fitbit item = Some f
    /\ add_persist (withStore e) (set_fitbit (Some (linkedCredential p f)) item) (w2, s)
       = mkOutcome (Ok r) (w', s') l3
    /\ filter isStoreWrite l = filter isStoreWrite l3.
Proof.
  intros Hrun.
  apply add_Ok_inv in Hrun as (f & p & ws1 & ws2 & l2 & l3 & _ & Hf & Hp & Hs & Ha & ->).
  cbn [withStore fitbit_getTokenPayload] in Hp. injection Hp as _ <-.
  pose proof (subscribeFitbitEvents_keeps e
                (set_fitbit (Some (linkedCredential p f)) item)
                (snd (fitbit_getTokenPayload e (access_token f) w), s)) as Hk.
  pose proof (subscribeFitbitEvents_no_write (withStore e)
                (set_fitbit (Some (linkedCredential p f)) item)
                (snd (fitbit_getTokenPayload e (access_token f) w), s)) as Hnw.
  rewrite Hs in Hk, Hnw. cbn [world calls snd] in Hk, Hnw.
  destruct ws2 as [w2 s2]. cbn [snd] in Hk. subst s2.
  exists f, p, w2, l3. repeat split; [exact Hf|exact Ha|].
  cbn [filter isStoreWrite]. rewrite filter_app.
  unfold count in Hnw. apply length_zero_iff_nil in Hnw. now rewrite Hnw.
Qed.

(** C5: on a store that is well formed and holds at most one record of the
    user, two successful calls of [add] with the same user id leave exactly
    one record of that user; it is the record the second call resolves with,
    it carries the second call's credential (its access token, with the
    payload of the second introspection assigned and the status set) under
    the identity of the record of the first call, and the second call writes
    by one [update] and no [create].  The first call updates the record the
    store already has for the user, under its identity, and creates one
    otherwise. *)
Theorem C5_relink_keeps_one_record (W D : Type) (e : Env W D)
        (item1 item2 r1 r2 : UserAuthData) (w0 w1 w2 : W) (s0 s1 s2 : Store.t)
        (l1 l2 : list Call) :
  user_id item2 = user_id item1 ->
  Store.wf s0 = true ->
  (Store.countUser (user_id item1) s0 <= 1)%nat ->
  add (withStore e) item1 (w0, s0) = mkOutcome (Ok r1) (w1, s1) l1 ->
  add (withStore e) item2 (w1, s1) = mkOutcome (Ok r2) (w2, s2) l2 ->
  Store.countUser (user_id item1) s2 = 1%nat
  /\ Store.findOne (FilterUserId (user_id item1)) s2 = Some r2
  /\ id r2 = id r1
  /\ length (Store.records s2) = length (Store.records s1)
  /\ filter isStoreWrite l2 = [Update r2]
  /\ (exists f2 p2,
         fitbit item2 = Some f2
         /\ fitbit r2 = Some (linkedCredential p2 f2)
         /\ access_token (linkedCredential p2 f2) = access_token f2)
  /\ match Store.findOne (FilterUserId (user_id item1)) s0 with
     | Some saved => id r1 = id saved /\ filter isStoreWrite l1 = [Update r1]
     | None =>
         length (Store.records s1) = S (length (Store.records s0))
         /\ exists n1, filter isStoreWrite l1 = [Create n1] /\ fitbit n1 = fitbit r1
     end.
Proof.
  intros Hu Hwf Hcnt Hrun1 Hrun2.
  apply add_on_store in Hrun1 as (f1 & p1 & w1' & l1' & Hf1 & Ha1 & ->).
  apply add_on_store in Hrun2 as (f2 & p2 & w2' & l2' & Hf2 & Ha2 & ->).
  apply add_persist_on_store in Ha1; [|exact Hwf|exact Hcnt].
  cbn [user_id set_fitbit] in Ha1.
  destruct Ha1 as (Hwf1 & Hcnt1 & Hfind1 & Hu1 & Hfit1 & Hcase1).
  apply add_persist_on_store in Ha2;
    [|exact Hwf1|cbn [user_id set_fitbit]; rewrite Hu, Hcnt1; lia].
  cbn [user_id set_fitbit fitbit] in Ha2. rewrite Hu in Ha2.
  destruct Ha2 as (Hwf2 & Hcnt2 & Hfind2 & Hu2 & Hfit2 & Hcase2).
  rewrite Hfind1 in Hcase2. destruct Hcase2 as (Hid & Hlen & Hw2).
  repeat apply conj; try assumption.
  - exists f2, p2. repeat split; [assumption|assumption|].
    apply access_token_linkedCredential.
  - destruct (Store.findOne (FilterUserId (user_id item1)) s0) as [saved|].
    + destruct Hcase1 as (? & _ & ?). split; assumption.
    + destruct Hcase1 as (? & ?). split; [assumption|].
      eexists. split; [eassumption|]. now rewrite Hfit1.
Qed.

Lemma C5_relink_keeps_one_record_witness :
  let env := withStore (stubEnv (Ok (payloadOf "rwei ract rsle")) (Ok tt) (Ok true)
                                (Ok None) (Ok tt) (Ok tt)) in
  let first := add env (record "u1" "tok-abc" "rwei ract rsle") (tt, Store.empty) in
  let second := add env (record "u1" "tok-def" "rwei ract rsle") (world first) in
  Store.countUser (Some "u1") (snd (world second)) = 1%nat
  /\ Store.findOne (FilterUserId (Some "u1")) (snd (world second))
     = Some (mkUserAuthData (Some "r") (Some "u1")
               (Some (linkedCredential (payloadOf "rwei ract rsle")
                        (credential "tok-def" "rwei ract rsle")))).
Proof.
  cbv zeta.
  pose (g1 := linkedCredential (payloadOf "rwei ract rsle")
                (credential "tok-abc" "rwei ract rsle")).
  pose (g2 := linkedCredential (payloadOf "rwei ract rsle")
                (credential "tok-def" "rwei ract rsle")).
  pose (r1 := mkUserAuthData (Some "r") (Some "u1") (Some g1)).
  pose (r2 := mkUserAuthData (Some "r") (Some "u1") (Some g2)).
  destruct (@C5_relink_keeps_one_record unit unit
              (stubEnv (Ok (payloadOf "rwei ract rsle")) (Ok tt) (Ok true)
                       (Ok None) (Ok tt) (Ok tt))
              (record "u1" "tok-abc" "rwei ract rsle")
              (record "u1" "tok-def" "rwei ract rsle")
              r1 r2 tt tt tt Store.empty (Store.mk [r1] 1) (Store.mk [r2] 1)
              [GetTokenPayload (Some "tok-abc");
               SubscribeUserEvent g1 "body" "BODY";
               SubscribeUserEvent g1 "activities" "ACTIVITIES";
               SubscribeUserEvent g1 "sleep" "SLEEP";
               CheckUserExists (Some "u1");
               FindOne (FilterUserId (Some "u1"));
               Create (mkUserAuthData None (Some "u1") (Some g1))]
              [GetTokenPayload (Some "tok-def");
               SubscribeUserEvent g2 "body" "BODY";
               SubscribeUserEvent g2 "activities" "ACTIVITIES";
               SubscribeUserEvent g2 "sleep" "SLEEP";
               CheckUserExists (Some "u1");
               FindOne (FilterUserId (Some "u1"));
               Update r2]
              eq_refl eq_refl (le_S 0 0 (le_n 0)) eq_refl eq_refl)
    as (Hcount & Hfind & _).
  split; [exact Hcount|exact Hfind].
Defined.

(** * Further properties of the service *)

(** ** The order of the calls of [add] *)

Lemma grantsAll_guard (s : string) :
  negb (hasScope s "rwei") || negb (hasScope s "ract") || negb (hasScope s "rsle")
  = negb (grantsAll s).
Proof.
  unfold grantsAll.
  destruct (hasScope s "rwei"), (hasScope s "ract"), (hasScope s "rsle"); reflexivity.
Qed.

Lemma grantsAll_true (s : string) :
  grantsAll s = true ->
  hasScope s "rwei" = true /\ hasScope s "ract" = true /\ hasScope s "rsle" = true.
Proof.
  unfold grantsAll. rewrite !andb_true_iff. tauto.
Qed.

(** What [subscribeFitbitEvents] called: the three subscriptions when it
    resolves, which it does only for a scope string that passes the guard;
    the subscriptions up to the one that rejected otherwise. *)
Lemma subscribeFitbitEvents_shape (W D : Type) (env : Env W D)
      (data : UserAuthData) (w : W) :
  match result (subscribeFitbitEvents env data w) with
  | Ok _ =>
      exists g s,
        fitbit data = Some g /\ scope g = Some s /\ grantsAll s = true
        /\ calls (subscribeFitbitEvents env data w) = subscriptionCalls g
  | Err _ =>
      exists g n,
        (n <= 3)%nat
        /\ (1 <= n -> exists s, fitbit data = Some g /\ scope g = Some s
                               /\ grantsAll s = true)%nat
        /\ calls (subscribeFitbitEvents env data w) = firstn n (subscriptionCalls g)
  end.
Proof.
  destruct (fitbit data) as [g|] eqn:Hg.
  2:{ unfold subscribeFitbitEvents. rewrite try_rethrow, Hg. cbn [deref].
      rewrite bind_throw. cbn [result calls].
      exists emptyFitbitAuthData, 0%nat. repeat split; try lia; auto. }
  destruct (scope g) as [s|] eqn:Hs.
  2:{ rewrite (subscribeFitbitEvents_no_scope env data w Hg Hs). cbn [result calls].
      exists g, 0%nat. repeat split; try lia; auto. }
  destruct (grantsAll s) eqn:Hall.
  2:{ rewrite (subscribeFitbitEvents_rejected env data w Hg Hs)
        by (rewrite grantsAll_guard, Hall; reflexivity).
      cbn [result calls]. exists g, 0%nat. repeat split; try lia; auto. }
  destruct (grantsAll_true s Hall) as (H1 & H2 & H3).
  assert (Hpath : exists s0, Some g = Some g /\ scope g = Some s0 /\ grantsAll s0 = true)
    by (exists s; auto).
  destruct (fitbit_subscribeUserEvent env g "body" "BODY" w) as [[[]|e1] w2] eqn:E1.
  2:{ rewrite (subscribeFitbitEvents_first_fails env data Hg Hs H1 H2 H3 w E1).
      cbn [result calls]. exists g, 1%nat. repeat split; try lia; auto. }
  destruct (fitbit_subscribeUserEvent env g "activities" "ACTIVITIES" w2)
    as [[[]|e2] w3] eqn:E2.
  2:{ rewrite (subscribeFitbitEvents_second_fails env data Hg Hs H1 H2 H3 w E1 E2).
      cbn [result calls]. exists g, 2%nat. repeat split; try lia; auto. }
  destruct (fitbit_subscribeUserEvent env g "sleep" "SLEEP" w3) as [[[]|e3] w4] eqn:E3.
  2:{ rewrite (subscribeFitbitEvents_third_fails env data Hg Hs H1 H2 H3 w E1 E2 E3).
      cbn [result calls]. exists g, 3%nat. repeat split; try lia; auto. }
  rewrite (subscribeFitbitEvents_ok env data Hg Hs H1 H2 H3 w E1 E2 E3).
  cbn [result calls]. exists g, s. auto.
Qed.

(** What [add_persist] called: the directory, then the lookup, then one
    write; it resolves only after the write. *)
Lemma add_persist_shape (W D : Type) (env : Env W D) (newItem : UserAuthData) (w : W) :
  exists n wr,
    (n <= 3)%nat
    /\ isWriteOf newItem wr
    /\ calls (add_persist env newItem w)
       = firstn n [CheckUserExists (user_id newItem);
                   FindOne (FilterUserId (user_id newItem)); wr]
    /\ (forall r, result (add_persist env newItem w) = Ok r -> n = 3%nat).
Proof.
  destruct (repo_checkUserExists env (user_id newItem) w) as [[[|]|e] w1] eqn:Hc.
  - destruct (repo_findOne env (FilterUserId (user_id newItem)) w1)
      as [[[saved|]|e] w2] eqn:Hf.
    + destruct (repo_update env (set_id (id saved) newItem) w2) as [ru w3] eqn:Hu.
      rewrite (add_persist_update env newItem w Hc Hf Hu).
      exists 3%nat, (Update (set_id (id saved) newItem)).
      repeat split; try lia; try (right; now exists saved).
    + destruct (repo_create env newItem w2) as [rc w3] eqn:Hu.
      rewrite (add_persist_create env newItem w Hc Hf Hu).
      exists 3%nat, (Create newItem). repeat split; try lia; try (now left).
    + rewrite (add_persist_lookup_fails env newItem w Hc Hf).
      exists 2%nat, (Create newItem).
      repeat split; try lia; try (now left); try discriminate.
  - rewrite (add_persist_not_registered env newItem w Hc).
    exists 1%nat, (Create newItem). repeat split; try lia; try (now left); try discriminate.
  - rewrite (add_persist_directory_fails env newItem w Hc).
    exists 1%nat, (Create newItem). repeat split; try lia; try (now left); try discriminate.
Qed.

Lemma add_calls_body (W D : Type) (env : Env W D) (item : UserAuthData) (w : W) :
  calls (add env item w) = calls (add_body env item w).
Proof. rewrite add_run. now destruct (result (add_body env item w)). Qed.

(** The calls of [add], whatever the collaborators answer, are the first
    [n] of the complete sequence; a call is there only after the steps before
    it went through. *)
Lemma add_calls_prefix (W D : Type) (env : Env W D) (item : UserAuthData) (w : W) :
  exists n f p wr,
    (n <= 7)%nat
    /\ isWriteOf (set_fitbit (Some (linkedCredential p f)) item) wr
    /\ calls (add env item w) = firstn n (linkCalls item f p wr)
    /\ (1 <= n -> validateCreateUserAuthData env item = None
                  /\ fitbit item = Some f)%nat
    /\ (2 <= n -> exists w1 s,
           fitbit_getTokenPayload env (access_token f) w = (Ok p, w1)
           /\ scope (assignTokenPayload p f) = Some s
           /\ grantsAll s = true)%nat.
Proof.
  rewrite add_calls_body.
  pose (p0 := mkTokenPayload None None None).
  destruct (validateCreateUserAuthData env item) as [e|] eqn:Hv.
  { rewrite (add_body_invalid env item w Hv).
    exists 0%nat, emptyFitbitAuthData, p0,
      (Create (set_fitbit (Some (linkedCredential p0 emptyFitbitAuthData)) item)).
    split; [lia|]. split; [now left|]. split; [reflexivity|].
    split; intros H; lia. }
  destruct (fitbit item) as [f|] eqn:Hf.
  2:{ rewrite (add_body_no_credential env item w Hv Hf).
      exists 0%nat, emptyFitbitAuthData, p0,
        (Create (set_fitbit (Some (linkedCredential p0 emptyFitbitAuthData)) item)).
      split; [lia|]. split; [now left|]. split; [reflexivity|].
      split; intros H; lia. }
  destruct (fitbit_getTokenPayload env (access_token f) w) as [[p|e] w1] eqn:Hp.
  2:{ rewrite (add_body_introspection_fails env item w Hv Hf Hp).
      exists 1%nat, f, p0, (Create (set_fitbit (Some (linkedCredential p0 f)) item)).
      split; [lia|]. split; [now left|]. split; [reflexivity|].
      split; [auto|]. intros H. lia. }
  pose (newItem := set_fitbit (Some (linkedCredential p f)) item).
  pose proof (subscribeFitbitEvents_shape env newItem w1) as Hshape.
  destruct (subscribeFitbitEvents env newItem w1) as [[[]|e] w2 l2] eqn:Hs;
    cbn [result calls] in Hshape.
  - destruct Hshape as (g & s & Hg & Hsc & Hall & ->).
    injection Hg as <-.
    rewrite (add_body_subscribed env item w Hv Hf Hp Hs). cbv zeta. cbn [calls].
    destruct (add_persist_shape env newItem w2) as (n & wr & Hn & Hwr & Hcalls & _).
    unfold newItem in *. rewrite Hcalls.
    exists (4 + n)%nat, f, p, wr.
    split; [lia|]. split; [exact Hwr|]. split; [|split; [auto|]].
    + unfold linkCalls. cbn [user_id set_fitbit].
      destruct n as [|[|[|[|n]]]]; try lia; reflexivity.
    + intros _. exists w1, s. auto.
  - destruct Hshape as (g & n & Hn & Hpath & ->).
    rewrite (add_body_subscription_fails env item w Hv Hf Hp Hs). cbn [calls].
    destruct n as [|n].
    + exists 1%nat, f, p, (Create newItem).
      split; [lia|]. split; [now left|]. split; [reflexivity|].
      split; [auto|]. intros H. lia.
    + destruct (Hpath ltac:(lia)) as (s & Hg & Hsc & Hall). injection Hg as <-.
      exists (2 + n)%nat, f, p, (Create newItem).
      split; [lia|]. split; [now left|]. split; [|split; [auto|]].
      * unfold linkCalls. destruct n as [|[|[|n]]]; try lia; reflexivity.
      * intros _. exists w1, s. auto.
Qed.

Lemma isWriteOf_isStoreWrite (newItem : UserAuthData) (wr : Call) :
  isWriteOf newItem wr -> isStoreWrite wr = true /\ isSubscription wr = false.
Proof. intros [->|[saved ->]]; split; reflexivity. Qed.

(** X1: whatever the collaborators answer, the calls [add] issues are an
    initial part of one fixed sequence: the introspection, the subscriptions
    to body, activities and sleep, the directory check, the lookup by user id
    and one write (a create of the record, or an update under the identity of
    a stored record).  No call is repeated, none is skipped. *)
Theorem X1_add_calls_in_order (W D : Type) (env : Env W D) (item : UserAuthData) (w : W) :
  exists n f p wr,
    isWriteOf (set_fitbit (Some (linkedCredential p f)) item) wr
    /\ calls (add env item w) = firstn n (linkCalls item f p wr).
Proof.
  destruct (add_calls_prefix env item w) as (n & f & p & wr & _ & Hwr & Hcalls & _).
  exists n, f, p, wr. split; assumption.
Qed.

(** X2: [add] writes to the store at most once and subscribes at most
    three times, and when it writes, the three subscriptions, the directory
    check and the lookup have been issued before. *)
Theorem X2_add_writes_last (W D : Type) (env : Env W D) (item : UserAuthData) (w : W) :
  (count isStoreWrite (calls (add env item w)) <= 1)%nat
  /\ (count isSubscription (calls (add env item w)) <= 3)%nat
  /\ (count isStoreWrite (calls (add env item w)) = 1%nat ->
      count isSubscription (calls (add env item w)) = 3%nat
      /\ In (CheckUserExists (user_id item)) (calls (add env item w))
      /\ In (FindOne (FilterUserId (user_id item))) (calls (add env item w))
      /\ exists l wr, calls (add env item w) = (l ++ [wr])%list
                      /\ isStoreWrite wr = true).
Proof.
  destruct (add_calls_prefix env item w) as (n & f & p & wr & Hn & Hwr & -> & _).
  destruct (isWriteOf_isStoreWrite Hwr) as [Hw Hs].
  unfold linkCalls, subscriptionCalls, count.
  destruct n as [|[|[|[|[|[|[|[|n]]]]]]]]; try lia;
    cbn [firstn app filter isStoreWrite isSubscription length];
    rewrite ?Hw, ?Hs; cbn [length];
    (split; [lia|split; [lia|intros H; try discriminate H]]).
  split; [reflexivity|]. split; [simpl; tauto|]. split; [simpl; tauto|].
  exists [GetTokenPayload (access_token f);
          SubscribeUserEvent (linkedCredential p f) "body" "BODY";
          SubscribeUserEvent (linkedCredential p f) "activities" "ACTIVITIES";
          SubscribeUserEvent (linkedCredential p f) "sleep" "SLEEP";
          CheckUserExists (user_id item); FindOne (FilterUserId (user_id item))], wr.
  split; [reflexivity|exact Hw].
Qed.

(** What [manageFitbitAuthData] and the status assignment leave alone, and
    what they always set. *)
Lemma linkedCredential_fields (p : TokenPayload) (f : FitbitAuthData) :
  status (linkedCredential p f) = Some "valid_token"
  /\ token_type (linkedCredential p f) = Some "Bearer"
  /\ access_token (linkedCredential p f) = access_token f
  /\ refresh_token (linkedCredential p f) = refresh_token f
  /\ last_sync (linkedCredential p f) = last_sync f
  /\ scope (linkedCredential p f) = scope (assignTokenPayload p f).
Proof.
  unfold linkedCredential, assignTokenPayload.
  destruct (JS.truthy_string (sub p)), (JS.truthy_string (scopes p)),
    (JS.truthy_number (exp p)); repeat split.
Qed.

(** X3: every record [add] hands to the store, by [create] or by [update]
    and whether the write then succeeds or not, has the user id of the input,
    the status ["valid_token"], the token type ["Bearer"], the access token,
    refresh token and last synchronisation of the input, and a scope string
    that grants the three scopes. *)
Theorem X3_written_record_is_linked (W D : Type) (env : Env W D)
        (item : UserAuthData) (w : W) (c : Call) (r : UserAuthData) :
  In c (calls (add env item w)) ->
  writtenRecord c = Some r ->
  user_id r = user_id item
  /\ exists f g s,
       fitbit item = Some f /\ fitbit r = Some g
       /\ status g = Some "valid_token" /\ token_type g = Some "Bearer"
       /\ access_token g = access_token f /\ refresh_token g = refresh_token f
       /\ last_sync g = last_sync f
       /\ scope g = Some s /\ grantsAll s = true.
Proof.
  intros Hin Hwritten.
  destruct (add_calls_prefix env item w)
    as (n & f & p & wr & Hn & Hwr & Hcalls & H1 & H2).
  rewrite Hcalls in Hin. unfold linkCalls, subscriptionCalls in Hin.
  assert (Hc : c = wr /\ (2 <= n)%nat).
  { destruct n as [|[|[|[|[|[|[|[|n]]]]]]]]; try lia; cbn [firstn app In] in Hin;
      repeat match goal with
             | H : _ \/ _ |- _ => destruct H as [H|H]
             | H : False |- _ => destruct H
             | H : _ = c |- _ => subst c; try discriminate Hwritten
             end.
    split; [reflexivity|lia]. }
  destruct Hc as [-> Hn2].
  destruct (H1 ltac:(lia)) as [_ Hf].
  destruct (H2 Hn2) as (w1 & s & _ & Hs & Hall).
  destruct (linkedCredential_fields p f) as (Hst & Htt & Hat & Hrt & Hls & Hsc).
  assert (Hr : user_id r = user_id item /\ fitbit r = Some (linkedCredential p f)).
  { destruct Hwr as [->|[saved ->]]; injection Hwritten as <-; split; reflexivity. }
  destruct Hr as [Hu Hg]. split; [exact Hu|].
  exists f, (linkedCredential p f), s.
  rewrite Hsc. auto 10.
Qed.

Lemma X3_written_record_is_linked_witness :
  let item := record "5a62be07de34500146d9c544" "tok-abc" "rwei ract rsle" in
  let r := set_fitbit (Some (linkedCredential (payloadOf "rwei ract rsle")
                               (credential "tok-abc" "rwei ract rsle"))) item in
  user_id r = user_id item
  /\ exists f g s,
       fitbit item = Some f /\ fitbit r = Some g
       /\ status g = Some "valid_token" /\ token_type g = Some "Bearer"
       /\ access_token g = access_token f /\ refresh_token g = refresh_token f
       /\ last_sync g = last_sync f
       /\ scope g = Some s /\ grantsAll s = true.
Proof.
  apply (@X3_written_record_is_linked unit unit (happyEnv None)
           (record "5a62be07de34500146d9c544" "tok-abc" "rwei ract rsle") tt
           (Create (set_fitbit (Some (linkedCredential (payloadOf "rwei ract rsle")
                                        (credential "tok-abc" "rwei ract rsle")))
                      (record "5a62be07de34500146d9c544" "tok-abc" "rwei ract rsle")))).
  - vm_compute. tauto.
  - reflexivity.
Defined.

(** X4: when [add] resolves, it has issued the complete sequence of calls
    and nothing else: one introspection, exactly three subscriptions, the
    directory check, which answered [true], the lookup and exactly one
    write, for a credential whose scope string grants the three scopes. *)
Theorem X4_resolved_add_is_complete (W D : Type) (env : Env W D)
        (item r : UserAuthData) (w w' : W) (l : list Call) :
  add env item w = mkOutcome (Ok r) w' l ->
  exists f p s wr,
    fitbit item = Some f
    /\ scope (assignTokenPayload p f) = Some s /\ grantsAll s = true
    /\ isWriteOf (set_fitbit (Some (linkedCredential p f)) item) wr
    /\ l = linkCalls item f p wr
    /\ count isSubscription l = 3%nat
    /\ count isStoreWrite l = 1%nat
    /\ exists w4 w5, repo_checkUserExists env (user_id item) w4 = (Ok true, w5).
Proof.
  intros Hrun.
  apply add_Ok_inv in Hrun
    as (f & p & w1 & w2 & l2 & l3 & Hv & Hf & Hp & Hs & Ha & ->).
  pose proof (subscribeFitbitEvents_shape env
                (set_fitbit (Some (linkedCredential p f)) item) w1) as Hshape.
  rewrite Hs in Hshape. cbn [result calls] in Hshape.
  destruct Hshape as (g & s & Hg & Hsc & Hall & ->). injection Hg as <-.
  apply add_persist_Ok_inv in Ha as (w3 & w4 & found & Hc & Hfind & Hw).
  cbn [user_id set_fitbit] in Hc, Hfind, Hw.
  destruct (linkedCredential_fields p f) as (_ & _ & _ & _ & _ & Hsc').
  rewrite Hsc' in Hsc.
  assert (Hl : exists wr,
             isWriteOf (set_fitbit (Some (linkedCredential p f)) item) wr
             /\ l3 = [CheckUserExists (user_id item);
                      FindOne (FilterUserId (user_id item)); wr]).
  { destruct found as [saved|]; destruct Hw as [_ ->]; eexists; split;
      try reflexivity; [right; now exists saved|now left]. }
  destruct Hl as (wr & Hwr & ->).
  destruct (isWriteOf_isStoreWrite Hwr) as [Hw1 Hw2].
  exists f, p, s, wr.
  repeat (split; [assumption || reflexivity|]).
  unfold subscriptionCalls, count.
  cbn [app filter isSubscription isStoreWrite length]. rewrite Hw1, Hw2.
  repeat split. now exists w2, w3.
Qed.

Lemma X4_resolved_add_is_complete_witness :
  let item := record "5a62be07de34500146d9c544" "tok-abc" "rwei ract rsle" in
  exists f p s wr,
    fitbit item = Some f
    /\ scope (assignTokenPayload p f) = Some s /\ grantsAll s = true
    /\ isWriteOf (set_fitbit (Some (linkedCredential p f)) item) wr
    /\ calls (add (happyEnv None) item tt) = linkCalls item f p wr
    /\ count isSubscription (calls (add (happyEnv None) item tt)) = 3%nat
    /\ count isStoreWrite (calls (add (happyEnv None) item tt)) = 1%nat
    /\ exists w4 w5,
         repo_checkUserExists (happyEnv None) (user_id item) w4 = (Ok true, w5).
Proof.
  exact (@X4_resolved_add_is_complete unit unit (happyEnv None)
           (record "5a62be07de34500146d9c544" "tok-abc" "rwei ract rsle")
           (set_fitbit (Some (linkedCredential (payloadOf "rwei ract rsle")
                                (credential "tok-abc" "rwei ract rsle")))
              (record "5a62be07de34500146d9c544" "tok-abc" "rwei ract rsle"))
           tt tt
           (linkCalls (record "5a62be07de34500146d9c544" "tok-abc" "rwei ract rsle")
              (credential "tok-abc" "rwei ract rsle") (payloadOf "rwei ract rsle")
              (Create
                 (set_fitbit (Some (linkedCredential (payloadOf "rwei ract rsle")
                                      (credential "tok-abc" "rwei ract rsle")))
                    (record "5a62be07de34500146d9c544" "tok-abc" "rwei ract rsle"))))
           eq_refl).
Defined.

(** ** How [add] rejects *)

Lemma occurs_rpc_MSG_EVENTBUS : JS.occurs "rpc" MSG_EVENTBUS = false.
Proof. reflexivity. Qed.

(** X5: no error [add] rejects with has "rpc" in its message: the catch
    block replaces every such error by the bus exception, whose own message
    has none. *)
Theorem X5_add_hides_rpc (W D : Type) (env : Env W D) (item : UserAuthData)
        (w : W) (e : Exn) :
  result (add env item w) = Err e ->
  JS.occurs "rpc" (message e) = false.
Proof.
  rewrite add_run. destruct (result (add_body env item w)) as [a|e0] eqn:Hb.
  - rewrite Hb. discriminate.
  - cbn [result]. intros [= <-].
    destruct (JS.occurs "rpc" (message e0)) eqn:Ho; [reflexivity|exact Ho].
Qed.

Lemma X5_add_hides_rpc_witness :
  JS.occurs "rpc" (message (EventBusException MSG_EVENTBUS DESC_EVENTBUS)) = false.
Proof.
  exact (@X5_add_hides_rpc unit unit
           (stubEnv (Err (OtherError "Error" "rpc timeout")) (Ok tt) (Ok true) (Ok None)
                    (Ok tt) (Ok tt))
           (record "5a62be07de34500146d9c544" "tok-abc" "rwei ract rsle") tt
           (EventBusException MSG_EVENTBUS DESC_EVENTBUS) eq_refl).
Defined.

(** X6: a record the validator throws on makes [add] reject with the error
    of the validator as the catch block leaves it, and a record that passes
    the validator without a provider credential makes it reject with a
    [TypeError]; in both cases [add] calls no collaborator and leaves the
    world as it was. *)
Theorem X6_add_rejects_before_any_call (W D : Type) (env : Env W D)
        (item : UserAuthData) (w : W) :
  (forall e, validateCreateUserAuthData env item = Some e ->
             add env item w = mkOutcome (Err (surfaced e)) w [])
  /\ (validateCreateUserAuthData env item = None ->
      fitbit item = None ->
      add env item w
      = mkOutcome (Err (TypeError "Cannot read property 'access_token' of undefined"))
                  w []).
Proof.
  split.
  - intros e Hv. rewrite add_run, (add_body_invalid env item w Hv). reflexivity.
  - intros Hv Hf. rewrite add_run, (add_body_no_credential env item w Hv Hf).
    reflexivity.
Qed.

Lemma X6_add_rejects_before_any_call_witness :
  let missing := ValidationException "Required fields were not provided..."
                                     "User Auth Validation: fitbit is required!" in
  add (withValidators (fun _ => Some missing) (fun _ => None) (happyEnv None))
      (mkUserAuthData None (Some "5a62be07de34500146d9c544") None) tt
  = mkOutcome (Err missing) tt []
  /\ add (happyEnv None) (mkUserAuthData None (Some "5a62be07de34500146d9c544") None) tt
     = mkOutcome (Err (TypeError "Cannot read property 'access_token' of undefined"))
                 tt [].
Proof.
  split.
  - exact (proj1 (@X6_add_rejects_before_any_call unit unit
                    (withValidators
                       (fun _ => Some (ValidationException
                                         "Required fields were not provided..."
                                         "User Auth Validation: fitbit is required!"))
                       (fun _ => None) (happyEnv None))
                    (mkUserAuthData None (Some "5a62be07de34500146d9c544") None) tt)
                 _ eq_refl).
  - exact (proj2 (@X6_add_rejects_before_any_call unit unit (happyEnv None)
                    (mkUserAuthData None (Some "5a62be07de34500146d9c544") None) tt)
                 eq_refl eq_refl).
Defined.

(** X7: when the introspection rejects, [add] rejects with that error as
    the catch block leaves it; the introspection is the only call: nothing is
    subscribed, the directory and the store are not consulted. *)
Theorem X7_add_stops_at_failed_introspection (W D : Type) (env : Env W D)
        (item : UserAuthData) (f : FitbitAuthData) (w w1 : W) (e : Exn) :
  validateCreateUserAuthData env item = None ->
  fitbit item = Some f ->
  fitbit_getTokenPayload env (access_token f) w = (Err e, w1) ->
  add env item w = mkOutcome (Err (surfaced e)) w1 [GetTokenPayload (access_token f)].
Proof.
  intros Hv Hf Hp.
  rewrite add_run, (add_body_introspection_fails env item w Hv Hf Hp). reflexivity.
Qed.

Lemma X7_add_stops_at_failed_introspection_witness :
  add (stubEnv (Err (OtherError "Error" "Invalid access token")) (Ok tt) (Ok true)
               (Ok None) (Ok tt) (Ok tt))
      (record "5a62be07de34500146d9c544" "tok-abc" "rwei ract rsle") tt
  = mkOutcome (Err (surfaced (OtherError "Error" "Invalid access token"))) tt
              [GetTokenPayload (Some "tok-abc")].
Proof.
  exact (@X7_add_stops_at_failed_introspection unit unit
           (stubEnv (Err (OtherError "Error" "Invalid access token")) (Ok tt) (Ok true)
                    (Ok None) (Ok tt) (Ok tt))
           (record "5a62be07de34500146d9c544" "tok-abc" "rwei ract rsle")
           (credential "tok-abc" "rwei ract rsle") tt tt
           (OtherError "Error" "Invalid access token") eq_refl eq_refl eq_refl).
Defined.

(** X8: with the three scopes granted, the subscription that rejects ends
    [add]: it rejects with that error as the catch block leaves it, the
    subscriptions after it are not attempted, and neither the directory nor
    the store is consulted. *)
Theorem X8_failed_subscription_ends_add (W D : Type) (env : Env W D)
        (item : UserAuthData) (f : FitbitAuthData) (p : TokenPayload)
        (w w1 : W) (s : string) :
  validateCreateUserAuthData env item = None ->
  fitbit item = Some f ->
  fitbit_getTokenPayload env (access_token f) w = (Ok p, w1) ->
  scope (assignTokenPayload p f) = Some s ->
  grantsAll s = true ->
  let g := linkedCredential p f in
  (forall e w2,
      fitbit_subscribeUserEvent env g "body" "BODY" w1 = (Err e, w2) ->
      add env item w
      = mkOutcome (Err (surfaced e)) w2
          (GetTokenPayload (access_token f) :: firstn 1 (subscriptionCalls g)))
  /\ (forall e w2 w3,
         fitbit_subscribeUserEvent env g "body" "BODY" w1 = (Ok tt, w2) ->
         fitbit_subscribeUserEvent env g "activities" "ACTIVITIES" w2 = (Err e, w3) ->
         add env item w
         = mkOutcome (Err (surfaced e)) w3
             (GetTokenPayload (access_token f) :: firstn 2 (subscriptionCalls g)))
  /\ (forall e w2 w3 w4,
         fitbit_subscribeUserEvent env g "body" "BODY" w1 = (Ok tt, w2) ->
         fitbit_subscribeUserEvent env g "activities" "ACTIVITIES" w2 = (Ok tt, w3) ->
         fitbit_subscribeUserEvent env g "sleep" "SLEEP" w3 = (Err e, w4) ->
         add env item w
         = mkOutcome (Err (surfaced e)) w4
             (GetTokenPayload (access_token f) :: firstn 3 (subscriptionCalls g))).
Proof.
  intros Hv Hf Hp Hs Hall g.
  destruct (grantsAll_true s Hall) as (H1 & H2 & H3).
  assert (Hsc : scope g = Some s)
    by (unfold g; now rewrite (proj2 (proj2 (proj2 (proj2 (proj2
          (linkedCredential_fields p f))))))).
  repeat apply conj.
  - intros e w2 E1. rewrite add_run.
    rewrite (add_body_subscription_fails env item w Hv Hf Hp
               (subscribeFitbitEvents_first_fails env
                  (set_fitbit (Some (linkedCredential p f)) item)
                  eq_refl Hsc H1 H2 H3 w1 E1)).
    reflexivity.
  - intros e w2 w3 E1 E2. rewrite add_run.
    rewrite (add_body_subscription_fails env item w Hv Hf Hp
               (subscribeFitbitEvents_second_fails env
                  (set_fitbit (Some (linkedCredential p f)) item)
                  eq_refl Hsc H1 H2 H3 w1 E1 E2)).
    reflexivity.
  - intros e w2 w3 w4 E1 E2 E3. rewrite add_run.
    rewrite (add_body_subscription_fails env item w Hv Hf Hp
               (subscribeFitbitEvents_third_fails env
                  (set_fitbit (Some (linkedCredential p f)) item)
                  eq_refl Hsc H1 H2 H3 w1 E1 E2 E3)).
    reflexivity.
Qed.

Lemma X8_failed_subscription_ends_add_witness :
  let g := linkedCredential (payloadOf "rwei ract rsle")
             (credential "tok-abc" "rwei ract rsle") in
  let item := record "5a62be07de34500146d9c544" "tok-abc" "rwei ract rsle" in
  let busy := OtherError "Error" "Too Many Requests" in
  add (withSubscriptions (failingAt "body" busy) (happyEnv None)) item tt
  = mkOutcome (Err (surfaced busy)) tt
      (GetTokenPayload (Some "tok-abc") :: firstn 1 (subscriptionCalls g))
  /\ add (withSubscriptions (failingAt "activities" busy) (happyEnv None)) item tt
     = mkOutcome (Err (surfaced busy)) tt
         (GetTokenPayload (Some "tok-abc") :: firstn 2 (subscriptionCalls g))
  /\ add (withSubscriptions (failingAt "sleep" busy) (happyEnv None)) item tt
     = mkOutcome (Err (surfaced busy)) tt
         (GetTokenPayload (Some "tok-abc") :: firstn 3 (subscriptionCalls g)).
Proof.
  repeat apply conj.
  - exact (proj1 (@X8_failed_subscription_ends_add unit unit
                    (withSubscriptions
                       (failingAt "body" (OtherError "Error" "Too Many Requests"))
                       (happyEnv None))
                    (record "5a62be07de34500146d9c544" "tok-abc" "rwei ract rsle")
                    (credential "tok-abc" "rwei ract rsle") (payloadOf "rwei ract rsle")
                    tt tt "rwei ract rsle" eq_refl eq_refl eq_refl eq_refl eq_refl)
                 (OtherError "Error" "Too Many Requests") tt eq_refl).
  - exact (proj1 (proj2 (@X8_failed_subscription_ends_add unit unit
                    (withSubscriptions
                       (failingAt "activities" (OtherError "Error" "Too Many Requests"))
                       (happyEnv None))
                    (record "5a62be07de34500146d9c544" "tok-abc" "rwei ract rsle")
                    (credential "tok-abc" "rwei ract rsle") (payloadOf "rwei ract rsle")
                    tt tt "rwei ract rsle" eq_refl eq_refl eq_refl eq_refl eq_refl))
                 (OtherError "Error" "Too Many Requests") tt tt eq_refl eq_refl).
  - exact (proj2 (proj2 (@X8_failed_subscription_ends_add unit unit
                    (withSubscriptions
                       (failingAt "sleep" (OtherError "Error" "Too Many Requests"))
                       (happyEnv None))
                    (record "5a62be07de34500146d9c544" "tok-abc" "rwei ract rsle")
                    (credential "tok-abc" "rwei ract rsle") (payloadOf "rwei ract rsle")
                    tt tt "rwei ract rsle" eq_refl eq_refl eq_refl eq_refl eq_refl))
                 (OtherError "Error" "Too Many Requests") tt tt tt
                 eq_refl eq_refl eq_refl).
Defined.

(** X9: when the write to the store rejects, [add] rejects with that error
    as the catch block leaves it, and it is the last thing [add] does: the
    three subscriptions registered before it stay as they are, no call
    follows the failed write. *)
Theorem X9_failed_write_ends_add (W D : Type) (env : Env W D)
        (item : UserAuthData) (f : FitbitAuthData) (p : TokenPayload)
        (w w1 w2 w3 w4 w5 : W) (l2 : list Call) (found : option UserAuthData)
        (e : Exn) :
  validateCreateUserAuthData env item = None ->
  fitbit item = Some f ->
  fitbit_getTokenPayload env (access_token f) w = (Ok p, w1) ->
  let newItem := set_fitbit (Some (linkedCredential p f)) item in
  subscribeFitbitEvents env newItem w1 = mkOutcome (Ok tt) w2 l2 ->
  repo_checkUserExists env (user_id item) w2 = (Ok true, w3) ->
  repo_findOne env (FilterUserId (user_id item)) w3 = (Ok found, w4) ->
  match found with
  | Some saved => repo_update env (set_id (id saved) newItem) w4
  | None => repo_create env newItem w4
  end = (Err e, w5) ->
  let write := match found with
               | Some saved => Update (set_id (id saved) newItem)
               | None => Create newItem
               end in
  add env item w = mkOutcome (Err (surfaced e)) w5 (linkCalls item f p write)
  /\ count isSubscription (calls (add env item w)) = 3%nat.
Proof.
  intros Hv Hf Hp newItem Hs Hc Hfind Hw write.
  pose proof (subscribeFitbitEvents_shape env newItem w1) as Hshape.
  rewrite Hs in Hshape. cbn [result calls] in Hshape.
  destruct Hshape as (g & s & Hg & _ & _ & ->). injection Hg as <-.
  assert (Hrun : add env item w
                 = mkOutcome (Err (surfaced e)) w5 (linkCalls item f p write)).
  { rewrite add_run, (add_body_subscribed env item w Hv Hf Hp Hs). cbv zeta.
    unfold write, newItem in *. destruct found as [saved|].
    - rewrite (add_persist_update env
                 (set_fitbit (Some (linkedCredential p f)) item) w2 Hc Hfind Hw).
      reflexivity.
    - rewrite (add_persist_create env
                 (set_fitbit (Some (linkedCredential p f)) item) w2 Hc Hfind Hw).
      reflexivity. }
  split; [exact Hrun|]. rewrite Hrun. cbn [calls].
  unfold write. destruct found; reflexivity.
Qed.

Lemma X9_failed_write_ends_add_witness :
  let item := record "5a62be07de34500146d9c544" "tok-abc" "rwei ract rsle" in
  let g := linkedCredential (payloadOf "rwei ract rsle")
             (credential "tok-abc" "rwei ract rsle") in
  let down := OtherError "MongoError" "connection timed out" in
  add (withWrites (Err down) (happyEnv None)) item tt
  = mkOutcome (Err (surfaced down)) tt
      (linkCalls item (credential "tok-abc" "rwei ract rsle")
                 (payloadOf "rwei ract rsle") (Create (set_fitbit (Some g) item)))
  /\ count isSubscription
       (calls (add (withWrites (Err down) (happyEnv None)) item tt)) = 3%nat.
Proof.
  exact (@X9_failed_write_ends_add unit unit
           (withWrites (Err (OtherError "MongoError" "connection timed out"))
                       (happyEnv None))
           (record "5a62be07de34500146d9c544" "tok-abc" "rwei ract rsle")
           (credential "tok-abc" "rwei ract rsle") (payloadOf "rwei ract rsle")
           tt tt tt tt tt tt
           (subscriptionCalls (linkedCredential (payloadOf "rwei ract rsle")
                                 (credential "tok-abc" "rwei ract rsle")))
           None (OtherError "MongoError" "connection timed out")
           eq_refl eq_refl eq_refl eq_refl eq_refl eq_refl eq_refl).
Defined.

(** X10: when the directory check does not answer [true] (it answers
    [false], or it rejects), [add] rejects and the check is its last call:
    the store is neither looked up nor written, while the three
    subscriptions, issued before the check, are already registered. *)
Theorem X10_directory_checked_after_subscriptions (W D : Type) (env : Env W D)
        (item : UserAuthData) (f : FitbitAuthData) (p : TokenPayload)
        (w w1 w2 w3 : W) (l2 : list Call) (r : Result bool) :
  validateCreateUserAuthData env item = None ->
  fitbit item = Some f ->
  fitbit_getTokenPayload env (access_token f) w = (Ok p, w1) ->
  subscribeFitbitEvents env (set_fitbit (Some (linkedCredential p f)) item) w1
  = mkOutcome (Ok tt) w2 l2 ->
  repo_checkUserExists env (user_id item) w2 = (r, w3) ->
  r <> Ok true ->
  (exists e, result (add env item w) = Err e)
  /\ world (add env item w) = w3
  /\ calls (add env item w)
     = (GetTokenPayload (access_token f) :: subscriptionCalls (linkedCredential p f)
        ++ [CheckUserExists (user_id item)])%list.
Proof.
  intros Hv Hf Hp Hs Hc Hr.
  pose proof (subscribeFitbitEvents_shape env
                (set_fitbit (Some (linkedCredential p f)) item) w1) as Hshape.
  rewrite Hs in Hshape. cbn [result calls] in Hshape.
  destruct Hshape as (g & s & Hg & _ & _ & ->). injection Hg as <-.
  rewrite add_run, (add_body_subscribed env item w Hv Hf Hp Hs). cbv zeta.
  destruct r as [[|]|e].
  - contradiction.
  - rewrite (add_persist_not_registered env
               (set_fitbit (Some (linkedCredential p f)) item) w2 Hc).
    cbn [result world calls]. repeat split. eexists; reflexivity.
  - rewrite (add_persist_directory_fails env
               (set_fitbit (Some (linkedCredential p f)) item) w2 Hc).
    cbn [result world calls]. repeat split. eexists; reflexivity.
Qed.

Lemma X10_directory_checked_after_subscriptions_witness :
  let env := stubEnv (Ok (payloadOf "rwei ract rsle")) (Ok tt)
                     (Err (OtherError "Error" "rpc client: request timed out"))
                     (Ok None) (Ok tt) (Ok tt) in
  let item := record "5a62be07de34500146d9c544" "tok-abc" "rwei ract rsle" in
  (exists e, result (add env item tt) = Err e)
  /\ world (add env item tt) = tt
  /\ calls (add env item tt)
     = (GetTokenPayload (Some "tok-abc")
        :: subscriptionCalls (linkedCredential (payloadOf "rwei ract rsle")
                                (credential "tok-abc" "rwei ract rsle"))
        ++ [CheckUserExists (Some "5a62be07de34500146d9c544")])%list.
Proof.
  apply (@X10_directory_checked_after_subscriptions unit unit
           (stubEnv (Ok (payloadOf "rwei ract rsle")) (Ok tt)
                    (Err (OtherError "Error" "rpc client: request timed out"))
                    (Ok None) (Ok tt) (Ok tt))
           (record "5a62be07de34500146d9c544" "tok-abc" "rwei ract rsle")
           (credential "tok-abc" "rwei ract rsle") (payloadOf "rwei ract rsle")
           tt tt tt tt
           (subscriptionCalls (linkedCredential (payloadOf "rwei ract rsle")
                                 (credential "tok-abc" "rwei ract rsle")))
           (Err (OtherError "Error" "rpc client: request timed out")));
    try reflexivity.
  discriminate.
Defined.

(** ** The other methods *)

(** X11: an id the ObjectId validator throws on makes both
    [revokeFitbitAccessToken] and [getFitbitAuthDataByUserId] reject with the
    error of the validator before any collaborator is called: the repository
    is not queried and no token is revoked. *)
Theorem X11_invalid_id_rejected_before_any_call (W D : Type) (env : Env W D)
        (userId : string) (w : W) (e : Exn) :
  validateObjectId env userId = Some e ->
  revokeFitbitAccessToken env userId w = mkOutcome (Err e) w []
  /\ getFitbitAuthDataByUserId env userId w = mkOutcome (Err e) w [].
Proof.
  intros Hv. unfold revokeFitbitAccessToken, getFitbitAuthDataByUserId.
  rewrite !try_rethrow, Hv. split; reflexivity.
Qed.

Lemma X11_invalid_id_rejected_before_any_call_witness :
  let invalid := ValidationException "Some ID provided does not have a valid format!"
                                     "A 24-byte hex ID is expected." in
  let env := withValidators (fun _ => None) (fun _ => Some invalid)
               (happyEnv (Some (record "5a62be07de34500146d9c544" "tok-abc"
                                       "rwei ract rsle"))) in
  revokeFitbitAccessToken env "123" tt = mkOutcome (Err invalid) tt []
  /\ getFitbitAuthDataByUserId env "123" tt = mkOutcome (Err invalid) tt [].
Proof.
  exact (@X11_invalid_id_rejected_before_any_call unit unit
           (withValidators (fun _ => None)
              (fun _ => Some (ValidationException
                                "Some ID provided does not have a valid format!"
                                "A 24-byte hex ID is expected."))
              (happyEnv (Some (record "5a62be07de34500146d9c544" "tok-abc"
                                      "rwei ract rsle"))))
           "123" tt
           (ValidationException "Some ID provided does not have a valid format!"
                                "A 24-byte hex ID is expected.")
           eq_refl).
Defined.

(** X12: when the lookup of the record rejects, [syncFitbitUserData],
    [syncLastFitbitUserData] and (for an id the validator accepts)
    [revokeFitbitAccessToken] reject with the very error of the lookup,
    whatever its message ([add] alone replaces errors), and the lookup is
    their only call: nothing is synchronised, logged or revoked. *)
Theorem X12_failed_lookup_surfaces_unchanged (W D : Type) (env : Env W D)
        (q : Query) (w w1 : W) (e : Exn) :
  repo_findOne env q w = (Err e, w1) ->
  (forall userId, q = FilterUserId (Some userId) ->
     UserAuthDataService.syncFitbitUserData env userId w
     = mkOutcome (Err e) w1 [FindOne q]
     /\ (validateObjectId env userId = None ->
         revokeFitbitAccessToken env userId w = mkOutcome (Err e) w1 [FindOne q]))
  /\ (forall fitbitUserId type date, q = FilterFitbitUserId fitbitUserId ->
        syncLastFitbitUserData env fitbitUserId type date w
        = mkOutcome (Err e) w1 [FindOne q]).
Proof.
  intros Hf. split.
  - intros userId ->. split.
    + unfold UserAuthDataService.syncFitbitUserData. rewrite try_rethrow.
      apply bind_Err. now apply call_run.
    + intros Hv. unfold revokeFitbitAccessToken. rewrite try_rethrow, Hv.
      unfold check. rewrite bind_ret. apply bind_Err. now apply call_run.
  - intros fid type date ->.
    unfold syncLastFitbitUserData. rewrite try_rethrow.
    apply bind_Err. now apply call_run.
Qed.

Lemma X12_failed_lookup_surfaces_unchanged_witness :
  let down := OtherError "Error" "rpc client: request timed out" in
  let env := stubEnv (Ok (payloadOf "rwei ract rsle")) (Ok tt) (Ok true) (Err down)
                     (Ok tt) (Ok tt) in
  (UserAuthDataService.syncFitbitUserData env "5a62be07de34500146d9c544" tt
   = mkOutcome (Err down) tt [FindOne (FilterUserId (Some "5a62be07de34500146d9c544"))]
   /\ revokeFitbitAccessToken env "5a62be07de34500146d9c544" tt
      = mkOutcome (Err down) tt
                  [FindOne (FilterUserId (Some "5a62be07de34500146d9c544"))])
  /\ syncLastFitbitUserData env "4FRTKL" "activities" "2019-11-07" tt
     = mkOutcome (Err down) tt [FindOne (FilterFitbitUserId "4FRTKL")].
Proof.
  pose (env := stubEnv (Ok (payloadOf "rwei ract rsle")) (Ok tt) (Ok true)
                       (Err (OtherError "Error" "rpc client: request timed out"))
                       (Ok tt) (Ok tt)).
  split; [split|].
  - exact (proj1 (proj1 (@X12_failed_lookup_surfaces_unchanged unit unit env
                           (FilterUserId (Some "5a62be07de34500146d9c544")) tt tt _
                           eq_refl)
                        "5a62be07de34500146d9c544" eq_refl)).
  - exact (proj2 (proj1 (@X12_failed_lookup_surfaces_unchanged unit unit env
                           (FilterUserId (Some "5a62be07de34500146d9c544")) tt tt _
                           eq_refl)
                        "5a62be07de34500146d9c544" eq_refl) eq_refl).
  - exact (proj2 (@X12_failed_lookup_surfaces_unchanged unit unit env
                    (FilterFitbitUserId "4FRTKL") tt tt _ eq_refl)
                 "4FRTKL" "activities" "2019-11-07" eq_refl).
Defined.

(** X13: for an id the validator accepts, [getFitbitAuthDataByUserId]
    makes one call, the query by user id, and settles with it: it rejects
    only when the query rejects; it resolves with the provider credential of
    the record found, and with a credential whose fields are all undefined
    when there is no record or the record has no credential. *)
Theorem X13_credential_or_placeholder (W D : Type) (env : Env W D)
        (userId : string) (w w1 : W) (r : Result (option UserAuthData)) :
  validateObjectId env userId = None ->
  repo_getUserAuthDataByUserId env userId w = (r, w1) ->
  getFitbitAuthDataByUserId env userId w
  = mkOutcome
      (match r with
       | Ok found =>
           Ok (match credentialOf found with
               | Some g => g
               | None => emptyFitbitAuthData
               end)
       | Err e => Err e
       end)
      w1 [GetUserAuthDataByUserId userId].
Proof.
  intros Hv Hq. unfold getFitbitAuthDataByUserId. rewrite try_rethrow, Hv.
  unfold check. rewrite bind_ret. unfold bind, call. rewrite Hq.
  destruct r as [[a|]|e]; [destruct (fitbit a) eqn:Hf|..];
    cbn [result world calls credentialOf ret app]; rewrite ?Hf; reflexivity.
Qed.

Lemma X13_credential_or_placeholder_witness :
  getFitbitAuthDataByUserId (happyEnv None) "5a62be07de34500146d9c544" tt
  = mkOutcome (Ok emptyFitbitAuthData) tt
              [GetUserAuthDataByUserId "5a62be07de34500146d9c544"]
  /\ getFitbitAuthDataByUserId
       (happyEnv (Some (record "5a62be07de34500146d9c544" "tok-abc" "rwei ract rsle")))
       "5a62be07de34500146d9c544" tt
     = mkOutcome (Ok (credential "tok-abc" "rwei ract rsle")) tt
                 [GetUserAuthDataByUserId "5a62be07de34500146d9c544"].
Proof.
  split.
  - exact (@X13_credential_or_placeholder unit unit (happyEnv None)
             "5a62be07de34500146d9c544" tt tt (Ok None) eq_refl eq_refl).
  - exact (@X13_credential_or_placeholder unit unit
             (happyEnv (Some (record "5a62be07de34500146d9c544" "tok-abc"
                                     "rwei ract rsle")))
             "5a62be07de34500146d9c544" tt tt
             (Ok (Some (record "5a62be07de34500146d9c544" "tok-abc" "rwei ract rsle")))
             eq_refl eq_refl).
Defined.

(** X14: once the lookup by provider user id resolves,
    [syncLastFitbitUserData] resolves, whatever the synchronisation does.
    Without a record it calls nothing more.  With a record it starts one
    synchronisation of the category and date, with 1 attempt, for the
    credential and user id of that record (a record without credential
    included: nothing is read through it); when that call rejects, the
    message of its error is handed to the logger, and nothing is logged
    otherwise. *)
Theorem X14_relay_always_resolves (W D : Type) (env : Env W D)
        (fitbitUserId type date : string) (w w1 : W) (found : option UserAuthData) :
  repo_findOne env (FilterFitbitUserId fitbitUserId) w = (Ok found, w1) ->
  result (syncLastFitbitUserData env fitbitUserId type date w) = Ok tt
  /\ calls (syncLastFitbitUserData env fitbitUserId type date w)
     = (FindOne (FilterFitbitUserId fitbitUserId)
        :: match found with
           | None => []
           | Some a =>
               SyncLastFitbitUserData (fitbit a) (user_id a) type date 1
               :: match fst (fitbit_syncLastFitbitUserData env (fitbit a) (user_id a)
                               type date 1 w1) with
                  | Ok _ => []
                  | Err e => [LoggerError (message e)]
                  end
           end)%list.
Proof.
  intros Hf. unfold syncLastFitbitUserData. rewrite try_rethrow.
  rewrite (bind_Ok _ _ _ (call_run _ _ _ Hf)).
  destruct found as [a|]; [|split; reflexivity].
  unfold bind, fire_and_catch, ret.
  destruct (fitbit_syncLastFitbitUserData env (fitbit a) (user_id a) type date 1 w1)
    as [[[]|e] w2]; cbn [fst].
  - split; reflexivity.
  - destruct (logger_error env (message e) w2). split; reflexivity.
Qed.

Lemma X14_relay_always_resolves_witness :
  let bare := mkUserAuthData (Some "r1") (Some "5a62be07de34500146d9c544") None in
  let env := withRelay (Err (OtherError "Error" "Too Many Requests"))
                       (happyEnv (Some bare)) in
  result (syncLastFitbitUserData env "4FRTKL" "activities" "2019-11-07" tt) = Ok tt
  /\ calls (syncLastFitbitUserData env "4FRTKL" "activities" "2019-11-07" tt)
     = [FindOne (FilterFitbitUserId "4FRTKL");
        SyncLastFitbitUserData None (Some "5a62be07de34500146d9c544")
                               "activities" "2019-11-07" 1;
        LoggerError "Too Many Requests"].
Proof.
  exact (@X14_relay_always_resolves unit unit
           (withRelay (Err (OtherError "Error" "Too Many Requests"))
              (happyEnv (Some (mkUserAuthData (Some "r1")
                                 (Some "5a62be07de34500146d9c544") None))))
           "4FRTKL" "activities" "2019-11-07" tt tt
           (Some (mkUserAuthData (Some "r1") (Some "5a62be07de34500146d9c544") None))
           eq_refl).
Defined.

Ltac emits_all :=
  repeat first
    [ emits_step
    | match goal with
      | |- emits _ (fire_and_forget _ _) =>
          intros ?; unfold fire_and_forget;
          match goal with |- context [let (_, _) := ?x in _] => destruct x end;
          reflexivity
      | |- emits _ (fire_and_catch _ _ _ _) =>
          intros ?; unfold fire_and_catch;
          repeat match goal with
                 | |- context [let (_, _) := ?x in _] => destruct x as [[?|?] ?]
                 end;
          reflexivity
      end ].

(** The calls the methods other than [add] and [addFitbitAuthData] can
    issue. *)
Lemma readers_emit (W D : Type) (env : Env W D) (userId type date : string) :
  let reads c := negb (isStoreWrite c || isSubscription c) in
  emits reads (revokeFitbitAccessToken env userId)
  /\ emits reads (UserAuthDataService.syncFitbitUserData env userId)
  /\ emits reads (syncLastFitbitUserData env userId type date)
  /\ emits reads (getFitbitAuthDataByUserId env userId).
Proof.
  cbv zeta. repeat apply conj.
  - unfold revokeFitbitAccessToken. emits_all.
  - unfold UserAuthDataService.syncFitbitUserData. emits_all.
  - unfold syncLastFitbitUserData. emits_all.
  - unfold getFitbitAuthDataByUserId. emits_all.
Qed.

(** X15: [revokeFitbitAccessToken], [syncFitbitUserData],
    [syncLastFitbitUserData] and [getFitbitAuthDataByUserId] never ask the
    store to create or update a record and never register a subscription,
    whatever their argument and whatever the collaborators answer. *)
Theorem X15_readers_never_write (W D : Type) (env : Env W D)
        (userId type date : string) (w : W) :
  let quiet l := count isStoreWrite l = 0%nat /\ count isSubscription l = 0%nat in
  quiet (calls (revokeFitbitAccessToken env userId w))
  /\ quiet (calls (UserAuthDataService.syncFitbitUserData env userId w))
  /\ quiet (calls (syncLastFitbitUserData env userId type date w))
  /\ quiet (calls (getFitbitAuthDataByUserId env userId w)).
Proof.
  cbv zeta.
  destruct (readers_emit env userId type date) as (H1 & H2 & H3 & H4).
  assert (Hq : forall l,
             filter (fun c => negb (isStoreWrite c || isSubscription c)) l = l ->
             count isStoreWrite l = 0%nat /\ count isSubscription l = 0%nat).
  { intros l Hl. split; apply count_emits with (2 := Hl); intros c Hc;
      apply negb_true_iff, orb_false_iff in Hc; tauto. }
  split; [apply Hq, H1|]. split; [apply Hq, H2|]. split; [apply Hq, H3|apply Hq, H4].
Qed.

(** ** More on [addFitbitAuthData] *)

Lemma addFitbitAuthData_no_credential (W D : Type) (env : Env W D)
      (data r : UserAuthData) (initSync : string) (w w1 : W) (l1 : list Call) :
  add env data w = mkOutcome (Ok r) w1 l1 ->
  fitbit r = None ->
  addFitbitAuthData env data initSync w
  = mkOutcome (Err (TypeError "Cannot read property 'last_sync' of undefined")) w1 l1.
Proof.
  intros Hadd Hf. unfold addFitbitAuthData. rewrite try_rethrow.
  rewrite (bind_Ok _ _ _ Hadd). rewrite Hf.
  destruct (String.eqb initSync "false") eqn:E; cbn [negb deref];
    unfold bind, throw; cbn [result world calls]; now rewrite app_nil_r.
Qed.

(** X16: [addFitbitAuthData] issues the calls of [add], in their order,
    and after them at most one more: a synchronisation with 3 attempts when
    [initSync] is not ["false"], or the publication of a non-empty last
    synchronisation when it is.  It adds no write to the store and no
    subscription to those of [add]. *)
Theorem X16_at_most_one_call_after_add (W D : Type) (env : Env W D)
        (data : UserAuthData) (initSync : string) (w : W) :
  exists t,
    calls (addFitbitAuthData env data initSync w) = (calls (add env data w) ++ t)%list
    /\ (t = []
        \/ (initSync <> "false"
            /\ exists g uid, t = [SyncFitbitUserData g (last_sync g) 3 uid])
        \/ (initSync = "false"
            /\ exists uid lastSync, lastSync <> "" /\ t = [PublishLastSync uid lastSync])).
Proof.
  destruct (add env data w) as [[r|e] w1 l1] eqn:Hadd.
  2:{ rewrite (addFitbitAuthData_add_fails env data initSync w Hadd).
      exists []. cbn [calls]. rewrite app_nil_r. auto. }
  destruct (fitbit r) as [g|] eqn:Hg.
  2:{ rewrite (addFitbitAuthData_no_credential env data initSync w Hadd Hg).
      exists []. cbn [calls]. rewrite app_nil_r. auto. }
  destruct (String.eqb_spec initSync "false") as [->|Hne].
  - destruct (JS.truthy_string (last_sync g)) eqn:Hls.
    + destruct (last_sync g) as [lastSync|] eqn:Hlast; [|discriminate].
      assert (Hne : lastSync <> "").
      { apply String.eqb_neq. unfold JS.truthy_string in Hls.
        now apply negb_true_iff in Hls. }
      rewrite (@addFitbitAuthData_publish W D env data r g w w1 l1 Hadd Hg
                 lastSync Hlast Hne).
      eexists. split; [reflexivity|]. right. right. split; [reflexivity|].
      now exists (user_id r), lastSync.
    + rewrite (@addFitbitAuthData_nothing W D env data r g w w1 l1 Hadd Hg Hls).
      exists []. cbn [calls]. rewrite app_nil_r. auto.
  - rewrite (@addFitbitAuthData_sync W D env data r g w w1 l1 Hadd Hg initSync Hne).
    eexists. split; [reflexivity|]. right. left. split; [exact Hne|].
    now exists g, (user_id r).
Qed.

(** X17: when [add] rejects, [addFitbitAuthData] settles exactly as [add]
    did: the same error, the same world, the same calls; no synchronisation
    is started and nothing is published, whatever [initSync]. *)
Theorem X17_rejected_add_ends_addFitbitAuthData (W D : Type) (env : Env W D)
        (data : UserAuthData) (initSync : string) (w : W) (e : Exn) :
  result (add env data w) = Err e ->
  addFitbitAuthData env data initSync w = add env data w.
Proof.
  intros Hr. destruct (add env data w) as [r w1 l1] eqn:Hadd.
  cbn [result] in Hr. subst r.
  exact (addFitbitAuthData_add_fails env data initSync w Hadd).
Qed.

Lemma X17_rejected_add_ends_addFitbitAuthData_witness :
  let env := stubEnv (Ok (payloadOf "rwei")) (Ok tt) (Ok true) (Ok None) (Ok tt) (Ok tt) in
  addFitbitAuthData env (record "5a62be07de34500146d9c544" "tok-abc" "rwei") "true" tt
  = add env (record "5a62be07de34500146d9c544" "tok-abc" "rwei") tt.
Proof.
  exact (@X17_rejected_add_ends_addFitbitAuthData unit unit
           (stubEnv (Ok (payloadOf "rwei")) (Ok tt) (Ok true) (Ok None) (Ok tt) (Ok tt))
           (record "5a62be07de34500146d9c544" "tok-abc" "rwei") "true" tt
           (ValidationException MSG_SCOPE DESC_SCOPE) eq_refl).
Defined.

(** X18: when [add] resolves with a record that has no provider credential
    (what it resolves with is what the store returned), [addFitbitAuthData]
    rejects with a [TypeError], for every [initSync], after the calls of
    [add] and nothing else: the subscriptions and the write have been made,
    no synchronisation is started and nothing is published. *)
Theorem X18_stored_record_without_credential (W D : Type) (env : Env W D)
        (data r : UserAuthData) (initSync : string) (w w1 : W) (l1 : list Call) :
  add env data w = mkOutcome (Ok r) w1 l1 ->
  fitbit r = None ->
  addFitbitAuthData env data initSync w
  = mkOutcome (Err (TypeError "Cannot read property 'last_sync' of undefined")) w1 l1
  /\ count isStoreWrite l1 = 1%nat
  /\ count isSubscription l1 = 3%nat.
Proof.
  intros Hadd Hf. split.
  - exact (addFitbitAuthData_no_credential env data initSync w Hadd Hf).
  - pose proof Hadd as Hinv.
    apply add_Ok_inv in Hinv
      as (f & p & w2 & w3 & l2 & l3 & Hv & Hfi & Hp & Hs & Ha & ->).
    pose proof (subscribeFitbitEvents_shape env
                  (set_fitbit (Some (linkedCredential p f)) data) w2) as Hshape.
    rewrite Hs in Hshape. cbn [result calls] in Hshape.
    destruct Hshape as (g & s & _ & _ & _ & ->).
    apply add_persist_Ok_inv in Ha as (w4 & w5 & found & _ & _ & Hw).
    destruct found as [saved|]; destruct Hw as [_ ->]; split; reflexivity.
Qed.

Lemma X18_stored_record_without_credential_witness :
  let bare := mkUserAuthData (Some "r1") (Some "5a62be07de34500146d9c544") None in
  let env := withWrites (Ok bare) (happyEnv None) in
  let item := record "5a62be07de34500146d9c544" "tok-abc" "rwei ract rsle" in
  addFitbitAuthData env item "true" tt
  = mkOutcome (Err (TypeError "Cannot read property 'last_sync' of undefined")) tt
              (calls (add env item tt))
  /\ count isStoreWrite (calls (add env item tt)) = 1%nat
  /\ count isSubscription (calls (add env item tt)) = 3%nat.
Proof.
  exact (@X18_stored_record_without_credential unit unit
           (withWrites (Ok (mkUserAuthData (Some "r1")
                              (Some "5a62be07de34500146d9c544") None))
                       (happyEnv None))
           (record "5a62be07de34500146d9c544" "tok-abc" "rwei ract rsle")
           (mkUserAuthData (Some "r1") (Some "5a62be07de34500146d9c544") None)
           "true" tt tt
           (linkCalls (record "5a62be07de34500146d9c544" "tok-abc" "rwei ract rsle")
              (credential "tok-abc" "rwei ract rsle") (payloadOf "rwei ract rsle")
              (Create
                 (set_fitbit (Some (linkedCredential (payloadOf "rwei ract rsle")
                                      (credential "tok-abc" "rwei ract rsle")))
                    (record "5a62be07de34500146d9c544" "tok-abc" "rwei ract rsle"))))
           eq_refl eq_refl).
Defined.

(** X19: with [initSync] equal to ["false"] and a linked record that has
    no last synchronisation (it is undefined, or empty), as after a first
    link, [addFitbitAuthData] resolves with the record of [add] and calls
    nothing beyond [add]: no synchronisation, no publication. *)
Theorem X19_nothing_to_publish (W D : Type) (env : Env W D)
        (data r : UserAuthData) (g : FitbitAuthData) (w w1 : W) (l1 : list Call) :
  add env data w = mkOutcome (Ok r) w1 l1 ->
  fitbit r = Some g ->
  JS.truthy_string (last_sync g) = false ->
  addFitbitAuthData env data "false" w = add env data w
  /\ count isSync (calls (addFitbitAuthData env data "false" w)) = 0%nat
  /\ count isPublishLastSync (calls (addFitbitAuthData env data "false" w)) = 0%nat.
Proof.
  intros Hadd Hg Hls.
  rewrite (@addFitbitAuthData_nothing W D env data r g w w1 l1 Hadd Hg Hls).
  destruct (add_no_sync env data w) as [Hs Hp]. rewrite Hadd in *.
  repeat split; assumption.
Qed.

Lemma X19_nothing_to_publish_witness :
  let item := record "5a62be07de34500146d9c544" "tok-abc" "rwei ract rsle" in
  addFitbitAuthData (happyEnv None) item "false" tt = add (happyEnv None) item tt
  /\ count isSync (calls (addFitbitAuthData (happyEnv None) item "false" tt)) = 0%nat
  /\ count isPublishLastSync
       (calls (addFitbitAuthData (happyEnv None) item "false" tt)) = 0%nat.
Proof.
  exact (@X19_nothing_to_publish unit unit (happyEnv None)
           (record "5a62be07de34500146d9c544" "tok-abc" "rwei ract rsle")
           (set_fitbit (Some (linkedCredential (payloadOf "rwei ract rsle")
                                (credential "tok-abc" "rwei ract rsle")))
              (record "5a62be07de34500146d9c544" "tok-abc" "rwei ract rsle"))
           (linkedCredential (payloadOf "rwei ract rsle")
              (credential "tok-abc" "rwei ract rsle"))
           tt tt
           (linkCalls (record "5a62be07de34500146d9c544" "tok-abc" "rwei ract rsle")
              (credential "tok-abc" "rwei ract rsle") (payloadOf "rwei ract rsle")
              (Create
                 (set_fitbit (Some (linkedCredential (payloadOf "rwei ract rsle")
                                      (credential "tok-abc" "rwei ract rsle")))
                    (record "5a62be07de34500146d9c544" "tok-abc" "rwei ract rsle"))))
           eq_refl eq_refl eq_refl).
Defined.

(** ** More on the introspection and the scope check *)

(** X20: introspecting twice composes field by field: after two payloads
    each of the user id, the scope and the expiry is the value of the second
    payload where that is truthy, otherwise the value of the first where that
    is truthy, otherwise what the record had.  In particular assigning the
    same payload again changes nothing. *)
Theorem X20_payloads_compose (p1 p2 : TokenPayload) (f : FitbitAuthData) :
  let f2 := assignTokenPayload p2 (assignTokenPayload p1 f) in
  fb_user_id f2
  = assigned JS.truthy_string (sub p2)
      (assigned JS.truthy_string (sub p1) (fb_user_id f))
  /\ scope f2
     = assigned JS.truthy_string (scopes p2)
         (assigned JS.truthy_string (scopes p1) (scope f))
  /\ expires_in f2
     = assigned JS.truthy_number (exp p2)
         (assigned JS.truthy_number (exp p1) (expires_in f))
  /\ assignTokenPayload p1 (assignTokenPayload p1 f) = assignTokenPayload p1 f
  /\ linkedCredential p1 (linkedCredential p1 f) = linkedCredential p1 f.
Proof.
  unfold linkedCredential, assignTokenPayload, assigned.
  destruct (JS.truthy_string (sub p1)), (JS.truthy_string (scopes p1)),
    (JS.truthy_number (exp p1)), (JS.truthy_string (sub p2)),
    (JS.truthy_string (scopes p2)), (JS.truthy_number (exp p2));
    repeat split.
Qed.

Lemma split_nonempty (sep : ascii) (s : string) : JS.split sep s <> [].
Proof.
  destruct s as [|c s]; cbn [JS.split]; [discriminate|].
  destruct (Ascii.eqb c sep); [discriminate|].
  destruct (JS.split sep s); discriminate.
Qed.

(** Splitting a string that has the separator between [a] and [b] gives
    the pieces of [a], then the pieces of [b]. *)
Lemma split_app (sep : ascii) (a b : string) :
  JS.split sep (a ++ String sep b) = (JS.split sep a ++ JS.split sep b)%list.
Proof.
  induction a as [|c a IH]; cbn [append JS.split].
  - now rewrite Ascii.eqb_refl.
  - rewrite IH. destruct (Ascii.eqb c sep); [reflexivity|].
    pose proof (split_nonempty sep a) as Hne.
    destruct (JS.split sep a); [contradiction|reflexivity].
Qed.

Lemma includes_app (l l' : list string) (tok : string) :
  JS.includes (l ++ l') tok = JS.includes l tok || JS.includes l' tok.
Proof. unfold JS.includes. apply existsb_app. Qed.

(** X21: whether the scope check finds a scope does not depend on where it
    stands in the scope string: a scope is found in [a], a space, then [b]
    exactly when it is found in [a] or in [b]; so exchanging the two parts
    of a scope string around a space does not change the verdict of the
    guard. *)
Theorem X21_scope_order_is_irrelevant (a b tok : string) :
  hasScope (a ++ " " ++ b) tok = hasScope a tok || hasScope b tok
  /\ grantsAll (a ++ " " ++ b) = grantsAll (b ++ " " ++ a).
Proof.
  assert (H : forall x y t, hasScope (x ++ " " ++ y) t = hasScope x t || hasScope y t).
  { intros x y t. unfold hasScope.
    change (" " ++ y) with (String " " y). now rewrite split_app, includes_app. }
  split; [apply H|].
  unfold grantsAll. rewrite !H.
  destruct (hasScope a "rwei"), (hasScope a "ract"), (hasScope a "rsle"),
    (hasScope b "rwei"), (hasScope b "ract"), (hasScope b "rsle"); reflexivity.
Qed.

Lemma split_length (sep : ascii) (s : string) :
  length (JS.split sep s) = S (occurrences sep s).
Proof.
  induction s as [|c s IH]; cbn [JS.split occurrences]; [reflexivity|].
  destruct (Ascii.eqb c sep); cbn [length]; [now rewrite IH|].
  pose proof (split_nonempty sep s) as Hne.
  destruct (JS.split sep s); [contradiction|]. cbn [length] in *. lia.
Qed.

Lemma grantsAll_three_pieces (s : string) :
  grantsAll s = true -> (3 <= length (JS.split " " s))%nat.
Proof.
  intros Hall. destruct (grantsAll_true s Hall) as (H1 & H2 & H3).
  unfold hasScope in *. apply includes_In in H1, H2, H3.
  change 3%nat with (length ["rwei"; "ract"; "rsle"]).
  apply NoDup_incl_length.
  - repeat constructor; simpl; intuition discriminate.
  - intros t [<-|[<-|[<-|[]]]]; assumption.
Qed.

(** X22: a scope string with fewer than two spaces cannot pass the scope
    check, whatever it says: [subscribeFitbitEvents] rejects with the scope
    [ValidationException] and subscribes to nothing. *)
Theorem X22_short_scope_string_rejected (W D : Type) (env : Env W D)
        (data : UserAuthData) (g : FitbitAuthData) (s : string) (w : W) :
  fitbit data = Some g ->
  scope g = Some s ->
  (occurrences " " s < 2)%nat ->
  subscribeFitbitEvents env data w
  = mkOutcome (Err (ValidationException MSG_SCOPE DESC_SCOPE)) w [].
Proof.
  intros Hg Hs Hshort.
  apply (subscribeFitbitEvents_rejected env data w Hg Hs).
  rewrite grantsAll_guard. apply negb_true_iff.
  destruct (grantsAll s) eqn:Hall; [|reflexivity].
  apply grantsAll_three_pieces in Hall. rewrite split_length in Hall. lia.
Qed.

Lemma X22_short_scope_string_rejected_witness :
  subscribeFitbitEvents (happyEnv None)
    (record "5a62be07de34500146d9c544" "tok-abc" "rwei,ract,rsle activity") tt
  = mkOutcome (Err (ValidationException MSG_SCOPE DESC_SCOPE)) tt [].
Proof.
  apply (@X22_short_scope_string_rejected unit unit (happyEnv None)
           (record "5a62be07de34500146d9c544" "tok-abc" "rwei,ract,rsle activity")
           (credential "tok-abc" "rwei,ract,rsle activity")
           "rwei,ract,rsle activity" tt eq_refl eq_refl).
  vm_compute. lia.
Defined.
